(** * LiteSDCard driver (liblitesdcard/sdcard.c): shallow embedding

    The driver talks to the SD core through memory-mapped registers and
    busy-polls them.  The embedding keeps the code's shape:

    - every register access, delay, printf and cache flush is an [event];
    - the hardware is an oracle [hw : list event -> csr -> Z] giving the value
      of a register read after a given history of events;
    - a driver function is a computation [M A]: from fuel and the history so
      far it yields either [Done a d] (returned [a], having emitted the
      events [d]) or [OutOfFuel d] (still looping after emitting [d]).
      Only the unbounded polling / retry loops consume fuel.

    Build options fixed as in the source: SDCARD_DEBUG is not defined. *)

From Stdlib Require Import ZArith List Lia Bool String.
Import ListNotations.
Open Scope Z_scope.

Set Implicit Arguments.

(** ** Machine integers *)

Definition u8  (x : Z) : Z := x mod 2 ^ 8.
Definition u16 (x : Z) : Z := x mod 2 ^ 16.
Definition u32 (x : Z) : Z := x mod 2 ^ 32.

(** #define DIV_ROUND_UP(n, d) (((n) + (d) - 1) / (d)); the integer type the
    macro is evaluated at is applied by its user. *)
Definition DIV_ROUND_UP (wrap : Z -> Z) (n d : Z) : Z :=
  wrap (wrap (wrap (wrap n + d) - 1) / d).

(** ** Registers and events *)

(** Modelled from the spec: generated/csr.h is not among the sources; these
    are the registers of the register-level contract (spec section 6) behind
    the accessors [sdcard_*_read] / [sdcard_*_write] the driver calls. *)
Inductive csr : Type :=
| SDCARD_CORE_CMD_ARGUMENT
| SDCARD_CORE_CMD_COMMAND
| SDCARD_CORE_CMD_SEND
| SDCARD_CORE_CMD_RESPONSE (word : nat)
| SDCARD_CORE_CMD_EVENT
| SDCARD_CORE_DATA_EVENT
| SDCARD_CORE_BLOCK_LENGTH
| SDCARD_CORE_BLOCK_COUNT
| SDCARD_PHY_CLOCKER_DIVIDER
| SDCARD_PHY_INIT_INITIALIZE
| SDCARD_PHY_SETTINGS
| SDCARD_BLOCK2MEM_DMA_ENABLE
| SDCARD_BLOCK2MEM_DMA_BASE
| SDCARD_BLOCK2MEM_DMA_LENGTH
| SDCARD_BLOCK2MEM_DMA_DONE
| SDCARD_MEM2BLOCK_DMA_ENABLE
| SDCARD_MEM2BLOCK_DMA_BASE
| SDCARD_MEM2BLOCK_DMA_LENGTH
| SDCARD_MEM2BLOCK_DMA_DONE.

Inductive event : Type :=
| CsrWrite (r : csr) (v : Z)
| CsrRead (r : csr) (v : Z)
| BusyWait (ms : Z)
| BusyWaitUs (us : Z)
| Printf (fmt : string) (args : list Z)
| FlushCpuDcache
| FlushL2Cache.

(** Modelled from the spec: sdcard.h is not among the sources; the three
    results of a command or data wait (spec section 4.2: Ok, Timeout,
    CrcError), under the names the code returns. *)
Inductive sd_result : Type := SD_OK | SD_CRCERROR | SD_TIMEOUT.

Definition is_SD_OK (r : sd_result) : bool :=
  match r with SD_OK => true | _ => false end.

(** Constants of headers that are not among the sources (generated/soc.h,
    sdcard.h, libfatfs/diskio.h, the C ABI) and the build switches of
    sdcard.c. *)
Record build : Type := {
  CONFIG_CLOCK_FREQUENCY : Z;
  ULONG_BITS : Z;                       (* width of unsigned long *)
  CONFIG_CPU_HAS_DMA_BUS : bool;
  SDCARD_CMD23_SUPPORT : bool;
  SDCARD_CMD18_SUPPORT : bool;
  SDCARD_CMD25_SUPPORT : bool;
  SDCARD_CLK_FREQ_INIT : Z;
  SDCARD_CLK_FREQ : Z;
  SDCARD_CTRL_RESPONSE_NONE : Z;
  SDCARD_CTRL_RESPONSE_SHORT : Z;
  SDCARD_CTRL_RESPONSE_LONG : Z;
  SDCARD_CTRL_RESPONSE_SHORT_BUSY : Z;
  SDCARD_CTRL_DATA_TRANSFER_READ : Z;
  SDCARD_CTRL_DATA_TRANSFER_WRITE : Z;
  SD_SWITCH_SWITCH : Z;
  SD_GROUP_ACCESSMODE : Z;
  SD_SPEED_SDR25 : Z;
  SD_PHY_SPEED_4X : Z;
  STA_NOINIT : Z
}.

(** ** The computation monad *)

Inductive outcome (A : Type) : Type :=
| Done (a : A) (d : list event)
| OutOfFuel (d : list event).
Arguments OutOfFuel {A} d.

Definition events {A} (o : outcome A) : list event :=
  match o with Done _ d => d | OutOfFuel d => d end.

Definition M (A : Type) : Type := nat -> list event -> outcome A.

Definition ret {A} (a : A) : M A := fun _ _ => Done a [].

Definition bind {A B} (m : M A) (k : A -> M B) : M B :=
  fun fuel h =>
    match m fuel h with
    | Done a d1 =>
        match k a fuel (h ++ d1) with
        | Done b d2 => Done b (d1 ++ d2)
        | OutOfFuel d2 => OutOfFuel (d1 ++ d2)
        end
    | OutOfFuel d1 => OutOfFuel d1
    end.

Notation "x <- m ;; k" := (bind m (fun x => k))
  (at level 61, m at next level, right associativity).
Notation "m ;; k" := (bind m (fun _ => k))
  (at level 61, right associativity).

(** A loop: [body] either continues with a new loop state or breaks with the
    result.  [n] bounds the number of iterations that are run. *)
Fixpoint iter_fuel {St A} (body : St -> M (St + A)) (n : nat) (s : St) : M A :=
  match n with
  | O => fun _ _ => OutOfFuel []
  | S n' =>
      r <- body s ;;
      match r with
      | inl s' => iter_fuel body n' s'
      | inr a => ret a
      end
  end.

Definition iter {St A} (body : St -> M (St + A)) (s : St) : M A :=
  fun fuel => iter_fuel body fuel s fuel.

(** [while (cond);] *)
Definition while_ (cond : M bool) : M unit :=
  iter (fun _ : unit => c <- cond ;; ret (if c then inl tt else inr tt)) tt.

(** [returns m h a d]: run after history [h], [m] returns [a] having emitted
    [d], whatever the fuel above some bound. *)
Definition returns {A} (m : M A) (h : list event) (a : A) (d : list event) : Prop :=
  exists N : nat, forall fuel, (N <= fuel)%nat -> m fuel h = Done a d.

(** [diverges m h]: [m] never returns after history [h]. *)
Definition diverges {A} (m : M A) (h : list event) : Prop :=
  forall fuel, exists d, m fuel h = OutOfFuel d.

(** Every event [m] can emit, in finished and unfinished runs, satisfies [P]. *)
Definition all_events {A} (P : event -> Prop) (m : M A) : Prop :=
  forall fuel h, Forall P (events (m fuel h)).

Section Driver.

Variable cfg : build.
Variable hw : list event -> csr -> Z.

(** *** Primitive effects *)

Definition csr_write (r : csr) (v : Z) : M unit :=
  fun _ _ => Done tt [CsrWrite r v].

Definition csr_read (r : csr) : M Z :=
  fun _ h => let v := u32 (hw h r) in Done v [CsrRead r v].

Definition busy_wait (ms : Z) : M unit := fun _ _ => Done tt [BusyWait ms].
Definition busy_wait_us (us : Z) : M unit := fun _ _ => Done tt [BusyWaitUs us].
Definition printf (fmt : string) (args : list Z) : M unit :=
  fun _ _ => Done tt [Printf fmt args].
Definition flush_cpu_dcache : M unit := fun _ _ => Done tt [FlushCpuDcache].
Definition flush_l2_cache : M unit := fun _ _ => Done tt [FlushL2Cache].

Definition ulong (x : Z) : Z := x mod 2 ^ ULONG_BITS cfg.

(** Modelled from the spec: csr_rd_buf_uint32 and SD_CMD_RESPONSE_SIZE are
    not among the sources; the response is four 32-bit words read back from
    the response register block (spec section 3, CardResponse). *)
Definition csr_rd_buf_uint32_response : M (Z * Z * Z * Z) :=
  r0 <- csr_read (SDCARD_CORE_CMD_RESPONSE 0) ;;
  r1 <- csr_read (SDCARD_CORE_CMD_RESPONSE 1) ;;
  r2 <- csr_read (SDCARD_CORE_CMD_RESPONSE 2) ;;
  r3 <- csr_read (SDCARD_CORE_CMD_RESPONSE 3) ;;
  ret (r0, r1, r2, r3).

(** *** SDCard command helpers *)

Definition sdcard_wait_cmd_done : M sd_result :=
  event <- iter (fun _ : unit =>
                   event <- csr_read SDCARD_CORE_CMD_EVENT ;;
                   busy_wait_us 10 ;;
                   if Z.land event 1 =? 0 then ret (inl tt) else ret (inr event)) tt ;;
  if negb (Z.land event 4 =? 0) then ret SD_TIMEOUT
  else if negb (Z.land event 8 =? 0) then ret SD_CRCERROR
  else ret SD_OK.

Definition sdcard_wait_data_done : M sd_result :=
  event <- iter (fun _ : unit =>
                   event <- csr_read SDCARD_CORE_DATA_EVENT ;;
                   if negb (Z.land event 1 =? 0) then ret (inr event)
                   else busy_wait_us 10 ;; ret (inl tt)) tt ;;
  if negb (Z.land event 4 =? 0) then ret SD_TIMEOUT
  else if negb (Z.land event 8 =? 0) then ret SD_CRCERROR
  else ret SD_OK.

(** *** SDCard clocker functions *)

Definition sdcard_set_clk_freq (clk_freq : Z) (show : Z) : M unit :=
  let divider :=
    u32 (if clk_freq =? 0 then 256
         else DIV_ROUND_UP ulong (CONFIG_CLOCK_FREQUENCY cfg) clk_freq) in
  let divider := Z.min (Z.max divider 2) 256 in
  (if show =? 0 then ret tt
   else
     (* this is the effective new clk_freq *)
     let clk_freq :=
       ulong (u32 (CONFIG_CLOCK_FREQUENCY cfg)
              / Z.land (u32 (divider + 1)) (u32 (Z.lnot 1))) in
     printf "Setting SDCard clk freq to " [] ;;
     if clk_freq >? 1000000 then printf "%ld MHz\n" [clk_freq / 1000000]
     else printf "%ld KHz\n" [clk_freq / 1000]) ;;
  csr_write SDCARD_PHY_CLOCKER_DIVIDER divider.

(** *** SDCard commands functions *)

Definition sdcard_send_command (arg cmd rsp : Z) : M sd_result :=
  csr_write SDCARD_CORE_CMD_ARGUMENT (u32 arg) ;;
  csr_write SDCARD_CORE_CMD_COMMAND (Z.lor (Z.shiftl (u8 cmd) 8) (u8 rsp)) ;;
  csr_write SDCARD_CORE_CMD_SEND 1 ;;
  sdcard_wait_cmd_done.

Definition sdcard_go_idle : M sd_result :=
  sdcard_send_command 0 0 (SDCARD_CTRL_RESPONSE_NONE cfg).

Definition sdcard_send_ext_csd : M sd_result :=
  let arg := 0x000001aa in
  sdcard_send_command arg 8 (SDCARD_CTRL_RESPONSE_SHORT cfg).

Definition sdcard_app_cmd (rca : Z) : M sd_result :=
  sdcard_send_command (Z.shiftl (u16 rca) 16) 55 (SDCARD_CTRL_RESPONSE_SHORT cfg).

Definition sdcard_app_send_op_cond (hcs : Z) : M sd_result :=
  let arg := 0x10ff8000 in
  let arg := if hcs =? 0 then arg else Z.lor arg 0x60000000 in
  sdcard_send_command arg 41 (SDCARD_CTRL_RESPONSE_SHORT_BUSY cfg).

Definition sdcard_all_send_cid : M sd_result :=
  sdcard_send_command 0 2 (SDCARD_CTRL_RESPONSE_LONG cfg).

Definition sdcard_set_relative_address : M sd_result :=
  sdcard_send_command 0 3 (SDCARD_CTRL_RESPONSE_SHORT cfg).

Definition sdcard_send_cid (rca : Z) : M sd_result :=
  sdcard_send_command (Z.shiftl (u16 rca) 16) 10 (SDCARD_CTRL_RESPONSE_LONG cfg).

Definition sdcard_send_csd (rca : Z) : M sd_result :=
  sdcard_send_command (Z.shiftl (u16 rca) 16) 9 (SDCARD_CTRL_RESPONSE_LONG cfg).

Definition sdcard_select_card (rca : Z) : M sd_result :=
  sdcard_send_command (Z.shiftl (u16 rca) 16) 7 (SDCARD_CTRL_RESPONSE_SHORT_BUSY cfg).

Definition sdcard_app_set_bus_width : M sd_result :=
  sdcard_send_command 2 6 (SDCARD_CTRL_RESPONSE_SHORT cfg).

(** The command/response code of a data-bearing command:
    (direction << 5) | SDCARD_CTRL_RESPONSE_SHORT. *)
Definition data_rsp (direction : Z) : Z :=
  Z.lor (Z.shiftl direction 5) (SDCARD_CTRL_RESPONSE_SHORT cfg).

(** [while (sdcard_send_command(arg, cmd, rsp) != SD_OK);] *)
Definition retry_command (arg cmd rsp : Z) : M unit :=
  while_ (r <- sdcard_send_command arg cmd rsp ;; ret (negb (is_SD_OK r))).

Definition sdcard_switch (mode group value : Z) : M sd_result :=
  let arg := u32 (Z.lor (Z.shiftl mode 31) 0xffffff) in
  let arg := Z.land arg (u32 (Z.lnot (Z.shiftl 0xf (u32 (group * 4))))) in
  let arg := Z.lor arg (u32 (Z.shiftl value (u32 (group * 4)))) in
  csr_write SDCARD_CORE_BLOCK_LENGTH 64 ;;
  csr_write SDCARD_CORE_BLOCK_COUNT 1 ;;
  retry_command arg 6 (data_rsp (SDCARD_CTRL_DATA_TRANSFER_READ cfg)) ;;
  sdcard_wait_data_done.

Definition sdcard_app_send_scr : M sd_result :=
  csr_write SDCARD_CORE_BLOCK_LENGTH 8 ;;
  csr_write SDCARD_CORE_BLOCK_COUNT 1 ;;
  retry_command 0 51 (data_rsp (SDCARD_CTRL_DATA_TRANSFER_READ cfg)) ;;
  sdcard_wait_data_done.

Definition sdcard_app_set_blocklen (blocklen : Z) : M sd_result :=
  sdcard_send_command blocklen 16 (SDCARD_CTRL_RESPONSE_SHORT cfg).

Definition sdcard_write_single_block (blockaddr : Z) : M sd_result :=
  csr_write SDCARD_CORE_BLOCK_LENGTH 512 ;;
  csr_write SDCARD_CORE_BLOCK_COUNT 1 ;;
  retry_command blockaddr 24 (data_rsp (SDCARD_CTRL_DATA_TRANSFER_WRITE cfg)) ;;
  ret SD_OK.

Definition sdcard_write_multiple_block (blockaddr blockcnt : Z) : M sd_result :=
  csr_write SDCARD_CORE_BLOCK_LENGTH 512 ;;
  csr_write SDCARD_CORE_BLOCK_COUNT blockcnt ;;
  retry_command blockaddr 25 (data_rsp (SDCARD_CTRL_DATA_TRANSFER_WRITE cfg)) ;;
  ret SD_OK.

Definition sdcard_read_single_block (blockaddr : Z) : M sd_result :=
  csr_write SDCARD_CORE_BLOCK_LENGTH 512 ;;
  csr_write SDCARD_CORE_BLOCK_COUNT 1 ;;
  retry_command blockaddr 17 (data_rsp (SDCARD_CTRL_DATA_TRANSFER_READ cfg)) ;;
  sdcard_wait_data_done.

Definition sdcard_read_multiple_block (blockaddr blockcnt : Z) : M sd_result :=
  csr_write SDCARD_CORE_BLOCK_LENGTH 512 ;;
  csr_write SDCARD_CORE_BLOCK_COUNT blockcnt ;;
  retry_command blockaddr 18 (data_rsp (SDCARD_CTRL_DATA_TRANSFER_READ cfg)) ;;
  sdcard_wait_data_done.

Definition sdcard_stop_transmission : M sd_result :=
  sdcard_send_command 0 12 (SDCARD_CTRL_RESPONSE_SHORT_BUSY cfg).

Definition sdcard_send_status (rca : Z) : M sd_result :=
  sdcard_send_command (Z.shiftl (u16 rca) 16) 13 (SDCARD_CTRL_RESPONSE_SHORT cfg).

Definition sdcard_set_block_count (blockcnt : Z) : M sd_result :=
  sdcard_send_command blockcnt 23 (SDCARD_CTRL_RESPONSE_SHORT cfg).

Definition sdcard_decode_rca : M Z :=
  r <- csr_rd_buf_uint32_response ;;
  let '(_, _, _, r3) := r in
  ret (u16 (Z.land (Z.shiftr r3 16) 0xffff)).

(** *** SDCard user functions *)

(** [for (timeout=1000; timeout>0; timeout--)] of the idle handshake; the
    result is the value of [timeout] when the loop is left. *)
Fixpoint go_idle_loop (timeout : nat) : M nat :=
  match timeout with
  | O => ret O
  | S t =>
      (* Set SDCard in SPI Mode (generate 80 dummy clocks) *)
      csr_write SDCARD_PHY_INIT_INITIALIZE 1 ;;
      busy_wait 1 ;;
      (* Set SDCard in Idle state *)
      r <- sdcard_go_idle ;;
      if is_SD_OK r then ret timeout
      else busy_wait 1 ;; go_idle_loop t
  end.

(** The second [for (timeout=1000; ...)] loop: Set SDCard in Operational
    state. *)
Fixpoint op_cond_loop (timeout : nat) : M nat :=
  match timeout with
  | O => ret O
  | S t =>
      sdcard_app_cmd 0 ;;
      r <- sdcard_app_send_op_cond 1 ;;
      if is_SD_OK r then
        resp <- csr_rd_buf_uint32_response ;;
        let '(_, _, _, r3) := resp in
        (* Busy bit, set when init is complete *)
        if negb (Z.land r3 0x80000000 =? 0) then ret timeout
        else busy_wait 1 ;; op_cond_loop t
      else busy_wait 1 ;; op_cond_loop t
  end.

(** [if (c != SD_OK) return 0;] followed by the rest of the function. *)
Definition ok_or_0 (c : M sd_result) (rest : M Z) : M Z :=
  r <- c ;; if is_SD_OK r then rest else ret 0.

Definition sdcard_init : M Z :=
  (* Set SD clk freq to Initialization frequency *)
  sdcard_set_clk_freq (SDCARD_CLK_FREQ_INIT cfg) 0 ;;
  busy_wait 1 ;;
  timeout <- go_idle_loop 1000 ;;
  if Nat.eqb timeout 0 then ret 0 else
  (* Set SDCard voltages, only supported by ver2.00+ SDCards *)
  ok_or_0 sdcard_send_ext_csd (
  (* Set SD clk freq to Operational frequency *)
  sdcard_set_clk_freq (SDCARD_CLK_FREQ cfg) 0 ;;
  busy_wait 1 ;;
  (* Set SDCard in Operational state *)
  timeout <- op_cond_loop 1000 ;;
  if Nat.eqb timeout 0 then ret 0 else
  (* Send identification *)
  ok_or_0 sdcard_all_send_cid (
  (* Set Relative Card Address (RCA) *)
  ok_or_0 sdcard_set_relative_address (
  rca <- sdcard_decode_rca ;;
  (* Set CID *)
  ok_or_0 (sdcard_send_cid rca) (
  (* Set CSD *)
  ok_or_0 (sdcard_send_csd rca) (
  (* Select card *)
  ok_or_0 (sdcard_select_card rca) (
  (* Set 4-bit bus width *)
  ok_or_0 (sdcard_app_cmd rca) (
  ok_or_0 sdcard_app_set_bus_width (
  csr_write SDCARD_PHY_SETTINGS (SD_PHY_SPEED_4X cfg) ;;
  (* Switch speed *)
  ok_or_0 (sdcard_switch (SD_SWITCH_SWITCH cfg) (SD_GROUP_ACCESSMODE cfg)
                         (SD_SPEED_SDR25 cfg)) (
  (* Send SCR *)
  ok_or_0 (sdcard_app_cmd rca) (
  ok_or_0 sdcard_app_send_scr (
  (* Set block length *)
  ok_or_0 (sdcard_app_set_blocklen 512) (
  ret 1)))))))))))).

(** One pass through the body of [while (count)] in [sdcard_read]; the loop
    state is (block, count, buf). *)
Definition sdcard_read_body (st : Z * Z * Z) : M (Z * Z * Z + unit) :=
  let '(block, count, buf) := st in
  if count =? 0 then ret (inr tt) else
  let nblocks := if SDCARD_CMD18_SUPPORT cfg then count else 1 in
  (* Initialize DMA Writer *)
  csr_write SDCARD_BLOCK2MEM_DMA_ENABLE 0 ;;
  csr_write SDCARD_BLOCK2MEM_DMA_BASE buf ;;
  csr_write SDCARD_BLOCK2MEM_DMA_LENGTH (u32 (512 * nblocks)) ;;
  csr_write SDCARD_BLOCK2MEM_DMA_ENABLE 1 ;;
  (* Read Block(s) from SDCard *)
  (if SDCARD_CMD23_SUPPORT cfg
   then sdcard_set_block_count nblocks ;; ret tt else ret tt) ;;
  (if nblocks >? 1 then sdcard_read_multiple_block block nblocks
   else sdcard_read_single_block block) ;;
  (* Wait for DMA Writer to complete *)
  while_ (v <- csr_read SDCARD_BLOCK2MEM_DMA_DONE ;; ret (Z.land v 1 =? 0)) ;;
  (* Stop transmission (Only for multiple block reads) *)
  (if nblocks >? 1 then sdcard_stop_transmission ;; ret tt else ret tt) ;;
  (* Update Block/Buffer/Count *)
  ret (inl (u32 (block + nblocks), u32 (count - nblocks),
            buf + u32 (512 * nblocks))).

Definition sdcard_read (block count buf : Z) : M unit :=
  iter sdcard_read_body (block, count, buf) ;;
  (* Flush caches *)
  if CONFIG_CPU_HAS_DMA_BUS cfg then ret tt
  else flush_cpu_dcache ;; flush_l2_cache.

(** One pass through the body of [while (count)] in [sdcard_write]. *)
Definition sdcard_write_body (st : Z * Z * Z) : M (Z * Z * Z + unit) :=
  let '(block, count, buf) := st in
  if count =? 0 then ret (inr tt) else
  let nblocks := if SDCARD_CMD25_SUPPORT cfg then count else 1 in
  (* Initialize DMA Reader *)
  csr_write SDCARD_MEM2BLOCK_DMA_ENABLE 0 ;;
  csr_write SDCARD_MEM2BLOCK_DMA_BASE buf ;;
  csr_write SDCARD_MEM2BLOCK_DMA_LENGTH (u32 (512 * nblocks)) ;;
  csr_write SDCARD_MEM2BLOCK_DMA_ENABLE 1 ;;
  (* Write Block(s) to SDCard *)
  (if SDCARD_CMD23_SUPPORT cfg
   then sdcard_set_block_count nblocks ;; ret tt else ret tt) ;;
  (if nblocks >? 1 then sdcard_write_multiple_block block nblocks
   else sdcard_write_single_block block) ;;
  (* Stop transmission (Only for multiple block writes) *)
  (if nblocks >? 1 then sdcard_stop_transmission ;; ret tt else ret tt) ;;
  (* Wait for DMA Reader to complete *)
  while_ (v <- csr_read SDCARD_MEM2BLOCK_DMA_DONE ;; ret (Z.land v 1 =? 0)) ;;
  (* Update Block/Buffer/Count *)
  ret (inl (u32 (block + nblocks), u32 (count - nblocks),
            buf + u32 (512 * nblocks))).

Definition sdcard_write (block count buf : Z) : M unit :=
  iter sdcard_write_body (block, count, buf).

(** *** SDCard FatFs disk functions *)

(** [static DSTATUS sdcardstatus = STA_NOINIT;] DSTATUS is a byte.  The disk
    functions take the current value of the variable and return their result
    together with the value they leave in it. *)
Definition sdcardstatus_initial : Z := u8 (STA_NOINIT cfg).

Definition sd_disk_status (drv : Z) (sdcardstatus : Z) : M (Z * Z) :=
  if negb (drv =? 0) then ret (u8 (STA_NOINIT cfg), sdcardstatus)
  else ret (sdcardstatus, sdcardstatus).

Definition sd_disk_initialize (drv : Z) (sdcardstatus : Z) : M (Z * Z) :=
  if negb (drv =? 0) then ret (u8 (STA_NOINIT cfg), sdcardstatus)
  else if negb (sdcardstatus =? 0) then
    r <- sdcard_init ;;
    let sdcardstatus := u8 (if negb (r =? 0) then 0 else STA_NOINIT cfg) in
    ret (sdcardstatus, sdcardstatus)
  else ret (sdcardstatus, sdcardstatus).

End Driver.

(** ** Sample build and stub hardware *)

(** The switches as sdcard.c sets them (CMD18 and CMD25 on, CMD23 off, the
    two clock defaults); sample values for the constants of the absent
    headers. *)
Definition sample_build : build := {|
  CONFIG_CLOCK_FREQUENCY := 100000000;
  ULONG_BITS := 32;
  CONFIG_CPU_HAS_DMA_BUS := false;
  SDCARD_CMD23_SUPPORT := false;
  SDCARD_CMD18_SUPPORT := true;
  SDCARD_CMD25_SUPPORT := true;
  SDCARD_CLK_FREQ_INIT := 400000;
  SDCARD_CLK_FREQ := 25000000;
  SDCARD_CTRL_RESPONSE_NONE := 0;
  SDCARD_CTRL_RESPONSE_SHORT := 1;
  SDCARD_CTRL_RESPONSE_LONG := 2;
  SDCARD_CTRL_RESPONSE_SHORT_BUSY := 3;
  SDCARD_CTRL_DATA_TRANSFER_READ := 1;
  SDCARD_CTRL_DATA_TRANSFER_WRITE := 2;
  SD_SWITCH_SWITCH := 1;
  SD_GROUP_ACCESSMODE := 0;
  SD_SPEED_SDR25 := 1;
  SD_PHY_SPEED_4X := 1;
  STA_NOINIT := 1
|}.

(** The same build with the multi-block commands switched off. *)
Definition single_block_build : build := {|
  CONFIG_CLOCK_FREQUENCY := 100000000;
  ULONG_BITS := 32;
  CONFIG_CPU_HAS_DMA_BUS := false;
  SDCARD_CMD23_SUPPORT := false;
  SDCARD_CMD18_SUPPORT := false;
  SDCARD_CMD25_SUPPORT := false;
  SDCARD_CLK_FREQ_INIT := 400000;
  SDCARD_CLK_FREQ := 25000000;
  SDCARD_CTRL_RESPONSE_NONE := 0;
  SDCARD_CTRL_RESPONSE_SHORT := 1;
  SDCARD_CTRL_RESPONSE_LONG := 2;
  SDCARD_CTRL_RESPONSE_SHORT_BUSY := 3;
  SDCARD_CTRL_DATA_TRANSFER_READ := 1;
  SDCARD_CTRL_DATA_TRANSFER_WRITE := 2;
  SD_SWITCH_SWITCH := 1;
  SD_GROUP_ACCESSMODE := 0;
  SD_SPEED_SDR25 := 1;
  SD_PHY_SPEED_4X := 1;
  STA_NOINIT := 1
|}.

(** No card: no flag of any register is ever set. *)
Definition hw_absent : list event -> csr -> Z := fun _ _ => 0.

(** Every command, data phase and DMA transfer is done at the first poll
    without error; the card reports ready (bit 31 of response word 3). *)
Definition hw_ok : list event -> csr -> Z :=
  fun _ r =>
    match r with
    | SDCARD_CORE_CMD_RESPONSE 3 => 0x80010000
    | SDCARD_CORE_CMD_RESPONSE _ => 0
    | _ => 1
    end.

(** Every command completes at the first poll with the timeout flag. *)
Definition hw_timeout : list event -> csr -> Z :=
  fun _ r => match r with SDCARD_CORE_CMD_EVENT => 5 | _ => 0 end.

(** Every command completes at the first poll without error, but the card
    never reports ready: bit 31 of response word 3 stays clear. *)
Definition hw_never_ready : list event -> csr -> Z :=
  fun _ r => match r with SDCARD_CORE_CMD_EVENT => 1 | _ => 0 end.

(** ** Observations on event lists *)

Scheme Equality for csr.

(** A read of register [r]. *)
Definition is_read (r : csr) (e : event) : bool :=
  match e with CsrRead r' _ => csr_beq r r' | _ => false end.

(** A write to register [r]. *)
Definition is_write (r : csr) (e : event) : bool :=
  match e with CsrWrite r' _ => csr_beq r r' | _ => false end.

(** The values written to register [r], in order. *)
Definition written (r : csr) (d : list event) : list Z :=
  flat_map (fun e => match e with
                     | CsrWrite r' v => if csr_beq r r' then [v] else []
                     | _ => []
                     end) d.

(** The command register holds (opcode << 8) | response code: a write that
    issues the command with opcode [op]. *)
Definition is_command (op : Z) (e : event) : bool :=
  match e with
  | CsrWrite SDCARD_CORE_CMD_COMMAND v => Z.shiftr v 8 =? op
  | _ => false
  end.

Definition occurrences (P : event -> bool) (d : list event) : nat :=
  List.length (filter P d).

(** Every [Q] event of [d] comes after some [P] event of [d]. *)
Definition precedes (P Q : event -> bool) (d : list event) : Prop :=
  forall pre e post, d = pre ++ e :: post -> Q e = true -> existsb P pre = true.

(** A read of register [r] that finds bit 0 (done) set. *)
Definition is_done_read (r : csr) (e : event) : bool :=
  match e with CsrRead r' v => csr_beq r r' && Z.testbit v 0 | _ => false end.

(** ** Hardware behaviour seen by a polling loop *)

Section Polling.

Variable hw : list event -> csr -> Z.

(** [first_done r tail_done tail_busy h ev d]: polling register [r] after
    history [h], the done flag (bit 0) is first seen in the value [ev]; [d]
    are the events of the polling, each read followed by [tail_busy] when the
    flag is clear and by [tail_done] when it is set. *)
Inductive first_done (r : csr) (tail_done tail_busy : list event)
  : list event -> Z -> list event -> Prop :=
| first_done_now h ev :
    ev = u32 (hw h r) -> Z.testbit ev 0 = true ->
    first_done r tail_done tail_busy h ev (CsrRead r ev :: tail_done)
| first_done_later h v ev d :
    v = u32 (hw h r) -> Z.testbit v 0 = false ->
    first_done r tail_done tail_busy (h ++ CsrRead r v :: tail_busy) ev d ->
    first_done r tail_done tail_busy h ev (CsrRead r v :: tail_busy ++ d).

(** The command-event line, as [sdcard_wait_cmd_done] polls it. *)
Definition cmd_done_after : list event -> Z -> list event -> Prop :=
  first_done SDCARD_CORE_CMD_EVENT [BusyWaitUs 10] [BusyWaitUs 10].

(** The data-event line, as [sdcard_wait_data_done] polls it. *)
Definition data_done_after : list event -> Z -> list event -> Prop :=
  first_done SDCARD_CORE_DATA_EVENT [] [BusyWaitUs 10].

(** The done flag of a DMA engine, as the transfer loops poll it. *)
Definition dma_done_after (r : csr) : list event -> Z -> list event -> Prop :=
  first_done r [] [].

End Polling.

(** [iter_returns body s h a d]: the loop started in state [s] after history
    [h] leaves with [a] having emitted [d], whatever the bounds above some
    number. *)
Definition iter_returns {St A} (body : St -> M (St + A)) (s : St)
  (h : list event) (a : A) (d : list event) : Prop :=
  exists N : nat, forall n fuel, (N <= n)%nat -> (N <= fuel)%nat ->
    iter_fuel body n s fuel h = Done a d.

(** [d] splits in a first phase of [P1] events and a second of [P2] events;
    when the second phase has begun, the first satisfies [G]. *)
Definition phases (P1 P2 : event -> Prop) (G : list event -> Prop)
  (d : list event) : Prop :=
  exists d1 d2, d = d1 ++ d2 /\ Forall P1 d1 /\ Forall P2 d2 /\ (d2 <> [] -> G d1).

(** ** Vocabulary of the statements *)

(** A loop body that reads register [r] once, leaves with [f v] when the
    done flag of the value [v] read is set, and goes round again otherwise. *)
Definition polls {A} (hw : list event -> csr -> Z)
  (body : unit -> M (unit + A)) (r : csr) (f : Z -> A)
  (tail_done tail_busy : list event) : Prop :=
  forall fuel h,
    body tt fuel h =
    if Z.testbit (u32 (hw h r)) 0
    then Done (inr (f (u32 (hw h r)))) (CsrRead r (u32 (hw h r)) :: tail_done)
    else Done (inl tt) (CsrRead r (u32 (hw h r)) :: tail_busy).

(** The three-way result both wait functions compute from the event value. *)
Definition flags_result (ev : Z) : sd_result :=
  if Z.testbit ev 2 then SD_TIMEOUT
  else if Z.testbit ev 3 then SD_CRCERROR else SD_OK.

(** The three register writes by which [sdcard_send_command] issues a
    command. *)
Definition cmd_writes (arg cmd rsp : Z) : list event :=
  [CsrWrite SDCARD_CORE_CMD_ARGUMENT (u32 arg);
   CsrWrite SDCARD_CORE_CMD_COMMAND (Z.lor (Z.shiftl (u8 cmd) 8) (u8 rsp));
   CsrWrite SDCARD_CORE_CMD_SEND 1].

(** What [sdcard_send_command] can emit for the command with opcode [op]. *)
Definition command_event (op : Z) (e : event) : Prop :=
  match e with
  | CsrWrite SDCARD_CORE_CMD_ARGUMENT _ => True
  | CsrWrite SDCARD_CORE_CMD_COMMAND v => Z.shiftr v 8 = op
  | CsrWrite SDCARD_CORE_CMD_SEND _ => True
  | CsrRead SDCARD_CORE_CMD_EVENT _ => True
  | BusyWaitUs _ => True
  | _ => False
  end.

(** What [sdcard_wait_data_done] can emit. *)
Definition data_wait_event (e : event) : Prop :=
  match e with
  | CsrRead SDCARD_CORE_DATA_EVENT _ => True
  | BusyWaitUs _ => True
  | _ => False
  end.

(** Events of anything but the listed kinds of register traffic: used to
    state what a stretch of the driver does not touch. *)
Definition no_write_to (r : csr) (e : event) : Prop := is_write r e = false.

Definition no_read_of (r : csr) (e : event) : Prop := is_read r e = false.

Definition not_command (op : Z) (e : event) : Prop := is_command op e = false.

(** The result [r] is the one the flags of the event value [ev] select:
    timeout flag (bit 2) set: Timeout; else CRC flag (bit 3) set: CrcError;
    else Ok. *)
Definition result_from_flags (ev : Z) (r : sd_result) : Prop :=
  (Z.testbit ev 2 = true -> r = SD_TIMEOUT) /\
  (Z.testbit ev 2 = false -> Z.testbit ev 3 = true -> r = SD_CRCERROR) /\
  (Z.testbit ev 2 = false -> Z.testbit ev 3 = false -> r = SD_OK).

(** Events that write no register: polls and delays. *)
Definition not_a_write (e : event) : Prop :=
  match e with CsrWrite _ _ => False | _ => True end.

(** The command-event register never shows an error flag. *)
Definition cmd_never_fails (hw : list event -> csr -> Z) : Prop :=
  forall h, Z.testbit (u32 (hw h SDCARD_CORE_CMD_EVENT)) 2 = false
            /\ Z.testbit (u32 (hw h SDCARD_CORE_CMD_EVENT)) 3 = false.

(** No persistent failure: each retry loop gets its Ok, each command, data
    phase and DMA transfer is seen done after finitely many polls. *)
Record responsive (hw : list event -> csr -> Z) : Prop := {
  retry_ends : forall arg cmd rsp h,
      exists d, returns (retry_command hw arg cmd rsp) h tt d;
  cmd_ends : forall h, exists ev d, cmd_done_after hw h ev d;
  data_ends : forall h, exists ev d, data_done_after hw h ev d;
  dma_ends : forall r h,
      r = SDCARD_BLOCK2MEM_DMA_DONE \/ r = SDCARD_MEM2BLOCK_DMA_DONE ->
      exists ev d, dma_done_after hw r h ev d
}.

(** [m] returns after every history. *)
Definition completes {A} (m : M A) : Prop :=
  forall h, exists a d, returns m h a d.

(** What [sdcard_init] can emit: the registers it touches, the commands it
    issues, and the block geometry it programs. *)
Definition init_event (e : event) : Prop :=
  match e with
  | CsrWrite SDCARD_PHY_CLOCKER_DIVIDER _ => True
  | CsrWrite SDCARD_PHY_INIT_INITIALIZE v => v = 1
  | CsrWrite SDCARD_PHY_SETTINGS _ => True
  | CsrWrite SDCARD_CORE_CMD_ARGUMENT _ => True
  | CsrWrite SDCARD_CORE_CMD_COMMAND v =>
      In (Z.shiftr v 8) [0; 8; 55; 41; 2; 3; 10; 9; 7; 6; 51; 16]
  | CsrWrite SDCARD_CORE_CMD_SEND _ => True
  | CsrWrite SDCARD_CORE_BLOCK_LENGTH v => v = 64 \/ v = 8
  | CsrWrite SDCARD_CORE_BLOCK_COUNT v => v = 1
  | CsrRead SDCARD_CORE_CMD_EVENT _ => True
  | CsrRead SDCARD_CORE_DATA_EVENT _ => True
  | CsrRead (SDCARD_CORE_CMD_RESPONSE _) _ => True
  | BusyWait _ => True
  | BusyWaitUs _ => True
  | _ => False
  end.

(** The divider [sdcard_set_clk_freq] programs. *)
Definition programmed_divider (cfg : build) (clk_freq : Z) : Z :=
  Z.min (Z.max (u32 (if clk_freq =? 0 then 256
                     else DIV_ROUND_UP (ulong cfg)
                            (CONFIG_CLOCK_FREQUENCY cfg) clk_freq)) 2) 256.

(** The block geometry and the command of a data-bearing command function:
    block length [len], block count [cnt], opcode [op]. *)
Definition geometry_and_command (len cnt op : Z) (e : event) : Prop :=
  match e with
  | CsrWrite SDCARD_CORE_BLOCK_LENGTH v => v = len
  | CsrWrite SDCARD_CORE_BLOCK_COUNT v => v = cnt
  | CsrWrite SDCARD_CORE_CMD_COMMAND v => Z.shiftr v 8 = op
  | _ => True
  end.

(** What [sdcard_read] can emit.  [multi]: the multi-block read command is
    enabled; [cmd23]: SET_BLOCK_COUNT is enabled; [flush]: the caches are
    flushed by software. *)
Definition read_event (multi cmd23 flush : bool) (e : event) : Prop :=
  match e with
  | CsrWrite SDCARD_BLOCK2MEM_DMA_ENABLE v => v = 0 \/ v = 1
  | CsrWrite SDCARD_BLOCK2MEM_DMA_BASE _ => True
  | CsrWrite SDCARD_BLOCK2MEM_DMA_LENGTH _ => True
  | CsrWrite SDCARD_CORE_BLOCK_LENGTH v => v = 512
  | CsrWrite SDCARD_CORE_BLOCK_COUNT v => multi = true \/ v = 1
  | CsrWrite SDCARD_CORE_CMD_ARGUMENT _ => True
  | CsrWrite SDCARD_CORE_CMD_COMMAND v =>
      Z.shiftr v 8 = 17
      \/ (multi = true /\ (Z.shiftr v 8 = 18 \/ Z.shiftr v 8 = 12))
      \/ (cmd23 = true /\ Z.shiftr v 8 = 23)
  | CsrWrite SDCARD_CORE_CMD_SEND _ => True
  | CsrRead SDCARD_CORE_CMD_EVENT _ => True
  | CsrRead SDCARD_CORE_DATA_EVENT _ => True
  | CsrRead SDCARD_BLOCK2MEM_DMA_DONE _ => True
  | BusyWaitUs _ => True
  | FlushCpuDcache => flush = true
  | FlushL2Cache => flush = true
  | _ => False
  end.

(** What [sdcard_write] can emit.  [multi]: the multi-block write command is
    enabled; [cmd23]: SET_BLOCK_COUNT is enabled. *)
Definition write_event (multi cmd23 : bool) (e : event) : Prop :=
  match e with
  | CsrWrite SDCARD_MEM2BLOCK_DMA_ENABLE v => v = 0 \/ v = 1
  | CsrWrite SDCARD_MEM2BLOCK_DMA_BASE _ => True
  | CsrWrite SDCARD_MEM2BLOCK_DMA_LENGTH _ => True
  | CsrWrite SDCARD_CORE_BLOCK_LENGTH v => v = 512
  | CsrWrite SDCARD_CORE_BLOCK_COUNT v => multi = true \/ v = 1
  | CsrWrite SDCARD_CORE_CMD_ARGUMENT _ => True
  | CsrWrite SDCARD_CORE_CMD_COMMAND v =>
      Z.shiftr v 8 = 24
      \/ (multi = true /\ (Z.shiftr v 8 = 25 \/ Z.shiftr v 8 = 12))
      \/ (cmd23 = true /\ Z.shiftr v 8 = 23)
  | CsrWrite SDCARD_CORE_CMD_SEND _ => True
  | CsrRead SDCARD_CORE_CMD_EVENT _ => True
  | CsrRead SDCARD_MEM2BLOCK_DMA_DONE _ => True
  | BusyWaitUs _ => True
  | _ => False
  end.

(** The latest write to register [r] in [pre] wrote [v]. *)
Definition last_write (r : csr) (v : Z) (pre : list event) : Prop :=
  exists p1 p2, pre = p1 ++ CsrWrite r v :: p2 /\ Forall (no_write_to r) p2.

(** The discipline of a DMA engine with enable register [en], base register
    [base] and length register [len]: base and length are written only while
    the engine is disabled, a command is put in the command register only
    while it is enabled. *)
Definition dma_discipline (en base len : csr) (d : list event) : Prop :=
  forall pre e post, d = pre ++ e :: post ->
    (is_write base e || is_write len e = true -> last_write en 0 pre)
    /\ (is_write SDCARD_CORE_CMD_COMMAND e = true -> last_write en 1 pre).

(** Events that write none of the registers of a DMA engine. *)
Definition dma_quiet (en base len : csr) (e : event) : Prop :=
  is_write en e = false /\ is_write base e = false /\ is_write len e = false.

(** The commands sent in [d], each as (opcode, argument): a write to the
    send register sends what the command and argument registers hold.  [arg]
    and [cmd] are the contents of the two registers before [d]. *)
Fixpoint sent (arg cmd : Z) (d : list event) : list (Z * Z) :=
  match d with
  | [] => []
  | CsrWrite SDCARD_CORE_CMD_ARGUMENT a :: d' => sent a cmd d'
  | CsrWrite SDCARD_CORE_CMD_COMMAND v :: d' => sent arg v d'
  | CsrWrite SDCARD_CORE_CMD_SEND _ :: d' => (Z.shiftr cmd 8, arg) :: sent arg cmd d'
  | _ :: d' => sent arg cmd d'
  end.

(** The contents of the argument and the command register after [d]. *)
Fixpoint cmd_regs (arg cmd : Z) (d : list event) : Z * Z :=
  match d with
  | [] => (arg, cmd)
  | CsrWrite SDCARD_CORE_CMD_ARGUMENT a :: d' => cmd_regs a cmd d'
  | CsrWrite SDCARD_CORE_CMD_COMMAND v :: d' => cmd_regs arg v d'
  | _ :: d' => cmd_regs arg cmd d'
  end.

(** The loop states (block, count, buf) in which the passes of a transfer of
    [count] blocks begin: one pass with the multi-block command, else one
    pass per block. *)
Definition pass_states (multi : bool) (block count buf : Z)
  : list (Z * Z * Z) :=
  if multi then (if count =? 0 then [] else [(block, count, buf)])
  else map (fun i => (u32 (block + Z.of_nat i), count - Z.of_nat i,
                      buf + 512 * Z.of_nat i))
           (seq 0 (Z.to_nat count)).

(** The chunk of the pass begun in state [st]: the whole count with the
    multi-block command, else one block. *)
Definition chunk (multi : bool) (st : Z * Z * Z) : Z :=
  let '(_, count, _) := st in if multi then count else 1.

(** The commands of the pass begun in state [st], each as (opcode,
    argument): SET_BLOCK_COUNT for the chunk when it is enabled, the data
    command at the block address (opcode [single_op] for one block,
    [multi_op] for more), STOP_TRANSMISSION after more than one block. *)
Definition pass_commands (cmd23 multi : bool) (single_op multi_op : Z)
  (st : Z * Z * Z) : list (Z * Z) :=
  let '(block, _, _) := st in
  let nblocks := chunk multi st in
  (if cmd23 then [(23, u32 nblocks)] else [])
  ++ [(if nblocks >? 1 then multi_op else single_op, u32 block)]
  ++ (if nblocks >? 1 then [(12, 0)] else []).

(** A write to one of the three registers by which a command is sent. *)
Definition is_command_write (e : event) : bool :=
  is_write SDCARD_CORE_CMD_ARGUMENT e
  || is_write SDCARD_CORE_CMD_COMMAND e
  || is_write SDCARD_CORE_CMD_SEND e.

(** The argument [sdcard_switch] computes for SWITCH_FUNC. *)
Definition switch_argument (mode group value : Z) : Z :=
  let arg := u32 (Z.lor (Z.shiftl mode 31) 0xffffff) in
  let arg := Z.land arg (u32 (Z.lnot (Z.shiftl 0xf (u32 (group * 4))))) in
  Z.lor arg (u32 (Z.shiftl value (u32 (group * 4)))).

(** The command-event register always shows an error flag: timeout (bit 2)
    or CRC (bit 3). *)
Definition cmd_always_fails (hw : list event -> csr -> Z) : Prop :=
  forall h, Z.testbit (u32 (hw h SDCARD_CORE_CMD_EVENT)) 2 = true
            \/ Z.testbit (u32 (hw h SDCARD_CORE_CMD_EVENT)) 3 = true.

(** A delay between polls. *)
Definition is_delay (e : event) : bool :=
  match e with BusyWaitUs _ => true | _ => false end.

(** [m] returns [a] after every history. *)
Definition yields {A} (m : M A) (a : A) : Prop :=
  forall h, exists d, returns m h a d.

(** ** Runs of the polling loops, of the commands and of the bring-up *)

(** The events of polling register [r]: the values [vs] show the done flag
    clear and are each followed by [tail_busy], then [ev] shows it set and is
    followed by [tail_done]. *)
Definition poll_rounds (r : csr) (tail_done tail_busy : list event)
  (vs : list Z) (ev : Z) : list event :=
  flat_map (fun v => CsrRead r v :: tail_busy) vs ++ CsrRead r ev :: tail_done.

(** [d] is a polling of register [r] that ends with the value [ev], the
    first to show the done flag (bit 0). *)
Definition polled (r : csr) (tail_done tail_busy : list event) (ev : Z)
  (d : list event) : Prop :=
  exists vs, d = poll_rounds r tail_done tail_busy vs ev
             /\ Forall (fun v => Z.testbit v 0 = false) vs
             /\ Z.testbit ev 0 = true.

(** [d] is one run of [sdcard_send_command]: the three register writes that
    send the command, then the polling of the command-event register until
    it shows done; [res] is the result the flags of that event value
    select. *)
Definition command_run (arg cmd rsp : Z) (res : sd_result) (d : list event)
  : Prop :=
  exists ev dp,
    d = cmd_writes arg cmd rsp ++ dp
    /\ polled SDCARD_CORE_CMD_EVENT [BusyWaitUs 10] [BusyWaitUs 10] ev dp
    /\ res = flags_result ev.

(** [d] is one run of [sdcard_wait_data_done] with result [res]. *)
Definition data_wait_run (res : sd_result) (d : list event) : Prop :=
  exists ev, polled SDCARD_CORE_DATA_EVENT [] [BusyWaitUs 10] ev d
             /\ res = flags_result ev.

(** [d] is a polling of the done register [r] of a DMA engine, up to the
    first read that shows done. *)
Definition dma_polled (r : csr) (d : list event) : Prop :=
  exists ev, polled r [] [] ev d.

(** [d] is a command retried until Ok: runs with another result, then one
    run with the result Ok. *)
Definition retried_until_ok (arg cmd rsp : Z) (d : list event) : Prop :=
  exists fs dl,
    d = List.concat fs ++ dl
    /\ Forall (fun f => exists res, command_run arg cmd rsp res f
                                    /\ res <> SD_OK) fs
    /\ command_run arg cmd rsp SD_OK dl.

(** [d] is the pass of [sdcard_write] begun in the loop state [st]: the
    memory-to-block DMA engine disabled, programmed with buffer and byte
    length and enabled; SET_BLOCK_COUNT when it is enabled; block length 512
    and the block count; the write command (WRITE_MULTIPLE_BLOCK for more
    than one block, else WRITE_SINGLE_BLOCK) retried until Ok;
    STOP_TRANSMISSION after more than one block; the polling of the DMA done
    flag. *)
Definition write_pass (cfg : build) (st : Z * Z * Z) (d : list event)
  : Prop :=
  let '(block, _, buf) := st in
  let nblocks := chunk (SDCARD_CMD25_SUPPORT cfg) st in
  exists d23 dw ds dp,
    d = [CsrWrite SDCARD_MEM2BLOCK_DMA_ENABLE 0;
         CsrWrite SDCARD_MEM2BLOCK_DMA_BASE buf;
         CsrWrite SDCARD_MEM2BLOCK_DMA_LENGTH (u32 (512 * nblocks));
         CsrWrite SDCARD_MEM2BLOCK_DMA_ENABLE 1]
        ++ d23
        ++ [CsrWrite SDCARD_CORE_BLOCK_LENGTH 512;
            CsrWrite SDCARD_CORE_BLOCK_COUNT nblocks]
        ++ dw ++ ds ++ dp
    /\ (if SDCARD_CMD23_SUPPORT cfg
        then exists res,
            command_run nblocks 23 (SDCARD_CTRL_RESPONSE_SHORT cfg) res d23
        else d23 = [])
    /\ retried_until_ok block (if nblocks >? 1 then 25 else 24)
         (data_rsp cfg (SDCARD_CTRL_DATA_TRANSFER_WRITE cfg)) dw
    /\ (if nblocks >? 1
        then exists res,
            command_run 0 12 (SDCARD_CTRL_RESPONSE_SHORT_BUSY cfg) res ds
        else ds = [])
    /\ dma_polled SDCARD_MEM2BLOCK_DMA_DONE dp.

(** A failed round of the idle handshake: the 80 dummy clocks, a GO_IDLE
    with a result other than Ok, the delay before the next round. *)
Definition idle_round_failed (cfg : build) (d : list event) : Prop :=
  exists res dc,
    d = [CsrWrite SDCARD_PHY_INIT_INITIALIZE 1; BusyWait 1] ++ dc
        ++ [BusyWait 1]
    /\ command_run 0 0 (SDCARD_CTRL_RESPONSE_NONE cfg) res dc
    /\ res <> SD_OK.

(** The idle handshake that succeeds: fewer than 1000 failed rounds, then
    the round whose GO_IDLE returns Ok. *)
Definition idle_handshake_ok (cfg : build) (d : list event) : Prop :=
  exists fs dc,
    d = List.concat fs
        ++ [CsrWrite SDCARD_PHY_INIT_INITIALIZE 1; BusyWait 1] ++ dc
    /\ (List.length fs < 1000)%nat
    /\ Forall (idle_round_failed cfg) fs
    /\ command_run 0 0 (SDCARD_CTRL_RESPONSE_NONE cfg) SD_OK dc.

(** The four words of the response register block, read in order. *)
Definition response_reads (r0 r1 r2 r3 : Z) : list event :=
  [CsrRead (SDCARD_CORE_CMD_RESPONSE 0) r0;
   CsrRead (SDCARD_CORE_CMD_RESPONSE 1) r1;
   CsrRead (SDCARD_CORE_CMD_RESPONSE 2) r2;
   CsrRead (SDCARD_CORE_CMD_RESPONSE 3) r3].

(** A round of the negotiation of the operating conditions that does not
    end it: APP_CMD with RCA 0 (its result is not looked at), then
    APP_SEND_OP_COND with the high-capacity bit; either that command does not
    return Ok, or the response is read and its busy bit (bit 31 of word 3) is
    clear; then the delay before the next round. *)
Definition negotiation_round_busy (cfg : build) (d : list event) : Prop :=
  exists res55 d55 res41 d41 rd,
    d = d55 ++ d41 ++ rd ++ [BusyWait 1]
    /\ command_run 0 55 (SDCARD_CTRL_RESPONSE_SHORT cfg) res55 d55
    /\ command_run 0x70ff8000 41 (SDCARD_CTRL_RESPONSE_SHORT_BUSY cfg)
         res41 d41
    /\ (if is_SD_OK res41
        then exists r0 r1 r2 r3,
            rd = response_reads r0 r1 r2 r3 /\ Z.testbit r3 31 = false
        else rd = []).

(** The negotiation that succeeds: fewer than 1000 rounds that do not end
    it, then a round whose APP_SEND_OP_COND returns Ok with the busy bit of
    the response set. *)
Definition negotiation_ok (cfg : build) (d : list event) : Prop :=
  exists bs res55 d55 d41 r0 r1 r2 r3,
    d = List.concat bs ++ d55 ++ d41 ++ response_reads r0 r1 r2 r3
    /\ (List.length bs < 1000)%nat
    /\ Forall (negotiation_round_busy cfg) bs
    /\ command_run 0 55 (SDCARD_CTRL_RESPONSE_SHORT cfg) res55 d55
    /\ command_run 0x70ff8000 41 (SDCARD_CTRL_RESPONSE_SHORT_BUSY cfg)
         SD_OK d41
    /\ Z.testbit r3 31 = true.

(** A data-bearing command that succeeds: the block geometry, the command
    retried until Ok, the data wait with the result Ok. *)
Definition data_command_ok (len cnt arg cmd rsp : Z) (d : list event)
  : Prop :=
  exists dw dd,
    d = [CsrWrite SDCARD_CORE_BLOCK_LENGTH len;
         CsrWrite SDCARD_CORE_BLOCK_COUNT cnt] ++ dw ++ dd
    /\ retried_until_ok arg cmd rsp dw
    /\ data_wait_run SD_OK dd.

(** The events of a full successful bring-up: every step of [sdcard_init]
    in order, each command with the result Ok ([rca] is the upper half of
    response word 3 read after SET_RELATIVE_ADDRESS, shifted back into the
    upper half of the argument). *)
Definition successful_bring_up (cfg : build) (d : list event) : Prop :=
  exists di d8 dn d2 d3 r0 r1 r2 r3 d10 d9 d7 d55 d6 dsw d55' dscr d16,
    let rca := r3 / 2 ^ 16 * 2 ^ 16 in
    d = [CsrWrite SDCARD_PHY_CLOCKER_DIVIDER
           (programmed_divider cfg (SDCARD_CLK_FREQ_INIT cfg));
         BusyWait 1]
        ++ di ++ d8
        ++ [CsrWrite SDCARD_PHY_CLOCKER_DIVIDER
              (programmed_divider cfg (SDCARD_CLK_FREQ cfg));
            BusyWait 1]
        ++ dn ++ d2 ++ d3 ++ response_reads r0 r1 r2 r3
        ++ d10 ++ d9 ++ d7 ++ d55 ++ d6
        ++ [CsrWrite SDCARD_PHY_SETTINGS (SD_PHY_SPEED_4X cfg)]
        ++ dsw ++ d55' ++ dscr ++ d16
    /\ 0 <= r3 < 2 ^ 32
    /\ idle_handshake_ok cfg di
    /\ command_run 0x1aa 8 (SDCARD_CTRL_RESPONSE_SHORT cfg) SD_OK d8
    /\ negotiation_ok cfg dn
    /\ command_run 0 2 (SDCARD_CTRL_RESPONSE_LONG cfg) SD_OK d2
    /\ command_run 0 3 (SDCARD_CTRL_RESPONSE_SHORT cfg) SD_OK d3
    /\ command_run rca 10 (SDCARD_CTRL_RESPONSE_LONG cfg) SD_OK d10
    /\ command_run rca 9 (SDCARD_CTRL_RESPONSE_LONG cfg) SD_OK d9
    /\ command_run rca 7 (SDCARD_CTRL_RESPONSE_SHORT_BUSY cfg) SD_OK d7
    /\ command_run rca 55 (SDCARD_CTRL_RESPONSE_SHORT cfg) SD_OK d55
    /\ command_run 2 6 (SDCARD_CTRL_RESPONSE_SHORT cfg) SD_OK d6
    /\ data_command_ok 64 1
         (switch_argument (SD_SWITCH_SWITCH cfg) (SD_GROUP_ACCESSMODE cfg)
            (SD_SPEED_SDR25 cfg))
         6 (data_rsp cfg (SDCARD_CTRL_DATA_TRANSFER_READ cfg)) dsw
    /\ command_run rca 55 (SDCARD_CTRL_RESPONSE_SHORT cfg) SD_OK d55'
    /\ data_command_ok 8 1 0 51
         (data_rsp cfg (SDCARD_CTRL_DATA_TRANSFER_READ cfg)) dscr
    /\ command_run 512 16 (SDCARD_CTRL_RESPONSE_SHORT cfg) SD_OK d16.

(** A read of a word of the response register block. *)
Definition is_response_read (e : event) : bool :=
  match e with CsrRead (SDCARD_CORE_CMD_RESPONSE _) _ => true | _ => false end.

(** The budget of one of the two loops of the bring-up is used up: [d] is
    made of 1000 rounds, each a [round]. *)
Definition budget_used_up (round : list event -> Prop) (d : list event)
  : Prop :=
  exists rounds,
    d = List.concat rounds
    /\ List.length rounds = 1000%nat
    /\ Forall round rounds.

(** The events of a bring-up that fails end where it gives up: with a
    command whose result is not Ok, with a data wait whose result is not Ok,
    or with the 1000th failed round of the idle handshake or of the
    negotiation of the operating conditions. *)
Definition failed_bring_up (cfg : build) (d : list event) : Prop :=
  exists pre tail,
    d = pre ++ tail
    /\ ((exists arg cmd rsp res,
            command_run arg cmd rsp res tail /\ res <> SD_OK)
        \/ (exists res, data_wait_run res tail /\ res <> SD_OK)
        \/ budget_used_up (idle_round_failed cfg) tail
        \/ budget_used_up (negotiation_round_busy cfg) tail).

(** * Properties *)

(** ** Bit tests *)

Lemma land_pow2_eqb (x k : Z) :
  0 <= k -> (Z.land x (2 ^ k) =? 0) = negb (Z.testbit x k).
Proof.
  intros Hk. destruct (Z.testbit x k) eqn:E; simpl.
  - apply Z.eqb_neq. intros H0.
    assert (Z.testbit (Z.land x (2 ^ k)) k = true) as Hb.
    { rewrite Z.land_spec, E, Z.pow2_bits_true; auto. }
    rewrite H0, Z.bits_0 in Hb. discriminate.
  - apply Z.eqb_eq. apply Z.bits_inj'. intros n Hn.
    rewrite Z.land_spec, Z.bits_0, Z.pow2_bits_eqb by assumption.
    destruct (Z.eqb_spec k n) as [->|]; [rewrite E|]; auto using andb_false_r.
Qed.

Lemma land_1_eqb x : (Z.land x 1 =? 0) = negb (Z.testbit x 0).
Proof. exact (land_pow2_eqb x (k:=0) ltac:(lia)). Qed.

Lemma land_4_eqb x : (Z.land x 4 =? 0) = negb (Z.testbit x 2).
Proof. exact (land_pow2_eqb x (k:=2) ltac:(lia)). Qed.

Lemma land_8_eqb x : (Z.land x 8 =? 0) = negb (Z.testbit x 3).
Proof. exact (land_pow2_eqb x (k:=3) ltac:(lia)). Qed.

Lemma u8_range x : 0 <= u8 x < 256.
Proof. unfold u8. change (2 ^ 8) with 256. apply Z.mod_pos_bound. lia. Qed.

(** The opcode is read back from the value [sdcard_send_command] writes to
    the command register. *)
Lemma command_opcode cmd rsp :
  Z.shiftr (Z.lor (Z.shiftl (u8 cmd) 8) (u8 rsp)) 8 = u8 cmd.
Proof.
  rewrite Z.shiftr_lor, Z.shiftr_shiftl_l by lia.
  replace (8 - 8) with 0 by lia. rewrite Z.shiftl_0_r.
  rewrite (Z.shiftr_div_pow2 (u8 rsp)) by lia.
  change (2 ^ 8) with 256.
  rewrite Z.div_small by apply u8_range. apply Z.lor_0_r.
Qed.

(** ** The monad *)

Section MonadFacts.

Context {A B : Type}.

Lemma bind_Done (m : M A) (k : A -> M B) fuel h a d1 b d2 :
  m fuel h = Done a d1 -> k a fuel (h ++ d1) = Done b d2 ->
  bind m k fuel h = Done b (d1 ++ d2).
Proof. intros H1 H2. unfold bind. now rewrite H1, H2. Qed.

Lemma bind_OutOfFuel_l (m : M A) (k : A -> M B) fuel h d1 :
  m fuel h = OutOfFuel d1 -> bind m k fuel h = OutOfFuel d1.
Proof. intros H1. unfold bind. now rewrite H1. Qed.

Lemma bind_OutOfFuel_r (m : M A) (k : A -> M B) fuel h a d1 d2 :
  m fuel h = Done a d1 -> k a fuel (h ++ d1) = OutOfFuel d2 ->
  bind m k fuel h = OutOfFuel (d1 ++ d2).
Proof. intros H1 H2. unfold bind. now rewrite H1, H2. Qed.

Lemma bind_Done_inv (m : M A) (k : A -> M B) fuel h b d :
  bind m k fuel h = Done b d ->
  exists a d1 d2, m fuel h = Done a d1 /\ k a fuel (h ++ d1) = Done b d2
                  /\ d = d1 ++ d2.
Proof.
  unfold bind. destruct (m fuel h) as [a d1|d1]; [|discriminate].
  destruct (k a fuel (h ++ d1)) as [b' d2|d2] eqn:E; [|discriminate].
  intros [= -> <-]. eauto 6.
Qed.

(** The events of [bind m k]: those of [m], then those of [k] when [m]
    returned. *)
Lemma events_bind (m : M A) (k : A -> M B) fuel h :
  events (bind m k fuel h) =
  events (m fuel h) ++
  match m fuel h with
  | Done a d1 => events (k a fuel (h ++ d1))
  | OutOfFuel _ => []
  end.
Proof.
  unfold bind. destruct (m fuel h) as [a d1|d1]; simpl.
  - destruct (k a fuel (h ++ d1)); reflexivity.
  - now rewrite app_nil_r.
Qed.

Lemma all_bind (P : event -> Prop) (m : M A) (k : A -> M B) :
  all_events P m -> (forall a, all_events P (k a)) -> all_events P (bind m k).
Proof.
  intros Hm Hk fuel h. rewrite events_bind. apply Forall_app. split.
  - apply Hm.
  - destruct (m fuel h); [apply Hk | constructor].
Qed.

Lemma returns_bind (m : M A) (k : A -> M B) h a d1 b d2 :
  returns m h a d1 -> returns (k a) (h ++ d1) b d2 ->
  returns (bind m k) h b (d1 ++ d2).
Proof.
  intros [N1 H1] [N2 H2]. exists (Nat.max N1 N2). intros fuel Hf.
  apply bind_Done with (a := a); [apply H1 | apply H2]; lia.
Qed.

End MonadFacts.

Lemma all_ret {A} (P : event -> Prop) (a : A) : all_events P (ret a).
Proof. intros fuel h. constructor. Qed.

Lemma returns_ret {A} (a : A) h : returns (ret a) h a [].
Proof. exists O. reflexivity. Qed.

Lemma all_events_impl {A} (P Q : event -> Prop) (m : M A) :
  (forall e, P e -> Q e) -> all_events P m -> all_events Q m.
Proof. intros HPQ Hm fuel h. eapply Forall_impl; [exact HPQ | apply Hm]. Qed.

Lemma all_iter_fuel {St A} (P : event -> Prop) (body : St -> M (St + A)) :
  (forall s, all_events P (body s)) ->
  forall n s, all_events P (iter_fuel body n s).
Proof.
  intros Hb. induction n as [|n IH]; intros s; simpl.
  - intros fuel h. constructor.
  - apply all_bind; [apply Hb|]. intros [s'|a]; [apply IH | apply all_ret].
Qed.

Lemma all_iter {St A} (P : event -> Prop) (body : St -> M (St + A)) s :
  (forall s, all_events P (body s)) -> all_events P (iter body s).
Proof. intros Hb fuel h. unfold iter. now apply all_iter_fuel. Qed.

Lemma all_while_ (P : event -> Prop) (cond : M bool) :
  all_events P cond -> all_events P (while_ cond).
Proof.
  intros Hc. apply all_iter. intros _. apply all_bind; [exact Hc|].
  intros c. apply all_ret.
Qed.

Lemma iter_returns_break {St A} (body : St -> M (St + A)) s h a d :
  returns (body s) h (inr a) d -> iter_returns body s h a d.
Proof.
  intros [N H]. exists (S N). intros n fuel Hn Hf.
  destruct n as [|n]; [lia|]. simpl.
  replace d with (d ++ []) by apply app_nil_r.
  apply bind_Done with (a := inr a); [apply H; lia | reflexivity].
Qed.

Lemma iter_returns_continue {St A} (body : St -> M (St + A)) s s' h a d d' :
  returns (body s) h (inl s') d -> iter_returns body s' (h ++ d) a d' ->
  iter_returns body s h a (d ++ d').
Proof.
  intros [N H] [N' H']. exists (S (Nat.max N N')). intros n fuel Hn Hf.
  destruct n as [|n]; [lia|]. simpl.
  apply bind_Done with (a := inl s'); [apply H | apply H']; lia.
Qed.

Lemma iter_returns_returns {St A} (body : St -> M (St + A)) s h a d :
  iter_returns body s h a d -> returns (iter body s) h a d.
Proof. intros [N H]. exists N. intros fuel Hf. now apply H. Qed.

(** ** Polling loops *)

Section DriverFacts.

Variable cfg : build.
Variable hw : list event -> csr -> Z.

Lemma poll_loop_returns {A} (body : unit -> M (unit + A)) r f td tb h ev d :
  polls hw body r f td tb ->
  first_done hw r td tb h ev d -> iter_returns body tt h (f ev) d.
Proof.
  intros Hb H. induction H as [h ev Hev Hbit | h v ev d Hv Hbit H IH].
  - apply iter_returns_break. exists O. intros fuel _.
    rewrite Hb, <- Hev, Hbit. reflexivity.
  - change (CsrRead r v :: tb ++ d) with ((CsrRead r v :: tb) ++ d).
    apply iter_returns_continue with (s' := tt); [|exact IH].
    exists O. intros fuel _. rewrite Hb, <- Hv, Hbit. reflexivity.
Qed.

Lemma poll_loop_Done {A} (body : unit -> M (unit + A)) r f td tb :
  polls hw body r f td tb ->
  forall n fuel h a d,
    iter_fuel body n tt fuel h = Done a d ->
    exists ev, first_done hw r td tb h ev d /\ a = f ev.
Proof.
  intros Hb. induction n as [|n IH]; intros fuel h a d H; [discriminate|].
  simpl in H. apply bind_Done_inv in H.
  destruct H as (x & d1 & d2 & Hbody & Hrest & ->).
  rewrite Hb in Hbody.
  destruct (Z.testbit (u32 (hw h r)) 0) eqn:Hbit; injection Hbody as <- <-.
  - injection Hrest as <- <-. rewrite app_nil_r.
    eexists. split; [|reflexivity]. now apply first_done_now.
  - apply IH in Hrest. destruct Hrest as (ev & Hfd & ->).
    exists ev. split; [|reflexivity].
    apply first_done_later; [reflexivity | exact Hbit | exact Hfd].
Qed.

(** Once a done read has been seen, the list of polling events holds one. *)
Lemma csr_beq_refl r : csr_beq r r = true.
Proof. now apply internal_csr_dec_lb. Qed.

Lemma first_done_has_done_read r td tb h ev d :
  first_done hw r td tb h ev d -> existsb (is_done_read r) d = true.
Proof.
  induction 1 as [h ev Hev Hbit | h v ev d Hv Hbit H IH];
    cbn [existsb is_done_read].
  - now rewrite csr_beq_refl, Hbit.
  - rewrite existsb_app, IH. now rewrite !orb_true_r.
Qed.

Lemma result_of_event (ev : Z) :
  (if negb (Z.land ev 4 =? 0) then ret SD_TIMEOUT
   else if negb (Z.land ev 8 =? 0) then ret SD_CRCERROR
   else ret SD_OK) = ret (flags_result ev).
Proof.
  unfold flags_result. rewrite land_4_eqb, land_8_eqb, !negb_involutive.
  destruct (Z.testbit ev 2), (Z.testbit ev 3); reflexivity.
Qed.

Lemma cmd_poll_polls :
  polls hw (fun _ : unit =>
           event <- csr_read hw SDCARD_CORE_CMD_EVENT ;;
           busy_wait_us 10 ;;
           if Z.land event 1 =? 0 then ret (inl tt) else ret (inr event))
        SDCARD_CORE_CMD_EVENT (fun v => v) [BusyWaitUs 10] [BusyWaitUs 10].
Proof.
  intros fuel h. cbv [bind csr_read busy_wait_us]. rewrite land_1_eqb.
  destruct (Z.testbit _ 0); reflexivity.
Qed.

Lemma data_poll_polls :
  polls hw (fun _ : unit =>
           event <- csr_read hw SDCARD_CORE_DATA_EVENT ;;
           if negb (Z.land event 1 =? 0) then ret (inr event)
           else busy_wait_us 10 ;; ret (inl tt))
        SDCARD_CORE_DATA_EVENT (fun v => v) [] [BusyWaitUs 10].
Proof.
  intros fuel h. cbv [bind csr_read busy_wait_us]. rewrite land_1_eqb.
  destruct (Z.testbit _ 0); reflexivity.
Qed.

Lemma dma_poll_polls r :
  polls hw (fun _ : unit =>
           c <- (v <- csr_read hw r ;; ret (Z.land v 1 =? 0)) ;;
           ret (if c then inl tt else inr tt))
        r (fun _ => tt) [] [].
Proof.
  intros fuel h. cbv [bind csr_read ret]. rewrite land_1_eqb.
  destruct (Z.testbit _ 0); reflexivity.
Qed.

Lemma wait_cmd_done_returns h ev d :
  cmd_done_after hw h ev d ->
  returns (sdcard_wait_cmd_done hw) h (flags_result ev) d.
Proof.
  intros H. unfold sdcard_wait_cmd_done. rewrite <- (app_nil_r d).
  eapply returns_bind.
  - apply iter_returns_returns.
    exact (poll_loop_returns cmd_poll_polls H).
  - rewrite result_of_event. apply returns_ret.
Qed.

Lemma wait_cmd_done_Done fuel h r d :
  sdcard_wait_cmd_done hw fuel h = Done r d ->
  exists ev, cmd_done_after hw h ev d /\ r = flags_result ev.
Proof.
  unfold sdcard_wait_cmd_done, iter. intros H.
  apply bind_Done_inv in H. destruct H as (ev & d1 & d2 & Hloop & Hres & ->).
  rewrite result_of_event in Hres. injection Hres as <- <-.
  rewrite app_nil_r.
  apply (poll_loop_Done cmd_poll_polls) in Hloop.
  destruct Hloop as (ev' & Hfd & ->). now exists ev'.
Qed.

Lemma wait_data_done_returns h ev d :
  data_done_after hw h ev d ->
  returns (sdcard_wait_data_done hw) h (flags_result ev) d.
Proof.
  intros H. unfold sdcard_wait_data_done. rewrite <- (app_nil_r d).
  eapply returns_bind.
  - apply iter_returns_returns.
    exact (poll_loop_returns data_poll_polls H).
  - rewrite result_of_event. apply returns_ret.
Qed.

Lemma wait_data_done_Done fuel h r d :
  sdcard_wait_data_done hw fuel h = Done r d ->
  exists ev, data_done_after hw h ev d /\ r = flags_result ev.
Proof.
  unfold sdcard_wait_data_done, iter. intros H.
  apply bind_Done_inv in H. destruct H as (ev & d1 & d2 & Hloop & Hres & ->).
  rewrite result_of_event in Hres. injection Hres as <- <-.
  rewrite app_nil_r.
  apply (poll_loop_Done data_poll_polls) in Hloop.
  destruct Hloop as (ev' & Hfd & ->). now exists ev'.
Qed.

(** The DMA done polls of [sdcard_read] and [sdcard_write]. *)
Lemma dma_poll_returns r h ev d :
  dma_done_after hw r h ev d ->
  returns (while_ (v <- csr_read hw r ;; ret (Z.land v 1 =? 0))) h tt d.
Proof.
  intros H. apply iter_returns_returns.
  exact (poll_loop_returns (dma_poll_polls r) H).
Qed.

Lemma dma_poll_Done r fuel h d :
  while_ (v <- csr_read hw r ;; ret (Z.land v 1 =? 0)) fuel h = Done tt d ->
  exists ev, dma_done_after hw r h ev d.
Proof.
  unfold while_, iter. intros H.
  apply (poll_loop_Done (dma_poll_polls r)) in H.
  destruct H as (ev & Hfd & _). now exists ev.
Qed.

End DriverFacts.

(** ** Events of the command layer *)

Section CommandFacts.

Variable cfg : build.
Variable hw : list event -> csr -> Z.

Lemma all_csr_write (P : event -> Prop) r v :
  P (CsrWrite r v) -> all_events P (csr_write r v).
Proof. intros He fuel h. simpl. auto. Qed.

Lemma all_csr_read (P : event -> Prop) r :
  (forall v, P (CsrRead r v)) -> all_events P (csr_read hw r).
Proof. intros He fuel h. simpl. auto. Qed.

Lemma all_busy_wait (P : event -> Prop) ms :
  P (BusyWait ms) -> all_events P (busy_wait ms).
Proof. intros He fuel h. simpl. auto. Qed.

Lemma all_busy_wait_us (P : event -> Prop) us :
  P (BusyWaitUs us) -> all_events P (busy_wait_us us).
Proof. intros He fuel h. simpl. auto. Qed.

Lemma all_printf (P : event -> Prop) fmt args :
  P (Printf fmt args) -> all_events P (printf fmt args).
Proof. intros He fuel h. simpl. auto. Qed.

Lemma all_wait_cmd_done op :
  all_events (command_event op) (sdcard_wait_cmd_done hw).
Proof.
  unfold sdcard_wait_cmd_done. apply all_bind.
  - apply all_iter. intros _. apply all_bind.
    + apply all_csr_read. intros v. exact I.
    + intros ev. apply all_bind; [now apply all_busy_wait_us|].
      intros _. destruct (Z.land ev 1 =? 0); apply all_ret.
  - intros ev. rewrite result_of_event. apply all_ret.
Qed.

Lemma all_wait_data_done :
  all_events data_wait_event (sdcard_wait_data_done hw).
Proof.
  unfold sdcard_wait_data_done. apply all_bind.
  - apply all_iter. intros _. apply all_bind.
    + apply all_csr_read. intros v. exact I.
    + intros ev. destruct (negb (Z.land ev 1 =? 0)); [apply all_ret|].
      apply all_bind; [now apply all_busy_wait_us|].
      intros _. apply all_ret.
  - intros ev. rewrite result_of_event. apply all_ret.
Qed.

Lemma all_send_command arg cmd rsp :
  all_events (command_event (u8 cmd)) (sdcard_send_command hw arg cmd rsp).
Proof.
  unfold sdcard_send_command.
  apply all_bind; [now apply all_csr_write|]. intros _.
  apply all_bind; [apply all_csr_write; apply command_opcode|]. intros _.
  apply all_bind; [now apply all_csr_write|]. intros _.
  apply all_wait_cmd_done.
Qed.

Lemma all_retry_command arg cmd rsp :
  all_events (command_event (u8 cmd)) (retry_command hw arg cmd rsp).
Proof.
  unfold retry_command. apply all_while_. apply all_bind.
  - apply all_send_command.
  - intros r. apply all_ret.
Qed.

(** [sdcard_send_command]: the three writes, then the polling of the
    command-event line. *)
Lemma send_command_eq arg cmd rsp fuel h :
  sdcard_send_command hw arg cmd rsp fuel h =
  match sdcard_wait_cmd_done hw fuel (h ++ cmd_writes arg cmd rsp) with
  | Done r d => Done r (cmd_writes arg cmd rsp ++ d)
  | OutOfFuel d => OutOfFuel (cmd_writes arg cmd rsp ++ d)
  end.
Proof.
  unfold sdcard_send_command, bind, csr_write, cmd_writes.
  rewrite <- !app_assoc. cbn [app].
  destruct (sdcard_wait_cmd_done hw fuel _); reflexivity.
Qed.

Lemma send_command_returns arg cmd rsp h ev d :
  cmd_done_after hw (h ++ cmd_writes arg cmd rsp) ev d ->
  returns (sdcard_send_command hw arg cmd rsp) h (flags_result ev)
          (cmd_writes arg cmd rsp ++ d).
Proof.
  intros H. apply wait_cmd_done_returns in H. destruct H as [N H].
  exists N. intros fuel Hf. now rewrite send_command_eq, (H fuel Hf).
Qed.

Lemma send_command_Done arg cmd rsp fuel h r d :
  sdcard_send_command hw arg cmd rsp fuel h = Done r d ->
  exists ev d', d = cmd_writes arg cmd rsp ++ d'
    /\ cmd_done_after hw (h ++ cmd_writes arg cmd rsp) ev d'
    /\ r = flags_result ev.
Proof.
  rewrite send_command_eq.
  destruct (sdcard_wait_cmd_done hw fuel _) as [r' d'|d'] eqn:E; [|discriminate].
  intros [= -> <-]. apply wait_cmd_done_Done in E.
  destruct E as (ev & Hfd & ->). now exists ev, d'.
Qed.

(** The events of a command begin with its three writes, whatever the fuel. *)
Lemma send_command_events arg cmd rsp fuel h :
  exists d', events (sdcard_send_command hw arg cmd rsp fuel h)
             = cmd_writes arg cmd rsp ++ d'.
Proof.
  rewrite send_command_eq.
  destruct (sdcard_wait_cmd_done hw fuel _) as [r' d'|d']; now exists d'.
Qed.

End CommandFacts.

(** ** The result of a command and of a data wait *)

Lemma flags_result_from_flags ev : result_from_flags ev (flags_result ev).
Proof.
  unfold result_from_flags, flags_result.
  destruct (Z.testbit ev 2), (Z.testbit ev 3); repeat split; congruence.
Qed.

(** C6. A call of sendCommand, and of waitDataDone, returns as soon as the
    polled event line shows the completion flag, and its result is the one of
    Ok, Timeout and CrcError that the flags of that event value select
    (timeout flag: Timeout; otherwise CRC flag: CrcError; otherwise Ok).
    Conversely every call that returns has seen the completion flag and
    returns the result selected by that event value. *)
Theorem wait_result_by_flags (hw : list event -> csr -> Z) (arg cmd rsp : Z)
  (h : list event) :
  (forall ev d,
      cmd_done_after hw (h ++ cmd_writes arg cmd rsp) ev d ->
      exists r, returns (sdcard_send_command hw arg cmd rsp) h r
                        (cmd_writes arg cmd rsp ++ d)
                /\ result_from_flags ev r)
  /\ (forall ev d,
         data_done_after hw h ev d ->
         exists r, returns (sdcard_wait_data_done hw) h r d
                   /\ result_from_flags ev r)
  /\ (forall fuel r d,
         sdcard_send_command hw arg cmd rsp fuel h = Done r d ->
         exists ev d', d = cmd_writes arg cmd rsp ++ d'
                       /\ cmd_done_after hw (h ++ cmd_writes arg cmd rsp) ev d'
                       /\ result_from_flags ev r)
  /\ (forall fuel r d,
         sdcard_wait_data_done hw fuel h = Done r d ->
         exists ev, data_done_after hw h ev d /\ result_from_flags ev r).
Proof.
  repeat split.
  - intros ev d H. exists (flags_result ev). split.
    + now apply send_command_returns.
    + apply flags_result_from_flags.
  - intros ev d H. exists (flags_result ev). split.
    + now apply wait_data_done_returns.
    + apply flags_result_from_flags.
  - intros fuel r d H. apply send_command_Done in H.
    destruct H as (ev & d' & -> & Hfd & ->).
    exists ev, d'. auto using flags_result_from_flags.
  - intros fuel r d H. apply wait_data_done_Done in H.
    destruct H as (ev & Hfd & ->).
    exists ev. auto using flags_result_from_flags.
Qed.

(** The command-event value 5 (done and timeout) makes CMD0 return. *)
Lemma wait_result_by_flags_witness :
  exists r, returns (sdcard_send_command hw_timeout 0 0 0) [] r
                    (cmd_writes 0 0 0
                     ++ [CsrRead SDCARD_CORE_CMD_EVENT 5; BusyWaitUs 10])
            /\ result_from_flags 5 r.
Proof.
  apply (proj1 (wait_result_by_flags hw_timeout 0 0 0 [])).
  apply first_done_now; reflexivity.
Defined.

(** ** The clock divider *)

Lemma land_even_mask x :
  0 <= x < 2 ^ 32 -> Z.land x (u32 (Z.lnot 1)) = Z.land x (Z.lnot 1).
Proof.
  intros Hx.
  change (u32 (Z.lnot 1)) with (Z.land (Z.lnot 1) (Z.ones 32)).
  rewrite (Z.land_comm (Z.lnot 1)), Z.land_assoc, Z.land_ones by lia.
  now rewrite Z.mod_small.
Qed.

(** DIV_ROUND_UP at the width of unsigned long, clamped below by 2, agrees
    with the exact rounded-up quotient clamped below by 2: when the sum wraps
    around, both are 2. *)
Lemma div_round_up_wrapped (P F d : Z) :
  2 ^ 32 <= P -> 0 < F < 2 ^ 31 -> 0 < d < P ->
  Z.max (u32 (DIV_ROUND_UP (fun x => x mod P) F d)) 2
  = Z.max ((F + d - 1) / d) 2.
Proof.
  intros HP HF Hd. unfold DIV_ROUND_UP, u32.
  change (2 ^ 32) with 4294967296 in *. change (2 ^ 31) with 2147483648 in *.
  rewrite (Z.mod_small F) by lia.
  rewrite Zminus_mod_idemp_l.
  destruct (Z_lt_le_dec (F + d - 1) P) as [Hlt|Hge].
  - rewrite (Z.mod_small (F + d - 1)) by lia.
    assert (0 <= (F + d - 1) / d <= F) as Hq.
    { split; [apply Z.div_pos; lia|].
      apply Z.div_le_upper_bound; nia. }
    rewrite (Z.mod_small ((F + d - 1) / d) P) by lia.
    rewrite Z.mod_small by lia. reflexivity.
  - assert ((F + d - 1) mod P = F + d - 1 - P) as ->.
    { symmetry. apply Z.mod_unique with (q := 1); lia. }
    rewrite (Z.div_small (F + d - 1 - P)) by lia.
    rewrite (Z.mod_small 0 P) by lia. rewrite Z.mod_small by lia.
    assert ((F + d - 1) / d = 1) as ->; [|reflexivity].
    symmetry. apply Z.div_unique with (r := F - 1); lia.
Qed.

(** C7. For a positive target frequency setClock programs the divider
    clamp(ceil(systemClockHz / targetHz), 2, 256), which lies in [2, 256];
    for target 0 it programs 256; and when a report is asked for, the
    frequency it reports (in MHz above 1 MHz, else in kHz) is
    systemClockHz / ((divider + 1) & ~1).  The system clock is a positive int
    constant, unsigned long has at least 32 bits; [c] below is the quotient
    rounded up. *)
Theorem set_clk_freq_divider (cfg : build) (clk_freq show : Z) (fuel : nat)
  (h : list event) :
  0 < CONFIG_CLOCK_FREQUENCY cfg < 2 ^ 31 ->
  32 <= ULONG_BITS cfg ->
  0 <= clk_freq < 2 ^ ULONG_BITS cfg ->
  exists divider report,
    sdcard_set_clk_freq cfg clk_freq show fuel h
    = Done tt (report ++ [CsrWrite SDCARD_PHY_CLOCKER_DIVIDER divider])
    /\ 2 <= divider <= 256
    /\ (clk_freq = 0 -> divider = 256)
    /\ (0 < clk_freq ->
        exists c, (c - 1) * clk_freq < CONFIG_CLOCK_FREQUENCY cfg <= c * clk_freq
                  /\ divider = Z.min (Z.max c 2) 256)
    /\ (show = 0 -> report = [])
    /\ (show <> 0 ->
        exists effective,
          effective = CONFIG_CLOCK_FREQUENCY cfg
                      / Z.land (divider + 1) (Z.lnot 1)
          /\ report = [Printf "Setting SDCard clk freq to " [];
                       if effective >? 1000000
                       then Printf "%ld MHz\n" [effective / 1000000]
                       else Printf "%ld KHz\n" [effective / 1000]]).
Proof.
  intros HF Hw Hclk.
  set (F := CONFIG_CLOCK_FREQUENCY cfg) in *.
  assert (2 ^ 32 <= 2 ^ ULONG_BITS cfg) as HP by (apply Z.pow_le_mono_r; lia).
  set (P := 2 ^ ULONG_BITS cfg) in *.
  set (divider := Z.min (Z.max (u32 (if clk_freq =? 0 then 256
                   else DIV_ROUND_UP (ulong cfg) F clk_freq)) 2) 256).
  assert (2 <= divider <= 256) as Hdiv by (unfold divider; lia).
  assert (Hland : Z.land (u32 (divider + 1)) (u32 (Z.lnot 1))
                  = Z.land (divider + 1) (Z.lnot 1)).
  { unfold u32 at 1. change (2 ^ 32) with 4294967296 in *.
    rewrite Z.mod_small by lia. apply land_even_mask.
    change (2 ^ 32) with 4294967296. lia. }
  assert (Hmask : 2 <= Z.land (divider + 1) (Z.lnot 1) ).
  { rewrite <- Z.ldiff_land. change 1 with (Z.ones 1) at 2.
    rewrite Z.ldiff_ones_r, Z.shiftr_div_pow2, Z.shiftl_mul_pow2 by lia.
    change (2 ^ 1) with 2.
    assert (1 <= (divider + 1) / 2) by (apply Z.div_le_lower_bound; lia).
    lia. }
  set (eff := F / Z.land (divider + 1) (Z.lnot 1)).
  assert (0 <= eff <= F) as Heff.
  { unfold eff. split; [apply Z.div_pos; lia|].
    apply Z.div_le_upper_bound; nia. }
  exists divider.
  exists (if show =? 0 then []
          else [Printf "Setting SDCard clk freq to " [];
                if eff >? 1000000 then Printf "%ld MHz\n" [eff / 1000000]
                else Printf "%ld KHz\n" [eff / 1000]]).
  repeat split; try lia.
  - unfold sdcard_set_clk_freq. fold F. fold divider.
    change (2 ^ 31) with 2147483648 in *.
    assert (u32 F = F) as HuF.
    { unfold u32. change (2 ^ 32) with 4294967296. apply Z.mod_small. lia. }
    assert (ulong cfg eff = eff) as Hueff.
    { unfold ulong. fold P. apply Z.mod_small. lia. }
    rewrite Hland, HuF. fold eff. rewrite Hueff.
    unfold bind, printf, csr_write, ret.
    destruct (show =? 0); [reflexivity|].
    destruct (eff >? 1000000); reflexivity.
  - intros ->. reflexivity.
  - intros Hpos. exists ((F + clk_freq - 1) / clk_freq). split.
    + pose proof (Z.div_mod (F + clk_freq - 1) clk_freq ltac:(lia)) as E.
      pose proof (Z.mod_pos_bound (F + clk_freq - 1) clk_freq ltac:(lia)).
      nia.
    + unfold divider. destruct (Z.eqb_spec clk_freq 0); [lia|].
      change (ulong cfg) with (fun x => x mod P).
      now rewrite (div_round_up_wrapped (P:=P) (F:=F) (d:=clk_freq)) by lia.
  - intros ->. reflexivity.
  - intros Hs. exists eff. split; [reflexivity|].
    destruct (Z.eqb_spec show 0); [contradiction|reflexivity].
Qed.

(** The initialization frequency 400 kHz at a 100 MHz system clock, with a
    report: divider 250. *)
Lemma set_clk_freq_divider_witness :
  exists divider report,
    sdcard_set_clk_freq sample_build 400000 1 0%nat []
    = Done tt (report ++ [CsrWrite SDCARD_PHY_CLOCKER_DIVIDER divider])
    /\ 2 <= divider <= 256
    /\ (400000 = 0 -> divider = 256)
    /\ (0 < 400000 ->
        exists c, (c - 1) * 400000 < CONFIG_CLOCK_FREQUENCY sample_build
                                   <= c * 400000
                  /\ divider = Z.min (Z.max c 2) 256)
    /\ (1 = 0 -> report = [])
    /\ (1 <> 0 ->
        exists effective,
          effective = CONFIG_CLOCK_FREQUENCY sample_build
                      / Z.land (divider + 1) (Z.lnot 1)
          /\ report = [Printf "Setting SDCard clk freq to " [];
                       if effective >? 1000000
                       then Printf "%ld MHz\n" [effective / 1000000]
                       else Printf "%ld KHz\n" [effective / 1000]]).
Proof.
  apply (@set_clk_freq_divider sample_build 400000 1 0%nat []); simpl; lia.
Defined.

(** ** Ordering of events *)

Lemma precedes_none (P Q : event -> bool) d :
  Forall (fun e => Q e = false) d -> precedes P Q d.
Proof.
  intros Hall pre e post -> HQ. apply Forall_app in Hall.
  destruct Hall as [_ Hall]. inversion Hall; congruence.
Qed.

Lemma precedes_app (P Q : event -> bool) d d' :
  precedes P Q d -> precedes P Q d' -> precedes P Q (d ++ d').
Proof.
  intros Hd Hd' pre e post Heq HQ.
  apply app_eq_app in Heq. destruct Heq as [l [[-> Hl] | [-> Hl]]].
  - destruct l as [|x l].
    + simpl in Hl. specialize (Hd' [] e post (eq_sym Hl) HQ). discriminate.
    + injection Hl as <- ->. now apply (Hd pre e l).
  - rewrite existsb_app. erewrite (Hd' l e post) by eauto. apply orb_true_r.
Qed.

Lemma phases_nil (P1 P2 : event -> Prop) G : phases P1 P2 G [].
Proof. exists [], []. repeat split; auto. congruence. Qed.

Lemma phases_first (P1 P2 : event -> Prop) G d :
  Forall P1 d -> phases P1 P2 G d.
Proof.
  intros H. exists d, []. rewrite app_nil_r. repeat split; auto. congruence.
Qed.

(** Every [Q] event lies in the second phase, after a first phase that holds
    a [P] event. *)
Lemma phases_precedes (P Q : event -> bool) (P2 : event -> Prop) d :
  phases (fun e => Q e = false) P2 (fun d1 => existsb P d1 = true) d ->
  precedes P Q d.
Proof.
  intros (d1 & d2 & -> & H1 & _ & HG) pre e post Heq HQ.
  apply app_eq_app in Heq. destruct Heq as [l [[E Hl] | [E Hl]]].
  - destruct l as [|x l].
    + rewrite app_nil_r in E. subst pre. apply HG. simpl in Hl.
      rewrite <- Hl. discriminate.
    + injection Hl as <- ->. subst d1. apply Forall_app in H1.
      destruct H1 as [_ H1]. inversion H1; congruence.
  - subst pre. rewrite existsb_app, HG; [reflexivity|]. rewrite Hl.
    destruct l; discriminate.
Qed.

(** No [P1]-violating event is followed by a [P2]-violating one. *)
Lemma phases_after (Q : event -> bool) (P1 P2 : event -> Prop) G d :
  phases P1 P2 G d -> (forall e, P1 e -> Q e = false) ->
  forall pre e post, d = pre ++ e :: post -> Q e = true -> Forall P2 post.
Proof.
  intros (d1 & d2 & -> & H1 & H2 & _) HQ pre e post Heq He.
  apply app_eq_app in Heq. destruct Heq as [l [[E Hl] | [E Hl]]].
  - destruct l as [|x l].
    + simpl in Hl. rewrite <- Hl in H2. now inversion H2.
    + injection Hl as <- ->. subst d1. apply Forall_app in H1.
      destruct H1 as [_ H1].
      inversion H1 as [|? ? Hx _]. apply HQ in Hx. congruence.
  - rewrite Hl in H2. apply Forall_app in H2. destruct H2 as [_ H2].
    now inversion H2.
Qed.

Section PhasesBind.

Context {A B : Type}.
Variables (P1 P2 : event -> Prop) (G : list event -> Prop).
Hypothesis G_grows : forall d0 d, G d -> G (d0 ++ d).

(** [m] belongs to the first phase, the split lies in [k]. *)
Lemma phases_bind_l (m : M A) (k : A -> M B) :
  all_events P1 m ->
  (forall a fuel h, phases P1 P2 G (events (k a fuel h))) ->
  forall fuel h, phases P1 P2 G (events (bind m k fuel h)).
Proof.
  intros Hm Hk fuel h. rewrite events_bind. specialize (Hm fuel h).
  destruct (m fuel h) as [a d|d]; simpl in *.
  - destruct (Hk a fuel (h ++ d)) as (d1 & d2 & -> & H1 & H2 & HG).
    exists (d ++ d1), d2. rewrite app_assoc. repeat split; auto.
    now apply Forall_app.
  - rewrite app_nil_r. now apply phases_first.
Qed.

(** The split lies between [m] and [k]. *)
Lemma phases_bind_split (m : M A) (k : A -> M B) :
  all_events P1 m ->
  (forall fuel h a d, m fuel h = Done a d -> G d) ->
  (forall a, all_events P2 (k a)) ->
  forall fuel h, phases P1 P2 G (events (bind m k fuel h)).
Proof.
  intros Hm HG Hk fuel h. rewrite events_bind. pose proof (Hm fuel h) as Hd.
  destruct (m fuel h) as [a d|d] eqn:E; simpl in *.
  - exists d, (events (k a fuel (h ++ d))). repeat split; auto.
    + apply Hk.
    + intros _. eapply HG, E.
  - rewrite app_nil_r. now apply phases_first.
Qed.

End PhasesBind.

Lemma precedes_iter_fuel {St A} (P Q : event -> bool)
  (body : St -> M (St + A)) :
  (forall s fuel h, precedes P Q (events (body s fuel h))) ->
  forall n s fuel h, precedes P Q (events (iter_fuel body n s fuel h)).
Proof.
  intros Hb. induction n as [|n IH]; intros s fuel h; simpl.
  - now apply precedes_none.
  - rewrite events_bind. apply precedes_app; [apply Hb|].
    destruct (body s fuel h) as [[s'|a] d|d].
    + apply IH.
    + now apply precedes_none.
    + now apply precedes_none.
Qed.

(** ** What the stretches of the driver touch *)

(** Proves [forall e, class e -> class' e] for the event classes above by
    going through the events. *)
Ltac by_event :=
  let e := fresh "e" in
  let H := fresh "H" in
  intros e H;
  unfold not_command, no_read_of, no_write_to in *;
  destruct e as [[] ? | [] ? | ? | ? | ? ? | | ];
  cbn in H |- *; try contradiction; try reflexivity; try exact I;
  try (rewrite H; reflexivity); try congruence.

Ltac all_ev_step :=
  match goal with
  | |- all_events _ (bind _ _) => apply all_bind; [|intros ?]
  | |- all_events _ (ret _) => apply all_ret
  | |- all_events _ (csr_write _ _) => apply all_csr_write
  | |- all_events _ (csr_read _ _) => apply all_csr_read; intros ?
  | |- all_events _ (busy_wait _) => apply all_busy_wait
  | |- all_events _ (busy_wait_us _) => apply all_busy_wait_us
  | |- all_events _ (while_ _) => apply all_while_
  | |- all_events _ (if ?c then _ else _) => destruct c
  | |- all_events _ (sdcard_send_command _ _ _ _) =>
      eapply all_events_impl; [|apply all_send_command]
  | |- all_events _ (retry_command _ _ _ _) =>
      eapply all_events_impl; [|apply all_retry_command]
  | |- all_events _ (sdcard_wait_data_done _) =>
      eapply all_events_impl; [|apply all_wait_data_done]
  end.

Ltac all_ev := repeat all_ev_step.

Lemma existsb_grows (P : event -> bool) (d0 d : list event) :
  existsb P d = true -> existsb P (d0 ++ d) = true.
Proof. intros H. rewrite existsb_app, H. apply orb_true_r. Qed.

(** Inverts a returning chain of binds, one step after the other. *)
Ltac bind_inv H :=
  repeat (lazymatch type of H with
          | bind _ _ _ _ = Done _ _ => apply bind_Done_inv in H
          end;
          let a := fresh "a" in
          let d1 := fresh "d" in
          let d2 := fresh "d" in
          let H1 := fresh "Hstep" in
          destruct H as (a & d1 & d2 & H1 & H & ->)).

Lemma csr_write_Done r v fuel h (a : unit) d :
  csr_write r v fuel h = Done a d -> d = [CsrWrite r v].
Proof. now intros [= _ <-]. Qed.

Lemma ret_Done {A} (x : A) fuel h a d :
  ret x fuel h = Done a d -> a = x /\ d = [].
Proof. now intros [= <- <-]. Qed.

(** ** The read path *)

Section ReadFacts.

Variable cfg : build.
Variable hw : list event -> csr -> Z.

Lemma read_block_not_stop block nblocks :
  all_events (not_command 12)
    (if nblocks >? 1 then sdcard_read_multiple_block cfg hw block nblocks
     else sdcard_read_single_block cfg hw block).
Proof.
  unfold sdcard_read_multiple_block, sdcard_read_single_block.
  all_ev; try reflexivity; by_event.
Qed.

Lemma stop_no_dma_read r :
  all_events (no_read_of r) (sdcard_stop_transmission cfg hw) \/
  r = SDCARD_CORE_CMD_EVENT.
Proof.
  destruct r; try (right; reflexivity); left;
    unfold sdcard_stop_transmission; all_ev; by_event.
Qed.

(** One pass of the read loop: nothing before the end of the DMA done poll
    is a STOP_TRANSMISSION, nothing after it reads the DMA done flag, and
    what lies after it is reached only when the poll has seen the flag. *)
Lemma read_body_phases st fuel h :
  phases (not_command 12) (no_read_of SDCARD_BLOCK2MEM_DMA_DONE)
         (fun d1 => existsb (is_done_read SDCARD_BLOCK2MEM_DMA_DONE) d1 = true)
         (events (sdcard_read_body cfg hw st fuel h)).
Proof.
  destruct st as [[block count] buf]. unfold sdcard_read_body.
  destruct (count =? 0); [apply phases_nil|]. revert fuel h.
  do 4 (apply phases_bind_l;
        [apply existsb_grows | now apply all_csr_write | intros _]).
  apply phases_bind_l; [apply existsb_grows | | intros _].
  { unfold sdcard_set_block_count. all_ev. by_event. }
  apply phases_bind_l;
    [apply existsb_grows | apply read_block_not_stop | intros _].
  apply phases_bind_split.
  - all_ev. reflexivity.
  - intros fuel h [] d Hd. apply dma_poll_Done in Hd. destruct Hd as [ev Hd].
    eapply first_done_has_done_read, Hd.
  - intros _. unfold sdcard_stop_transmission. all_ev; by_event.
Qed.

Lemma read_body_precedes st fuel h :
  precedes (is_done_read SDCARD_BLOCK2MEM_DMA_DONE) (is_command 12)
           (events (sdcard_read_body cfg hw st fuel h)).
Proof. eapply phases_precedes, read_body_phases. Qed.

Lemma read_precedes block count buf fuel h :
  precedes (is_done_read SDCARD_BLOCK2MEM_DMA_DONE) (is_command 12)
           (events (sdcard_read cfg hw block count buf fuel h)).
Proof.
  unfold sdcard_read. rewrite events_bind. apply precedes_app.
  - unfold iter. apply precedes_iter_fuel. intros. apply read_body_precedes.
  - destruct (iter _ _ _ _); [|now apply precedes_none].
    apply precedes_none.
    assert (all_events (fun e => is_command 12 e = false)
              (if CONFIG_CPU_HAS_DMA_BUS cfg then ret tt
               else flush_cpu_dcache ;; flush_l2_cache)) as Hf.
    { destruct (CONFIG_CPU_HAS_DMA_BUS cfg); [apply all_ret|].
      intros ? ?. simpl. auto. }
    apply Hf.
Qed.

(** A pass over more than one block that returns has issued the STOP. *)
Lemma read_body_stops block count buf fuel h r d :
  SDCARD_CMD18_SUPPORT cfg = true -> 1 < count ->
  sdcard_read_body cfg hw (block, count, buf) fuel h = Done r d ->
  existsb (is_command 12) d = true.
Proof.
  intros H18 Hc H. unfold sdcard_read_body in H. rewrite H18 in H.
  destruct (Z.eqb_spec count 0); [lia|].
  destruct (Z.gtb_spec count 1); [|lia].
  bind_inv H.
  match goal with
  | Hs : bind (sdcard_stop_transmission _ _) _ _ _ = Done _ _ |- _ =>
      bind_inv Hs
  end.
  unfold sdcard_stop_transmission in *.
  match goal with
  | Hs : sdcard_send_command _ _ _ _ _ _ = Done _ _ |- _ =>
      apply send_command_Done in Hs; destruct Hs as (ev & d' & -> & _ & _)
  end.
  unfold cmd_writes. rewrite !existsb_app. cbn [existsb is_command].
  rewrite command_opcode. cbn. now rewrite !orb_true_r.
Qed.

End ReadFacts.

(** C1 (as the code has it). In the read path the block-to-memory DMA done
    flag is polled until set before STOP_TRANSMISSION is issued: in every
    pass of the loop, and in every run of [sdcard_read], finished or not, each
    STOP_TRANSMISSION command comes after a read of the DMA done register
    that found the flag set; within a pass the done register is not read any
    more once STOP_TRANSMISSION has been issued; and a pass over more than
    one block that returns has issued STOP_TRANSMISSION. *)
Theorem read_polls_dma_then_stops (cfg : build) (hw : list event -> csr -> Z)
  (block count buf : Z) (fuel : nat) (h : list event) :
  precedes (is_done_read SDCARD_BLOCK2MEM_DMA_DONE) (is_command 12)
           (events (sdcard_read_body cfg hw (block, count, buf) fuel h))
  /\ (forall pre e post,
         events (sdcard_read_body cfg hw (block, count, buf) fuel h)
         = pre ++ e :: post ->
         is_command 12 e = true ->
         Forall (no_read_of SDCARD_BLOCK2MEM_DMA_DONE) post)
  /\ precedes (is_done_read SDCARD_BLOCK2MEM_DMA_DONE) (is_command 12)
              (events (sdcard_read cfg hw block count buf fuel h))
  /\ (forall r d,
         SDCARD_CMD18_SUPPORT cfg = true -> 1 < count ->
         sdcard_read_body cfg hw (block, count, buf) fuel h = Done r d ->
         existsb (is_command 12) d = true).
Proof.
  split; [apply read_body_precedes|].
  split; [|split; [apply read_precedes|]].
  - intros pre e post Heq He.
    eapply phases_after; [apply read_body_phases | | exact Heq | exact He].
    intros e' He'. exact He'.
  - intros r d H18 Hc H. eapply read_body_stops; eauto.
Qed.

(** A two-block read on hardware that completes everything at once: the
    pass returns and has issued STOP_TRANSMISSION. *)
Lemma read_polls_dma_then_stops_witness :
  existsb (is_command 12)
    (events (sdcard_read_body sample_build hw_ok (0, 2, 4096) 2%nat [])) = true.
Proof.
  refine (proj2 (proj2 (proj2
    (read_polls_dma_then_stops sample_build hw_ok 0 2 4096 2%nat []))) _ _ _ _ _).
  - reflexivity.
  - lia.
  - vm_compute. reflexivity.
Defined.

(** C1 (as stated) fails: in a two-block read the first poll of the DMA done
    flag comes before any STOP_TRANSMISSION. *)
Lemma stop_not_before_dma_poll :
  ~ precedes (is_command 12) (is_read SDCARD_BLOCK2MEM_DMA_DONE)
      (events (sdcard_read sample_build hw_ok 0 2 4096 2%nat [])).
Proof.
  intros H.
  specialize (H (firstn 12 (events (sdcard_read sample_build hw_ok 0 2 4096 2%nat [])))
                (CsrRead SDCARD_BLOCK2MEM_DMA_DONE 1)
                (skipn 13 (events (sdcard_read sample_build hw_ok 0 2 4096 2%nat [])))
                eq_refl eq_refl).
  vm_compute in H. discriminate.
Qed.

(** ** The write path *)

Section WriteFacts.

Variable cfg : build.
Variable hw : list event -> csr -> Z.

Lemma events_write_bind {B} r v (k : unit -> M B) fuel h :
  events (bind (csr_write r v) k fuel h)
  = CsrWrite r v :: events (k tt fuel (h ++ [CsrWrite r v])).
Proof. rewrite events_bind. reflexivity. Qed.

(** With fuel left, the retry loop issues the command at least once. *)
Lemma retry_command_events arg cmd rsp fuel h :
  exists d', events (retry_command hw arg cmd rsp (S fuel) h)
             = cmd_writes arg cmd rsp ++ d'.
Proof.
  unfold retry_command, while_, iter. cbn [iter_fuel].
  rewrite !events_bind.
  destruct (send_command_events hw arg cmd rsp (S fuel) h) as [d' ->].
  rewrite <- !app_assoc. eauto.
Qed.

Lemma write_block_events block nblocks fuel h :
  exists rest,
    events ((if nblocks >? 1 then sdcard_write_multiple_block cfg hw block nblocks
             else sdcard_write_single_block cfg hw block) (S fuel) h)
    = CsrWrite SDCARD_CORE_BLOCK_LENGTH 512
      :: CsrWrite SDCARD_CORE_BLOCK_COUNT (if nblocks >? 1 then nblocks else 1)
      :: cmd_writes block (if nblocks >? 1 then 25 else 24)
                    (data_rsp cfg (SDCARD_CTRL_DATA_TRANSFER_WRITE cfg))
      ++ rest.
Proof.
  destruct (nblocks >? 1);
    unfold sdcard_write_multiple_block, sdcard_write_single_block;
    rewrite !events_write_bind, events_bind;
    match goal with
    | |- context [retry_command hw ?a ?c ?r (S fuel) ?h'] =>
        destruct (retry_command_events a c r fuel h') as [d' ->]
    end;
    rewrite <- app_assoc; eauto.
Qed.

Lemma write_block_no_data_wait block nblocks :
  all_events (no_read_of SDCARD_CORE_DATA_EVENT)
    (if nblocks >? 1 then sdcard_write_multiple_block cfg hw block nblocks
     else sdcard_write_single_block cfg hw block).
Proof.
  unfold sdcard_write_multiple_block, sdcard_write_single_block.
  all_ev; try reflexivity; by_event.
Qed.

Lemma write_body_no_data_wait st :
  all_events (no_read_of SDCARD_CORE_DATA_EVENT) (sdcard_write_body cfg hw st).
Proof.
  destruct st as [[block count] buf]. unfold sdcard_write_body.
  destruct (count =? 0); [apply all_ret|].
  do 4 (apply all_bind; [now apply all_csr_write | intros _]).
  apply all_bind; [|intros _].
  { unfold sdcard_set_block_count. all_ev. by_event. }
  apply all_bind; [apply write_block_no_data_wait | intros _].
  unfold sdcard_stop_transmission. all_ev; try reflexivity; by_event.
Qed.

(** Steps 1 to 5 of a pass, as the events a pass begins with. *)
Lemma write_body_prefix block count buf fuel h :
  count <> 0 -> SDCARD_CMD23_SUPPORT cfg = false ->
  exists rest,
    events (sdcard_write_body cfg hw (block, count, buf) (S fuel) h)
    = [CsrWrite SDCARD_MEM2BLOCK_DMA_ENABLE 0;
       CsrWrite SDCARD_MEM2BLOCK_DMA_BASE buf;
       CsrWrite SDCARD_MEM2BLOCK_DMA_LENGTH
         (u32 (512 * (if SDCARD_CMD25_SUPPORT cfg then count else 1)));
       CsrWrite SDCARD_MEM2BLOCK_DMA_ENABLE 1;
       CsrWrite SDCARD_CORE_BLOCK_LENGTH 512;
       CsrWrite SDCARD_CORE_BLOCK_COUNT
         (if (if SDCARD_CMD25_SUPPORT cfg then count else 1) >? 1
          then (if SDCARD_CMD25_SUPPORT cfg then count else 1) else 1)]
      ++ cmd_writes block
           (if (if SDCARD_CMD25_SUPPORT cfg then count else 1) >? 1
            then 25 else 24)
           (data_rsp cfg (SDCARD_CTRL_DATA_TRANSFER_WRITE cfg))
      ++ rest.
Proof.
  intros Hc H23. unfold sdcard_write_body. rewrite H23.
  destruct (Z.eqb_spec count 0); [contradiction|].
  set (nblocks := if SDCARD_CMD25_SUPPORT cfg then count else 1).
  rewrite !events_write_bind. rewrite events_bind. cbn [ret events app].
  rewrite events_bind.
  match goal with
  | |- context [events ((if nblocks >? 1 then _ else _) (S fuel) ?h')] =>
      destruct (write_block_events block nblocks fuel h') as [rest ->]
  end.
  cbn [app]. rewrite <- app_assoc. eauto.
Qed.

End WriteFacts.

Section WriteOrder.

Variable cfg : build.
Variable hw : list event -> csr -> Z.

(** The state a pass of the write loop hands on. *)
Lemma write_body_Done block count buf fuel h r d :
  sdcard_write_body cfg hw (block, count, buf) fuel h = Done r d ->
  count <> 0 ->
  r = inl (u32 (block + (if SDCARD_CMD25_SUPPORT cfg then count else 1)),
           u32 (count - (if SDCARD_CMD25_SUPPORT cfg then count else 1)),
           buf + u32 (512 * (if SDCARD_CMD25_SUPPORT cfg then count else 1))).
Proof.
  intros H Hc. unfold sdcard_write_body in H.
  destruct (Z.eqb_spec count 0); [contradiction|].
  bind_inv H. now injection H as <- _.
Qed.

Lemma write_loop_ended n block buf fuel h :
  events (iter_fuel (sdcard_write_body cfg hw) n (block, 0, buf) fuel h) = [].
Proof. destruct n; reflexivity. Qed.

(** With the multi-block write command the loop makes one pass. *)
Lemma write_one_pass n block count buf fuel h :
  SDCARD_CMD25_SUPPORT cfg = true -> count <> 0 ->
  events (iter_fuel (sdcard_write_body cfg hw) (S n) (block, count, buf) fuel h)
  = events (sdcard_write_body cfg hw (block, count, buf) fuel h).
Proof.
  intros H25 Hc. cbn [iter_fuel]. rewrite events_bind.
  destruct (sdcard_write_body cfg hw (block, count, buf) fuel h)
    as [r d|d] eqn:E; [|apply app_nil_r].
  apply write_body_Done in E; [|assumption]. subst r. rewrite H25.
  replace (count - count) with 0 by lia. change (u32 0) with 0.
  rewrite write_loop_ended. apply app_nil_r.
Qed.

Lemma stop_Done_has_stop fuel h r d :
  sdcard_stop_transmission cfg hw fuel h = Done r d ->
  existsb (is_command 12) d = true.
Proof.
  unfold sdcard_stop_transmission. intros H. apply send_command_Done in H.
  destruct H as (ev & d' & -> & _ & _).
  unfold cmd_writes. cbn [existsb app is_command].
  rewrite command_opcode. reflexivity.
Qed.

(** A pass over more than one block: up to the return of STOP_TRANSMISSION
    nothing reads the DMA done flag. *)
Lemma write_body_phases block count buf fuel h :
  SDCARD_CMD25_SUPPORT cfg = true -> 1 < count ->
  phases (no_read_of SDCARD_MEM2BLOCK_DMA_DONE) (fun _ => True)
         (fun d1 => existsb (is_command 12) d1 = true)
         (events (sdcard_write_body cfg hw (block, count, buf) fuel h)).
Proof.
  intros H25 Hc. unfold sdcard_write_body. rewrite H25.
  destruct (Z.eqb_spec count 0); [lia|].
  destruct (Z.gtb_spec count 1); [|lia]. revert fuel h.
  do 4 (apply phases_bind_l;
        [apply existsb_grows | now apply all_csr_write | intros _]).
  apply phases_bind_l; [apply existsb_grows | | intros _].
  { unfold sdcard_set_block_count. all_ev. by_event. }
  apply phases_bind_l; [apply existsb_grows | | intros _].
  { unfold sdcard_write_multiple_block. all_ev; try reflexivity; by_event. }
  apply phases_bind_split.
  - unfold sdcard_stop_transmission. all_ev. by_event.
  - intros fuel h a d Hd. bind_inv Hd. injection Hd as _ <-.
    rewrite app_nil_r. eapply stop_Done_has_stop; eauto.
  - intros _ fuel h. apply Forall_forall. auto.
Qed.

End WriteOrder.

(** ** Block accounting *)

Lemma written_app r d d' : written r (d ++ d') = written r d ++ written r d'.
Proof. apply flat_map_app. Qed.

Lemma written_none r d : Forall (no_write_to r) d -> written r d = [].
Proof.
  induction 1 as [|e d He _ IH]; [reflexivity|].
  unfold written in *. cbn [flat_map]. rewrite IH.
  destruct e; try reflexivity. unfold no_write_to in He. cbn in He.
  now rewrite He.
Qed.

Lemma count_app P d d' : occurrences P (d ++ d') = (occurrences P d + occurrences P d')%nat.
Proof. unfold occurrences. now rewrite filter_app, length_app. Qed.

Lemma count_none (P : event -> bool) d :
  Forall (fun e => P e = false) d -> occurrences P d = O.
Proof.
  induction 1 as [|e d He _ IH]; [reflexivity|].
  unfold occurrences in *. cbn [filter]. now rewrite He.
Qed.

Lemma not_a_write_no_write_to r d :
  Forall not_a_write d -> Forall (no_write_to r) d.
Proof. apply Forall_impl. intros []; simpl; try reflexivity; contradiction. Qed.

Lemma not_a_write_not_command op d :
  Forall not_a_write d -> Forall (fun e => is_command op e = false) d.
Proof. apply Forall_impl. intros []; simpl; try reflexivity; contradiction. Qed.

Lemma all_events_Done {A} (P : event -> Prop) (m : M A) fuel h a d :
  all_events P m -> m fuel h = Done a d -> Forall P d.
Proof. intros Hm H. specialize (Hm fuel h). now rewrite H in Hm. Qed.

(** The polling of a done flag writes nothing. *)
Lemma first_done_no_write hw r td tb h ev d :
  Forall not_a_write td -> Forall not_a_write tb ->
  first_done hw r td tb h ev d -> Forall not_a_write d.
Proof.
  intros Htd Htb. induction 1 as [h ev Hev Hbit | h v ev d Hv Hbit H IH].
  - constructor; [exact I | exact Htd].
  - constructor; [exact I|]. apply Forall_app. auto.
Qed.

(** The value in which the flag is seen is a value of the register. *)
Lemma first_done_value hw r td tb h ev d :
  first_done hw r td tb h ev d -> exists h', ev = u32 (hw h' r).
Proof. induction 1; eauto. Qed.

Lemma cmd_polls_no_write hw h ev d :
  cmd_done_after hw h ev d -> Forall not_a_write d.
Proof. apply first_done_no_write; repeat constructor. Qed.

Lemma data_polls_no_write hw h ev d :
  data_done_after hw h ev d -> Forall not_a_write d.
Proof. apply first_done_no_write; repeat constructor. Qed.

Lemma dma_polls_no_write hw r h ev d :
  dma_done_after hw r h ev d -> Forall not_a_write d.
Proof. apply first_done_no_write; repeat constructor. Qed.

Lemma completes_bind {A B} (m : M A) (k : A -> M B) :
  completes m -> (forall a, completes (k a)) -> completes (bind m k).
Proof.
  intros Hm Hk h. destruct (Hm h) as (a & d1 & H1).
  destruct (Hk a (h ++ d1)) as (b & d2 & H2).
  exists b, (d1 ++ d2). eapply returns_bind; eauto.
Qed.

Lemma completes_ret {A} (a : A) : completes (ret a).
Proof. intros h. exists a, []. apply returns_ret. Qed.

Lemma completes_csr_write r v : completes (csr_write r v).
Proof. intros h. exists tt, [CsrWrite r v], O. reflexivity. Qed.

Section Responsive.

Variable cfg : build.
Variable hw : list event -> csr -> Z.
Hypothesis Hhw : responsive hw.

Lemma completes_send_command arg cmd rsp :
  completes (sdcard_send_command hw arg cmd rsp).
Proof.
  intros h.
  destruct (cmd_ends Hhw (h ++ cmd_writes arg cmd rsp)) as (ev & d & H).
  eauto using send_command_returns.
Qed.

Lemma completes_retry_command arg cmd rsp :
  completes (retry_command hw arg cmd rsp).
Proof. intros h. destruct (retry_ends Hhw arg cmd rsp h) as [d H]. eauto. Qed.

Lemma completes_wait_data_done : completes (sdcard_wait_data_done hw).
Proof.
  intros h. destruct (data_ends Hhw h) as (ev & d & H).
  eauto using wait_data_done_returns.
Qed.

Lemma completes_dma_poll r :
  r = SDCARD_BLOCK2MEM_DMA_DONE \/ r = SDCARD_MEM2BLOCK_DMA_DONE ->
  completes (while_ (v <- csr_read hw r ;; ret (Z.land v 1 =? 0))).
Proof.
  intros Hr h. destruct (dma_ends Hhw h Hr) as (ev & d & H).
  eauto using dma_poll_returns.
Qed.

End Responsive.

Ltac completes_step :=
  match goal with
  | |- completes (bind _ _) => apply completes_bind; [|intros ?]
  | |- completes (ret _) => apply completes_ret
  | |- completes (csr_write _ _) => apply completes_csr_write
  | |- completes (while_ _) => apply completes_dma_poll; [|auto]
  | |- completes (sdcard_send_command _ _ _ _) => apply completes_send_command
  | |- completes (retry_command _ _ _ _) => apply completes_retry_command
  | |- completes (sdcard_wait_data_done _) => apply completes_wait_data_done
  | |- completes (if ?c then _ else _) => destruct c
  end.

Section ReadAccounting.

Variable cfg : build.
Variable hw : list event -> csr -> Z.

Lemma send_command_Done_shape arg cmd rsp fuel h r d :
  sdcard_send_command hw arg cmd rsp fuel h = Done r d ->
  exists ev dp, d = cmd_writes arg cmd rsp ++ dp /\ Forall not_a_write dp
                /\ r = flags_result ev /\ exists h', ev = u32 (hw h' SDCARD_CORE_CMD_EVENT).
Proof.
  intros H. apply send_command_Done in H.
  destruct H as (ev & dp & -> & Hfd & ->). exists ev, dp.
  repeat split; eauto using cmd_polls_no_write.
  eapply first_done_value, Hfd.
Qed.

(** When no command fails, a retry loop that returns has issued its command
    once. *)
Lemma retry_command_once arg cmd rsp fuel h d :
  cmd_never_fails hw ->
  retry_command hw arg cmd rsp fuel h = Done tt d ->
  exists dp, d = cmd_writes arg cmd rsp ++ dp /\ Forall not_a_write dp.
Proof.
  intros Hok H. unfold retry_command, while_, iter in H.
  destruct fuel as [|n]; [discriminate|]. cbn [iter_fuel] in H.
  apply bind_Done_inv in H. destruct H as (x & d1 & d2 & Hb & Hrest & ->).
  apply bind_Done_inv in Hb. destruct Hb as (c & d3 & d4 & Hc & Hx & ->).
  apply bind_Done_inv in Hc. destruct Hc as (r & d5 & d6 & Hs & Hr & ->).
  apply send_command_Done_shape in Hs.
  destruct Hs as (ev & dp & -> & Hdp & -> & h' & ->).
  destruct (Hok h') as [H2 H3]. unfold flags_result in Hr.
  rewrite H2, H3 in Hr. injection Hr as <- <-.
  injection Hx as <- <-. injection Hrest as <-.
  exists dp. rewrite !app_nil_r. auto.
Qed.

(** The events of a pass of the read loop that returns, and the state it
    hands on.  [nblocks] is the chunk: the whole count with CMD18, else 1. *)
Lemma read_body_Done block count buf fuel h r d :
  count <> 0 ->
  sdcard_read_body cfg hw (block, count, buf) fuel h = Done r d ->
  let nblocks := if SDCARD_CMD18_SUPPORT cfg then count else 1 in
  r = inl (u32 (block + nblocks), u32 (count - nblocks),
           buf + u32 (512 * nblocks))
  /\ exists d23 h' dr dd dp ds,
      d = [CsrWrite SDCARD_BLOCK2MEM_DMA_ENABLE 0;
           CsrWrite SDCARD_BLOCK2MEM_DMA_BASE buf;
           CsrWrite SDCARD_BLOCK2MEM_DMA_LENGTH (u32 (512 * nblocks));
           CsrWrite SDCARD_BLOCK2MEM_DMA_ENABLE 1]
          ++ d23
          ++ [CsrWrite SDCARD_CORE_BLOCK_LENGTH 512;
              CsrWrite SDCARD_CORE_BLOCK_COUNT
                (if nblocks >? 1 then nblocks else 1)]
          ++ dr ++ dd ++ dp ++ ds
      /\ Forall (command_event 23) d23
      /\ retry_command hw block (if nblocks >? 1 then 18 else 17)
           (data_rsp cfg (SDCARD_CTRL_DATA_TRANSFER_READ cfg)) fuel h'
         = Done tt dr
      /\ Forall not_a_write dd
      /\ Forall not_a_write dp
      /\ (if nblocks >? 1
          then exists dsp, ds = cmd_writes 0 12 (SDCARD_CTRL_RESPONSE_SHORT_BUSY cfg)
                                ++ dsp
                           /\ Forall not_a_write dsp
          else ds = []).
Proof.
  intros Hc H nblocks. unfold sdcard_read_body in H. fold nblocks in H.
  destruct (Z.eqb_spec count 0); [contradiction|].
  bind_inv H. apply ret_Done in H. destruct H as [-> ->].
  split; [reflexivity|].
  apply csr_write_Done in Hstep, Hstep0, Hstep1, Hstep2. subst.
  assert (Forall (command_event 23) d3) as H23.
  { destruct (SDCARD_CMD23_SUPPORT cfg).
    - bind_inv Hstep3. apply ret_Done in Hstep3. destruct Hstep3 as [_ ->].
      rewrite app_nil_r.
      eapply all_events_Done; [|exact Hstep].
      unfold sdcard_set_block_count. apply (all_send_command hw nblocks 23). 
    - apply ret_Done in Hstep3. destruct Hstep3 as [_ ->]. constructor. }
  repeat match goal with u : unit |- _ => destruct u end.
  apply dma_poll_Done in Hstep5. destruct Hstep5 as [ev5 Hp].
  apply dma_polls_no_write in Hp.
  assert (exists h' dr dd,
             d4 = [CsrWrite SDCARD_CORE_BLOCK_LENGTH 512;
                   CsrWrite SDCARD_CORE_BLOCK_COUNT
                     (if nblocks >? 1 then nblocks else 1)] ++ dr ++ dd
             /\ retry_command hw block (if nblocks >? 1 then 18 else 17)
                  (data_rsp cfg (SDCARD_CTRL_DATA_TRANSFER_READ cfg)) fuel h'
                = Done tt dr
             /\ Forall not_a_write dd) as (h' & dr & dd & -> & Hr & Hdd).
  { destruct (nblocks >? 1);
      unfold sdcard_read_multiple_block, sdcard_read_single_block in Hstep4;
      bind_inv Hstep4;
      apply csr_write_Done in Hstep, Hstep0; subst;
      apply wait_data_done_Done in Hstep4;
      destruct Hstep4 as (ev & Hfd & _);
      apply data_polls_no_write in Hfd;
      repeat match goal with u : unit |- _ => destruct u end;
      do 3 eexists;
      (split; [reflexivity | split; [eassumption | assumption]]). }
  exists d3, h', dr, dd, d5, d6.
  repeat split; auto.
  - rewrite <- !app_assoc, app_nil_r. reflexivity.
  - destruct (nblocks >? 1).
    + bind_inv Hstep6. apply ret_Done in Hstep6. destruct Hstep6 as [_ ->].
      unfold sdcard_stop_transmission in Hstep.
      apply send_command_Done_shape in Hstep.
      destruct Hstep as (ev & dsp & -> & Hdsp & _).
      exists dsp. rewrite app_nil_r. auto.
    + apply ret_Done in Hstep6. now destruct Hstep6 as [_ ->].
Qed.

End ReadAccounting.

Unset Implicit Arguments.

Section ReadLoop.

Variable cfg : build.
Variable hw : list event -> csr -> Z.

Lemma command_event_no_geometry op r d :
  r = SDCARD_CORE_BLOCK_COUNT \/ r = SDCARD_BLOCK2MEM_DMA_LENGTH ->
  Forall (command_event op) d -> Forall (no_write_to r) d.
Proof. intros [-> | ->]; apply Forall_impl; by_event. Qed.

Lemma command_event_other op op' d :
  op <> op' ->
  Forall (command_event op) d -> Forall (fun e => is_command op' e = false) d.
Proof.
  intros Hne. apply Forall_impl. intros e H.
  destruct e as [[] ? | [] ? | ? | ? | ? ? | | ];
    cbn in H |- *; try contradiction; try reflexivity.
  apply Z.eqb_neq. congruence.
Qed.

(** What a returning pass writes to the block-count register and to the
    length register of the DMA engine. *)
Lemma read_body_written block count buf fuel h r d :
  count <> 0 ->
  sdcard_read_body cfg hw (block, count, buf) fuel h = Done r d ->
  let nblocks := if SDCARD_CMD18_SUPPORT cfg then count else 1 in
  written SDCARD_CORE_BLOCK_COUNT d = [if nblocks >? 1 then nblocks else 1]
  /\ written SDCARD_BLOCK2MEM_DMA_LENGTH d = [u32 (512 * nblocks)].
Proof.
  intros Hc H nblocks.
  destruct (@read_body_Done cfg hw _ _ _ _ _ _ _ Hc H)
    as (_ & d23 & h' & dr & dd & dp & ds & -> & H23 & Hr & Hdd & Hdp & Hds).
  fold nblocks in Hds, Hr |- *.
  apply (@all_events_Done _ _ _ _ _ _ _ (@all_retry_command hw _ _ _)) in Hr.
  assert (forall r0,
             r0 = SDCARD_CORE_BLOCK_COUNT \/ r0 = SDCARD_BLOCK2MEM_DMA_LENGTH ->
             written r0 d23 = [] /\ written r0 dr = [] /\ written r0 dd = []
             /\ written r0 dp = [] /\ written r0 ds = []) as Hw.
  { intros r0 Hr0. repeat split.
    - apply written_none. eapply command_event_no_geometry; eauto.
    - apply written_none. eapply command_event_no_geometry; eauto.
    - apply written_none. now apply not_a_write_no_write_to.
    - apply written_none. now apply not_a_write_no_write_to.
    - destruct (nblocks >? 1).
      + destruct Hds as (dsp & -> & Hdsp). rewrite written_app.
        rewrite (written_none (@not_a_write_no_write_to r0 _ Hdsp)).
        destruct Hr0 as [-> | ->]; reflexivity.
      + now subst ds. }
  split.
  - destruct (Hw SDCARD_CORE_BLOCK_COUNT) as (E1 & E2 & E3 & E4 & E5); auto.
    rewrite !written_app, E1, E2, E3, E4, E5. reflexivity.
  - destruct (Hw SDCARD_BLOCK2MEM_DMA_LENGTH) as (E1 & E2 & E3 & E4 & E5); auto.
    rewrite !written_app, E1, E2, E3, E4, E5. reflexivity.
Qed.

(** The loop: one pass per chunk. *)
Lemma read_loop_written fuel n :
  forall block count buf h d,
    0 <= count < 2 ^ 32 ->
    iter_fuel (sdcard_read_body cfg hw) n (block, count, buf) fuel h
    = Done tt d ->
    written SDCARD_CORE_BLOCK_COUNT d
    = (if SDCARD_CMD18_SUPPORT cfg
       then (if count =? 0 then [] else [count])
       else repeat 1 (Z.to_nat count))
    /\ written SDCARD_BLOCK2MEM_DMA_LENGTH d
       = map (fun k => u32 (512 * k)) (written SDCARD_CORE_BLOCK_COUNT d).
Proof.
  induction n as [|n IH]; intros block count buf h d Hc H; [discriminate|].
  cbn [iter_fuel] in H. apply bind_Done_inv in H.
  destruct H as (r & d1 & d2 & Hbody & Hrest & ->).
  destruct (Z.eqb_spec count 0) as [->|Hne].
  - unfold sdcard_read_body in Hbody. cbn in Hbody.
    apply ret_Done in Hbody. destruct Hbody as [-> ->].
    apply ret_Done in Hrest. destruct Hrest as [_ ->].
    destruct (SDCARD_CMD18_SUPPORT cfg); split; reflexivity.
  - destruct (read_body_written _ _ _ _ _ _ _ Hne Hbody) as [Hbc Hlen].
    destruct (@read_body_Done cfg hw _ _ _ _ _ _ _ Hne Hbody) as [-> _].
    apply IH in Hrest; [|apply Z.mod_pos_bound; lia].
    destruct Hrest as [Hbc2 Hlen2].
    rewrite !written_app, Hbc, Hlen, Hlen2, Hbc2.
    change (2 ^ 32) with 4294967296 in *.
    destruct (SDCARD_CMD18_SUPPORT cfg).
    + replace (count - count) with 0 by lia. change (u32 0) with 0.
      cbn [Z.eqb app map].
      destruct (Z.gtb_spec count 1).
      * split; reflexivity.
      * assert (count = 1) as -> by lia. split; reflexivity.
    + change (1 >? 1) with false. cbn [app map].
      assert (u32 (count - 1) = count - 1) as ->.
      { unfold u32. change (2 ^ 32) with 4294967296. apply Z.mod_small. lia. }
      replace (Z.to_nat count) with (S (Z.to_nat (count - 1))) by lia.
      split; reflexivity.
Qed.

Lemma read_body_completes st :
  responsive hw -> completes (sdcard_read_body cfg hw st).
Proof.
  intros Hhw. destruct st as [[block count] buf]. unfold sdcard_read_body.
  destruct (count =? 0); [apply completes_ret|].
  unfold sdcard_set_block_count, sdcard_read_multiple_block,
    sdcard_read_single_block, sdcard_stop_transmission.
  repeat completes_step; assumption.
Qed.

Lemma read_loop_returns :
  responsive hw ->
  forall k block count buf h,
    0 <= count < 2 ^ 32 -> (Z.to_nat count <= k)%nat ->
    exists d, iter_returns (sdcard_read_body cfg hw) (block, count, buf) h tt d.
Proof.
  intros Hhw. induction k as [|k IH]; intros block count buf h Hc Hk.
  - assert (count = 0) as -> by lia. exists [].
    apply iter_returns_break. exists O. reflexivity.
  - destruct (Z.eqb_spec count 0) as [->|Hne].
    { exists []. apply iter_returns_break. exists O. reflexivity. }
    destruct (read_body_completes (block, count, buf) Hhw h) as (r & d & Hr).
    pose proof Hr as [N HN]. specialize (HN N (le_n N)).
    destruct (@read_body_Done cfg hw _ _ _ _ _ _ _ Hne HN) as [-> _].
    change (2 ^ 32) with 4294967296 in *.
    set (nblocks := if SDCARD_CMD18_SUPPORT cfg then count else 1) in *.
    assert (0 <= u32 (count - nblocks) < 4294967296
            /\ (Z.to_nat (u32 (count - nblocks)) <= k)%nat) as [Hc' Hk'].
    { unfold nblocks. destruct (SDCARD_CMD18_SUPPORT cfg).
      - replace (count - count) with 0 by lia. change (u32 0) with 0. lia.
      - assert (u32 (count - 1) = count - 1) as ->; [|lia].
        unfold u32. change (2 ^ 32) with 4294967296. apply Z.mod_small. lia. }
    destruct (IH (u32 (block + nblocks)) (u32 (count - nblocks))
                 (buf + u32 (512 * nblocks)) (h ++ d) Hc' Hk') as [d' Hd'].
    exists (d ++ d'). eapply iter_returns_continue; eauto.
Qed.

Lemma read_returns block count buf h :
  responsive hw -> 0 <= count < 2 ^ 32 ->
  exists d, returns (sdcard_read cfg hw block count buf) h tt d.
Proof.
  intros Hhw Hc.
  destruct (read_loop_returns Hhw (Z.to_nat count) block count buf h Hc (le_n _))
    as [d Hd].
  apply iter_returns_returns in Hd. unfold sdcard_read.
  destruct (CONFIG_CPU_HAS_DMA_BUS cfg).
  - exists (d ++ []). eapply returns_bind; [exact Hd | apply returns_ret].
  - exists (d ++ [FlushCpuDcache; FlushL2Cache]).
    eapply returns_bind; [exact Hd|]. exists O. reflexivity.
Qed.

End ReadLoop.

Section ReadScenario.

Variable cfg : build.
Variable hw : list event -> csr -> Z.

Lemma count_cmd_writes op arg cmd rsp :
  occurrences (is_command op) (cmd_writes arg cmd rsp)
  = if u8 cmd =? op then 1%nat else 0%nat.
Proof.
  unfold occurrences, cmd_writes. cbn [filter is_command].
  rewrite command_opcode. now destruct (u8 cmd =? op).
Qed.

Lemma count_no_write op d :
  Forall not_a_write d -> occurrences (is_command op) d = 0%nat.
Proof. intros H. apply count_none. now apply not_a_write_not_command. Qed.

Lemma read_loop_ended n block buf fuel h :
  events (iter_fuel (sdcard_read_body cfg hw) n (block, 0, buf) fuel h) = [].
Proof. destruct n; reflexivity. Qed.

(** A multi-block read on hardware whose commands do not fail: the events of
    a run that returns. *)
Lemma read_multi_Done block count buf fuel h d :
  SDCARD_CMD18_SUPPORT cfg = true -> cmd_never_fails hw -> 1 < count ->
  sdcard_read cfg hw block count buf fuel h = Done tt d ->
  exists d23 dq dd dp dsp df,
    d = [CsrWrite SDCARD_BLOCK2MEM_DMA_ENABLE 0;
         CsrWrite SDCARD_BLOCK2MEM_DMA_BASE buf;
         CsrWrite SDCARD_BLOCK2MEM_DMA_LENGTH (u32 (512 * count));
         CsrWrite SDCARD_BLOCK2MEM_DMA_ENABLE 1]
        ++ d23
        ++ [CsrWrite SDCARD_CORE_BLOCK_LENGTH 512;
            CsrWrite SDCARD_CORE_BLOCK_COUNT count]
        ++ (cmd_writes block 18
              (data_rsp cfg (SDCARD_CTRL_DATA_TRANSFER_READ cfg)) ++ dq)
        ++ dd ++ dp
        ++ (cmd_writes 0 12 (SDCARD_CTRL_RESPONSE_SHORT_BUSY cfg) ++ dsp)
        ++ df
    /\ Forall (command_event 23) d23
    /\ Forall not_a_write dq /\ Forall not_a_write dd
    /\ Forall not_a_write dp /\ Forall not_a_write dsp
    /\ Forall not_a_write df.
Proof.
  intros H18 Hok Hc H. unfold sdcard_read in H.
  apply bind_Done_inv in H. destruct H as ([] & d1 & df & Hloop & Hflush & ->).
  unfold iter in Hloop. destruct fuel as [|n]; [discriminate|].
  cbn [iter_fuel] in Hloop. apply bind_Done_inv in Hloop.
  destruct Hloop as (r & db & de & Hbody & Hrest & ->).
  assert (count <> 0) as Hne by lia.
  destruct (@read_body_Done cfg hw _ _ _ _ _ _ _ Hne Hbody)
    as (-> & d23 & h' & dr & dd & dp & ds & -> & H23 & Hr & Hdd & Hdp & Hds).
  rewrite H18 in *. destruct (Z.gtb_spec count 1); [|lia].
  replace (count - count) with 0 in Hrest by lia. change (u32 0) with 0 in Hrest.
  assert (de = []) as ->.
  { change de with (events (Done tt de)). rewrite <- Hrest.
    apply read_loop_ended. }
  destruct (@retry_command_once hw _ _ _ _ _ _ Hok Hr) as (dq & -> & Hdq).
  destruct Hds as (dsp & -> & Hdsp).
  exists d23, dq, dd, dp, dsp, df. rewrite app_nil_r, <- !app_assoc.
  repeat split; auto.
  destruct (CONFIG_CPU_HAS_DMA_BUS cfg).
  - apply ret_Done in Hflush. destruct Hflush as [_ ->]. constructor.
  - injection Hflush as <-. repeat constructor.
Qed.

Lemma read_multi_commands block count buf fuel h d :
  SDCARD_CMD18_SUPPORT cfg = true -> cmd_never_fails hw -> 1 < count ->
  sdcard_read cfg hw block count buf fuel h = Done tt d ->
  occurrences (is_command 18) d = 1%nat
  /\ occurrences (is_command 12) d = 1%nat
  /\ exists pre post,
      d = pre ++ cmd_writes block 18
                   (data_rsp cfg (SDCARD_CTRL_DATA_TRANSFER_READ cfg)) ++ post.
Proof.
  intros H18 Hok Hc H.
  destruct (read_multi_Done _ _ _ _ _ _ H18 Hok Hc H)
    as (d23 & dq & dd & dp & dsp & df & -> & H23 & Hdq & Hdd & Hdp & Hdsp & Hdf).
  assert (forall op, op = 18 \/ op = 12 -> occurrences (is_command op) d23 = 0%nat)
    as H23'.
  { intros op Hop. apply count_none.
    apply (command_event_other 23 op); [lia | assumption]. }
  repeat split.
  - rewrite !count_app, !count_cmd_writes, H23' by auto.
    rewrite (count_no_write _ dq Hdq), (count_no_write _ dd Hdd),
      (count_no_write _ dp Hdp), (count_no_write _ dsp Hdsp),
      (count_no_write _ df Hdf).
    reflexivity.
  - rewrite !count_app, !count_cmd_writes, H23' by auto.
    rewrite (count_no_write _ dq Hdq), (count_no_write _ dd Hdd),
      (count_no_write _ dp Hdp), (count_no_write _ dsp Hdsp),
      (count_no_write _ df Hdf).
    reflexivity.
  - exists ([CsrWrite SDCARD_BLOCK2MEM_DMA_ENABLE 0;
             CsrWrite SDCARD_BLOCK2MEM_DMA_BASE buf;
             CsrWrite SDCARD_BLOCK2MEM_DMA_LENGTH (u32 (512 * count));
             CsrWrite SDCARD_BLOCK2MEM_DMA_ENABLE 1]
            ++ d23
            ++ [CsrWrite SDCARD_CORE_BLOCK_LENGTH 512;
                CsrWrite SDCARD_CORE_BLOCK_COUNT count]).
    exists (dq ++ dd ++ dp
            ++ (cmd_writes 0 12 (SDCARD_CTRL_RESPONSE_SHORT_BUSY cfg) ++ dsp)
            ++ df).
    now rewrite <- !app_assoc.
Qed.

End ReadScenario.

(** The stub hardware that completes everything at once is responsive. *)
Lemma hw_ok_responsive : responsive hw_ok.
Proof.
  split.
  - intros arg cmd rsp h.
    exists (cmd_writes arg cmd rsp
            ++ [CsrRead SDCARD_CORE_CMD_EVENT 1; BusyWaitUs 10]).
    apply iter_returns_returns, iter_returns_break.
    rewrite <- (app_nil_r (cmd_writes arg cmd rsp ++ _)).
    eapply returns_bind.
    + rewrite <- (app_nil_r (cmd_writes arg cmd rsp ++ _)).
      eapply returns_bind.
      * apply (@send_command_returns hw_ok arg cmd rsp h 1).
        apply first_done_now; reflexivity.
      * apply returns_ret.
    + apply returns_ret.
  - intros h. exists 1, [CsrRead SDCARD_CORE_CMD_EVENT 1; BusyWaitUs 10].
    apply first_done_now; reflexivity.
  - intros h. exists 1, [CsrRead SDCARD_CORE_DATA_EVENT 1].
    apply first_done_now; reflexivity.
  - intros r h [-> | ->].
    + exists 1, [CsrRead SDCARD_BLOCK2MEM_DMA_DONE 1].
      apply first_done_now; reflexivity.
    + exists 1, [CsrRead SDCARD_MEM2BLOCK_DMA_DONE 1].
      apply first_done_now; reflexivity.
Qed.

(** C5. Block accounting of the read loop, for 0 < count < 2^32 (a 32-bit
    count).  The chunk of a pass is what the pass writes to the block-count
    register.  In a run that returns, the chunks add up to [count], there is
    one pass with the multi-block command enabled and [count] passes with it
    disabled, and each pass programs the DMA length 512 * chunk.  The run
    does return when no failure persists ([responsive]).  With multi-block
    read enabled and commands that do not fail, a read of more than one
    block (read(buffer, 100, 10)) issues one multi-block read command CMD18
    with the start block as argument, one STOP_TRANSMISSION, and programs the
    DMA length 512 * count (5120). *)
Theorem read_block_accounting (cfg : build) (hw : list event -> csr -> Z)
  (block count buf : Z) :
  0 < count < 2 ^ 32 ->
  (forall fuel h d,
      sdcard_read cfg hw block count buf fuel h = Done tt d ->
      fold_right Z.add 0 (written SDCARD_CORE_BLOCK_COUNT d) = count
      /\ List.length (written SDCARD_CORE_BLOCK_COUNT d)
         = (if SDCARD_CMD18_SUPPORT cfg then 1%nat else Z.to_nat count)
      /\ written SDCARD_BLOCK2MEM_DMA_LENGTH d
         = map (fun k => u32 (512 * k)) (written SDCARD_CORE_BLOCK_COUNT d))
  /\ (responsive hw ->
      forall h, exists d, returns (sdcard_read cfg hw block count buf) h tt d)
  /\ (SDCARD_CMD18_SUPPORT cfg = true -> cmd_never_fails hw -> 1 < count ->
      forall fuel h d,
        sdcard_read cfg hw block count buf fuel h = Done tt d ->
        occurrences (is_command 18) d = 1%nat
        /\ (exists pre post,
               d = pre ++ cmd_writes block 18
                            (data_rsp cfg (SDCARD_CTRL_DATA_TRANSFER_READ cfg))
                       ++ post)
        /\ occurrences (is_command 12) d = 1%nat
        /\ written SDCARD_BLOCK2MEM_DMA_LENGTH d = [u32 (512 * count)]).
Proof.
  intros Hc.
  assert (forall fuel h d,
             sdcard_read cfg hw block count buf fuel h = Done tt d ->
             written SDCARD_CORE_BLOCK_COUNT d
             = (if SDCARD_CMD18_SUPPORT cfg then [count]
                else repeat 1 (Z.to_nat count))
             /\ written SDCARD_BLOCK2MEM_DMA_LENGTH d
                = map (fun k => u32 (512 * k))
                      (written SDCARD_CORE_BLOCK_COUNT d)) as Hacc.
  { intros fuel h d H. unfold sdcard_read in H. apply bind_Done_inv in H.
    destruct H as ([] & d1 & df & Hloop & Hflush & ->).
    apply read_loop_written in Hloop; [|lia].
    destruct Hloop as [Hbc Hlen].
    assert (written SDCARD_CORE_BLOCK_COUNT df = []
            /\ written SDCARD_BLOCK2MEM_DMA_LENGTH df = []) as [Hf1 Hf2].
    { destruct (CONFIG_CPU_HAS_DMA_BUS cfg).
      - apply ret_Done in Hflush. destruct Hflush as [_ ->]. now split.
      - injection Hflush as <-. now split. }
    rewrite !written_app, Hf1, Hf2, !app_nil_r, Hlen, Hbc.
    destruct (Z.eqb_spec count 0); [lia|]. now split. }
  split; [|split].
  - intros fuel h d H. destruct (Hacc fuel h d H) as [Hbc Hlen].
    rewrite Hlen, Hbc. repeat split.
    + destruct (SDCARD_CMD18_SUPPORT cfg); [simpl; lia|].
      assert (forall n, fold_right Z.add 0 (repeat 1 n) = Z.of_nat n) as Hsum.
      { induction n as [|n IH]; [reflexivity|].
        cbn [repeat fold_right]. rewrite IH. lia. }
      rewrite Hsum. lia.
    + destruct (SDCARD_CMD18_SUPPORT cfg); [reflexivity|apply repeat_length].
  - intros Hhw h. apply read_returns; [assumption | lia].
  - intros H18 Hok Hgt fuel h d H.
    destruct (read_multi_commands cfg hw _ _ _ _ _ _ H18 Hok Hgt H)
      as (C18 & C12 & Hpre).
    destruct (Hacc fuel h d H) as [Hbc Hlen].
    rewrite H18 in Hbc. rewrite Hlen, Hbc. auto.
Qed.

(** read(buffer, 100, 10) on hardware that completes everything at once. *)
Lemma read_block_accounting_witness :
  (exists d, returns (sdcard_read sample_build hw_ok 100 10 4096) [] tt d)
  /\ occurrences (is_command 18)
        (events (sdcard_read sample_build hw_ok 100 10 4096 2%nat [])) = 1%nat
  /\ (exists pre post,
         events (sdcard_read sample_build hw_ok 100 10 4096 2%nat [])
         = pre ++ cmd_writes 100 18
                    (data_rsp sample_build
                       (SDCARD_CTRL_DATA_TRANSFER_READ sample_build))
               ++ post)
  /\ occurrences (is_command 12)
           (events (sdcard_read sample_build hw_ok 100 10 4096 2%nat []))
     = 1%nat
  /\ written SDCARD_BLOCK2MEM_DMA_LENGTH
             (events (sdcard_read sample_build hw_ok 100 10 4096 2%nat []))
     = [5120].
Proof.
  assert (0 < 10 < 2 ^ 32) as Hc by (split; [lia | reflexivity]).
  split.
  - exact (proj1 (proj2 (read_block_accounting sample_build hw_ok 100 10 4096
                           Hc)) hw_ok_responsive []).
  - refine (proj2 (proj2 (read_block_accounting sample_build hw_ok 100 10 4096
                            Hc)) _ _ _ 2%nat [] _ _).
    + reflexivity.
    + intros h. split; reflexivity.
    + lia.
    + vm_compute. reflexivity.
Defined.

(** ** Bring-up *)

(** Proves [forall e, command_event op e -> init_event e] and the like. *)
Ltac by_init_event :=
  let e := fresh "e" in
  let H := fresh "H" in
  intros e H;
  destruct e as [[] ? | [] ? | ? | ? | ? ? | | ];
  cbn in H |- *; try contradiction; try exact I;
  try (rewrite H; cbn; tauto).

Section InitFacts.

Variable cfg : build.
Variable hw : list event -> csr -> Z.

Lemma set_clk_freq_quiet_eq clk_freq fuel h :
  sdcard_set_clk_freq cfg clk_freq 0 fuel h
  = Done tt [CsrWrite SDCARD_PHY_CLOCKER_DIVIDER
              (programmed_divider cfg clk_freq)].
Proof. reflexivity. Qed.

Lemma set_clk_freq_quiet clk_freq fuel h :
  exists divider,
    sdcard_set_clk_freq cfg clk_freq 0 fuel h
    = Done tt [CsrWrite SDCARD_PHY_CLOCKER_DIVIDER divider].
Proof. eexists. apply set_clk_freq_quiet_eq. Qed.

Lemma all_set_clk_freq_quiet (P : event -> Prop) clk_freq :
  (forall v, P (CsrWrite SDCARD_PHY_CLOCKER_DIVIDER v)) ->
  all_events P (sdcard_set_clk_freq cfg clk_freq 0).
Proof.
  intros HP fuel h. destruct (set_clk_freq_quiet clk_freq fuel h) as [v ->].
  simpl. auto.
Qed.

Lemma all_csr_rd_buf (P : event -> Prop) :
  (forall i v, P (CsrRead (SDCARD_CORE_CMD_RESPONSE i) v)) ->
  all_events P (csr_rd_buf_uint32_response hw).
Proof. intros HP. unfold csr_rd_buf_uint32_response. all_ev; apply HP. Qed.

Lemma all_go_idle_loop (P : event -> Prop) timeout :
  P (CsrWrite SDCARD_PHY_INIT_INITIALIZE 1) -> P (BusyWait 1) ->
  (forall e, command_event 0 e -> P e) ->
  all_events P (go_idle_loop cfg hw timeout).
Proof.
  intros H1 H2 H3. induction timeout as [|t IH]; cbn [go_idle_loop].
  - apply all_ret.
  - unfold sdcard_go_idle. all_ev; auto.
Qed.

Lemma all_op_cond_loop (P : event -> Prop) timeout :
  P (BusyWait 1) ->
  (forall e, command_event 55 e -> P e) ->
  (forall e, command_event 41 e -> P e) ->
  (forall i v, P (CsrRead (SDCARD_CORE_CMD_RESPONSE i) v)) ->
  all_events P (op_cond_loop cfg hw timeout).
Proof.
  intros H1 H2 H3 H4. induction timeout as [|t IH]; cbn [op_cond_loop].
  - apply all_ret.
  - unfold sdcard_app_cmd, sdcard_app_send_op_cond.
    apply all_bind; [eapply all_events_impl; [|apply all_send_command]; auto|].
    intros _.
    apply all_bind; [eapply all_events_impl; [|apply all_send_command]; auto|].
    intros r. destruct (is_SD_OK r).
    + apply all_bind; [now apply all_csr_rd_buf|].
      intros [[[r0 r1] r2] r3]. all_ev; auto.
    + all_ev; auto.
Qed.

Lemma all_switch (P : event -> Prop) mode group value :
  P (CsrWrite SDCARD_CORE_BLOCK_LENGTH 64) ->
  P (CsrWrite SDCARD_CORE_BLOCK_COUNT 1) ->
  (forall e, command_event 6 e -> P e) ->
  (forall e, data_wait_event e -> P e) ->
  all_events P (sdcard_switch cfg hw mode group value).
Proof. intros. unfold sdcard_switch. all_ev; auto. Qed.

Lemma all_app_send_scr (P : event -> Prop) :
  P (CsrWrite SDCARD_CORE_BLOCK_LENGTH 8) ->
  P (CsrWrite SDCARD_CORE_BLOCK_COUNT 1) ->
  (forall e, command_event 51 e -> P e) ->
  (forall e, data_wait_event e -> P e) ->
  all_events P (sdcard_app_send_scr cfg hw).
Proof. intros. unfold sdcard_app_send_scr. all_ev; auto. Qed.

Lemma all_decode_rca (P : event -> Prop) :
  (forall i v, P (CsrRead (SDCARD_CORE_CMD_RESPONSE i) v)) ->
  all_events P (sdcard_decode_rca hw).
Proof.
  intros HP. unfold sdcard_decode_rca.
  apply all_bind; [now apply all_csr_rd_buf|].
  intros [[[r0 r1] r2] r3]. apply all_ret.
Qed.

Lemma all_ok_or_0 (P : event -> Prop) c rest :
  all_events P c -> all_events P rest -> all_events P (ok_or_0 c rest).
Proof.
  intros Hc Hr. unfold ok_or_0. apply all_bind; [exact Hc|].
  intros r. destruct (is_SD_OK r); [exact Hr | apply all_ret].
Qed.

(** Bring-up emits nothing but [init_event]s. *)
Lemma all_sdcard_init : all_events init_event (sdcard_init cfg hw).
Proof.
  unfold sdcard_init.
  apply all_bind; [now apply all_set_clk_freq_quiet|]. intros _.
  apply all_bind; [now apply all_busy_wait|]. intros _.
  apply all_bind;
    [apply all_go_idle_loop; [reflexivity | exact I | by_init_event]|].
  intros t1. destruct (Nat.eqb t1 0); [apply all_ret|].
  unfold sdcard_send_ext_csd, sdcard_all_send_cid,
    sdcard_set_relative_address, sdcard_send_cid, sdcard_send_csd,
    sdcard_select_card, sdcard_app_cmd, sdcard_app_set_bus_width,
    sdcard_app_set_blocklen.
  repeat match goal with
    | |- all_events _ (ok_or_0 _ _) => apply all_ok_or_0
    | |- all_events _ (ret _) => apply all_ret
    | |- all_events _ (bind _ _) => apply all_bind; [|intros ?]
    | |- all_events _ (sdcard_set_clk_freq _ _ _) =>
        now apply all_set_clk_freq_quiet
    | |- all_events _ (busy_wait _) => now apply all_busy_wait
    | |- all_events _ (csr_write _ _) => now apply all_csr_write
    | |- all_events _ (op_cond_loop _ _ _) =>
        apply all_op_cond_loop;
        [exact I | by_init_event | by_init_event | easy]
    | |- all_events _ (sdcard_decode_rca _) => apply all_decode_rca; easy
    | |- all_events _ (sdcard_switch _ _ _ _ _) =>
        apply all_switch;
        [now left | reflexivity | by_init_event | by_init_event]
    | |- all_events _ (sdcard_app_send_scr _ _) =>
        apply all_app_send_scr;
        [now right | reflexivity | by_init_event | by_init_event]
    | |- all_events _ (sdcard_send_command _ _ _ _) =>
        eapply all_events_impl; [|apply all_send_command]; by_init_event
    | |- all_events _ (if ?c then _ else _) => destruct c
    end.
Qed.

End InitFacts.

(** ** The idle handshake *)

Section IdleHandshake.

Variable cfg : build.
Variable hw : list event -> csr -> Z.

Lemma go_idle_loop_S t :
  go_idle_loop cfg hw (S t)
  = (csr_write SDCARD_PHY_INIT_INITIALIZE 1 ;;
     busy_wait 1 ;;
     r <- sdcard_go_idle cfg hw ;;
     if is_SD_OK r then ret (S t)
     else busy_wait 1 ;; go_idle_loop cfg hw t).
Proof. reflexivity. Qed.

(** *** The done flag never comes *)

Hypothesis never_done :
  forall h, Z.testbit (u32 (hw h SDCARD_CORE_CMD_EVENT)) 0 = false.

Lemma cmd_poll_never n fuel h :
  exists d,
    iter_fuel (fun _ : unit =>
                 event <- csr_read hw SDCARD_CORE_CMD_EVENT ;;
                 busy_wait_us 10 ;;
                 if Z.land event 1 =? 0 then ret (inl tt) else ret (inr event))
              n tt fuel h = OutOfFuel d
    /\ Forall not_a_write d.
Proof.
  revert h. induction n as [|n IH]; intros h.
  - exists []. split; [reflexivity | constructor].
  - cbn [iter_fuel].
    pose proof (cmd_poll_polls hw fuel h) as Hb. cbv beta in Hb.
    rewrite never_done in Hb.
    destruct (IH (h ++ [CsrRead SDCARD_CORE_CMD_EVENT
                          (u32 (hw h SDCARD_CORE_CMD_EVENT)); BusyWaitUs 10]))
      as (d & Hd & Hnw).
    eexists. split.
    + eapply bind_OutOfFuel_r; [exact Hb | exact Hd].
    + repeat constructor. exact Hnw.
Qed.

Lemma send_command_never arg cmd rsp fuel h :
  exists d,
    sdcard_send_command hw arg cmd rsp fuel h
    = OutOfFuel (cmd_writes arg cmd rsp ++ d)
    /\ Forall not_a_write d.
Proof.
  rewrite send_command_eq. unfold sdcard_wait_cmd_done, iter.
  destruct (cmd_poll_never fuel fuel (h ++ cmd_writes arg cmd rsp))
    as (d & Hd & Hnw).
  exists d. split; [|exact Hnw].
  erewrite bind_OutOfFuel_l by exact Hd. reflexivity.
Qed.

Lemma init_never fuel h :
  exists v d,
    sdcard_init cfg hw fuel h
    = OutOfFuel ([CsrWrite SDCARD_PHY_CLOCKER_DIVIDER v; BusyWait 1;
                  CsrWrite SDCARD_PHY_INIT_INITIALIZE 1; BusyWait 1]
                 ++ cmd_writes 0 0 (SDCARD_CTRL_RESPONSE_NONE cfg) ++ d)
    /\ Forall not_a_write d.
Proof.
  unfold sdcard_init.
  destruct (set_clk_freq_quiet cfg (SDCARD_CLK_FREQ_INIT cfg) fuel h)
    as [v Hv].
  set (h4 := (((h ++ [CsrWrite SDCARD_PHY_CLOCKER_DIVIDER v])
               ++ [BusyWait 1]) ++ [CsrWrite SDCARD_PHY_INIT_INITIALIZE 1])
             ++ [BusyWait 1]).
  destruct (send_command_never 0 0 (SDCARD_CTRL_RESPONSE_NONE cfg) fuel h4)
    as (d & Hd & Hnw).
  exists v, d. split; [|exact Hnw].
  change (OutOfFuel
            ([CsrWrite SDCARD_PHY_CLOCKER_DIVIDER v; BusyWait 1;
              CsrWrite SDCARD_PHY_INIT_INITIALIZE 1; BusyWait 1]
             ++ cmd_writes 0 0 (SDCARD_CTRL_RESPONSE_NONE cfg) ++ d))
    with (@OutOfFuel Z
            ([CsrWrite SDCARD_PHY_CLOCKER_DIVIDER v]
             ++ [BusyWait 1]
             ++ ([CsrWrite SDCARD_PHY_INIT_INITIALIZE 1]
                 ++ [BusyWait 1]
                 ++ cmd_writes 0 0 (SDCARD_CTRL_RESPONSE_NONE cfg) ++ d))).
  eapply bind_OutOfFuel_r; [exact Hv|].
  eapply bind_OutOfFuel_r; [reflexivity|].
  apply bind_OutOfFuel_l. rewrite go_idle_loop_S.
  eapply bind_OutOfFuel_r; [reflexivity|].
  eapply bind_OutOfFuel_r; [reflexivity|].
  apply bind_OutOfFuel_l. exact Hd.
Qed.

Lemma disk_initialize_never s fuel h :
  s <> 0 ->
  exists v d,
    sd_disk_initialize cfg hw 0 s fuel h
    = OutOfFuel ([CsrWrite SDCARD_PHY_CLOCKER_DIVIDER v; BusyWait 1;
                  CsrWrite SDCARD_PHY_INIT_INITIALIZE 1; BusyWait 1]
                 ++ cmd_writes 0 0 (SDCARD_CTRL_RESPONSE_NONE cfg) ++ d)
    /\ Forall not_a_write d.
Proof.
  intros Hs. destruct (init_never fuel h) as (v & d & Hd & Hnw).
  exists v, d. split; [|exact Hnw].
  unfold sd_disk_initialize. cbn [Z.eqb negb].
  destruct (Z.eqb_spec s 0); [contradiction|]. cbn [negb].
  now apply bind_OutOfFuel_l.
Qed.

End IdleHandshake.

(** ** A successful bring-up *)

Section InitSuccess.

Variable cfg : build.
Variable hw : list event -> csr -> Z.

Lemma send_command_Done_has op arg cmd rsp fuel h r d :
  u8 cmd = op ->
  sdcard_send_command hw arg cmd rsp fuel h = Done r d ->
  existsb (is_command op) d = true.
Proof.
  intros <- H. apply send_command_Done in H.
  destruct H as (ev & d' & -> & _ & _).
  unfold cmd_writes. cbn [existsb app is_command].
  rewrite command_opcode, Z.eqb_refl. reflexivity.
Qed.

Lemma retry_command_Done_has op arg cmd rsp fuel h d :
  u8 cmd = op ->
  retry_command hw arg cmd rsp fuel h = Done tt d ->
  existsb (is_command op) d = true.
Proof.
  intros Hop H. unfold retry_command, while_, iter in H.
  destruct fuel as [|n]; [discriminate|]. cbn [iter_fuel] in H.
  apply bind_Done_inv in H. destruct H as (x & d1 & d2 & Hb & _ & ->).
  apply bind_Done_inv in Hb. destruct Hb as (c & d3 & d4 & Hc & _ & ->).
  apply bind_Done_inv in Hc. destruct Hc as (r & d5 & d6 & Hs & _ & ->).
  rewrite !existsb_app.
  now rewrite (send_command_Done_has op _ _ _ _ _ _ _ Hop Hs).
Qed.

Lemma go_idle_loop_success timeout :
  forall fuel h t d,
    go_idle_loop cfg hw timeout fuel h = Done t d -> t <> O ->
    existsb (is_command 0) d = true.
Proof.
  induction timeout as [|n IH]; intros fuel h t d H Ht.
  - cbn [go_idle_loop] in H. apply ret_Done in H. destruct H as [H _].
    congruence.
  - rewrite go_idle_loop_S in H. bind_inv H.
    rewrite !existsb_app. destruct (is_SD_OK a1).
    + unfold sdcard_go_idle in Hstep1.
      apply (send_command_Done_has 0) in Hstep1; [|reflexivity].
      rewrite Hstep1. now rewrite !orb_true_r.
    + bind_inv H. apply IH in H; [|assumption].
      rewrite !existsb_app, H. now rewrite !orb_true_r.
Qed.

Lemma op_cond_loop_success timeout :
  forall fuel h t d,
    op_cond_loop cfg hw timeout fuel h = Done t d -> t <> O ->
    existsb (is_command 55) d = true /\ existsb (is_command 41) d = true.
Proof.
  induction timeout as [|n IH]; intros fuel h t d H Ht.
  - cbn [op_cond_loop] in H. apply ret_Done in H. destruct H as [H _].
    congruence.
  - cbn [op_cond_loop] in H. bind_inv H.
    unfold sdcard_app_cmd in Hstep. unfold sdcard_app_send_op_cond in Hstep0.
    apply (send_command_Done_has 55) in Hstep; [|reflexivity].
    apply (send_command_Done_has 41) in Hstep0; [|reflexivity].
    rewrite !existsb_app, Hstep, Hstep0. now rewrite !orb_true_r.
Qed.

Lemma switch_Done_has mode group value fuel h r d :
  sdcard_switch cfg hw mode group value fuel h = Done r d ->
  existsb (is_command 6) d = true.
Proof.
  unfold sdcard_switch. intros H. bind_inv H.
  destruct a1. apply (retry_command_Done_has 6) in Hstep1; [|reflexivity].
  rewrite !existsb_app, Hstep1. now rewrite !orb_true_r.
Qed.

Lemma app_send_scr_Done_has fuel h r d :
  sdcard_app_send_scr cfg hw fuel h = Done r d ->
  existsb (is_command 51) d = true.
Proof.
  unfold sdcard_app_send_scr. intros H. bind_inv H.
  destruct a1. apply (retry_command_Done_has 51) in Hstep1; [|reflexivity].
  rewrite !existsb_app, Hstep1. now rewrite !orb_true_r.
Qed.

(** Inverts the early returns of [sdcard_init] for a nonzero result. *)
Ltac init_inv H Hr :=
  repeat first
    [ progress bind_inv H
    | progress unfold ok_or_0 in H
    | match type of H with
      | (if ?c then _ else _) _ _ = Done _ _ =>
          let E := fresh "E" in
          destruct c eqn:E;
          try (apply ret_Done in H; destruct H as [H _]; contradiction)
      end ].

(** A bring-up that returns nonzero returns 1, has issued every command of
    the sequence, and has ended with SET_BLOCKLEN(512). *)
Lemma init_success fuel h r d :
  sdcard_init cfg hw fuel h = Done r d -> r <> 0 ->
  r = 1
  /\ Forall (fun op => existsb (is_command op) d = true)
            [0; 8; 55; 41; 2; 3; 10; 9; 7; 6; 51; 16]
  /\ exists pre polls,
      d = pre ++ cmd_writes 512 16 (SDCARD_CTRL_RESPONSE_SHORT cfg) ++ polls
      /\ Forall not_a_write polls.
Proof.
  intros H Hr. unfold sdcard_init in H. init_inv H Hr.
  apply ret_Done in H. destruct H as [-> ->].
  repeat match goal with
         | Hn : (_ =? 0)%nat = false |- _ => apply Nat.eqb_neq in Hn
         end.
  match goal with
  | Hs : go_idle_loop _ _ _ _ _ = Done _ _ |- _ =>
      apply go_idle_loop_success in Hs; [|assumption]
  end.
  match goal with
  | Hs : op_cond_loop _ _ _ _ _ = Done _ _ |- _ =>
      apply op_cond_loop_success in Hs; [|assumption];
      destruct Hs as [H55 H41]
  end.
  match goal with
  | Hs : sdcard_switch _ _ _ _ _ _ _ = Done _ _ |- _ =>
      apply switch_Done_has in Hs
  end.
  match goal with
  | Hs : sdcard_app_send_scr _ _ _ _ = Done _ _ |- _ =>
      apply app_send_scr_Done_has in Hs
  end.
  unfold sdcard_send_ext_csd, sdcard_all_send_cid,
    sdcard_set_relative_address, sdcard_send_cid, sdcard_send_csd,
    sdcard_select_card, sdcard_app_cmd, sdcard_app_set_bus_width,
    sdcard_app_set_blocklen in *.
  match goal with
  | Hs : sdcard_send_command _ 512 16 _ _ _ = Done _ ?dl |- _ =>
      destruct (@send_command_Done_shape hw _ _ _ _ _ _ _ Hs)
        as (ev & polls & Hshape & Hpolls & _)
  end.
  repeat match goal with
         | Hs : sdcard_send_command _ _ ?c _ _ _ = Done _ _ |- _ =>
             apply (send_command_Done_has c) in Hs; [|reflexivity]
         end.
  split; [reflexivity|]. split.
  - repeat constructor; rewrite !existsb_app;
      repeat match goal with
             | Hx : existsb (is_command _) _ = true |- _ =>
                 rewrite ?Hx; clear Hx
             end;
      now rewrite ?orb_true_r.
  - rewrite Hshape. eexists _, polls. split; [|exact Hpolls].
    rewrite !app_nil_r, !app_assoc. reflexivity.
Qed.

End InitSuccess.

(** ** Block geometry *)

Ltac by_geometry :=
  let e := fresh "e" in
  let H := fresh "H" in
  intros e H;
  destruct e as [[] ? | [] ? | ? | ? | ? ? | | ];
  cbn in H |- *; try contradiction; try exact I; try exact H.

(** Solves [all_events P m] for the steps of [sdcard_init]; [tac] proves
    that the events of a command and of a data wait satisfy [P]. *)
Ltac all_init_steps tac :=
  unfold sdcard_send_ext_csd, sdcard_all_send_cid,
    sdcard_set_relative_address, sdcard_send_cid, sdcard_send_csd,
    sdcard_select_card, sdcard_app_cmd, sdcard_app_set_bus_width,
    sdcard_app_set_blocklen;
  repeat match goal with
    | |- all_events _ (ok_or_0 _ _) => apply all_ok_or_0
    | |- all_events _ (ret _) => apply all_ret
    | |- all_events _ (bind _ _) => apply all_bind; [|intros ?]
    | |- all_events _ (sdcard_set_clk_freq _ _ _) =>
        apply all_set_clk_freq_quiet; easy
    | |- all_events _ (busy_wait _) => apply all_busy_wait; easy
    | |- all_events _ (csr_write _ _) => apply all_csr_write; easy
    | |- all_events _ (go_idle_loop _ _ _) =>
        apply all_go_idle_loop; [easy | easy | tac]
    | |- all_events _ (op_cond_loop _ _ _) =>
        apply all_op_cond_loop; [easy | tac | tac | easy]
    | |- all_events _ (sdcard_decode_rca _) => apply all_decode_rca; easy
    | |- all_events _ (sdcard_switch _ _ _ _ _) =>
        apply all_switch; [easy | easy | tac | tac]
    | |- all_events _ (sdcard_app_send_scr _ _) =>
        apply all_app_send_scr; [easy | easy | tac | tac]
    | |- all_events _ (sdcard_send_command _ _ _ _) =>
        eapply all_events_impl; [|apply all_send_command]; tac
    | |- all_events _ (if ?c then _ else _) => destruct c
    end.

Section Geometry.

Variable cfg : build.
Variable hw : list event -> csr -> Z.

Lemma switch_geometry mode group value :
  all_events (geometry_and_command 64 1 6)
             (sdcard_switch cfg hw mode group value).
Proof. apply all_switch; [reflexivity | reflexivity | by_geometry ..]. Qed.

Lemma app_send_scr_geometry :
  all_events (geometry_and_command 8 1 51) (sdcard_app_send_scr cfg hw).
Proof.
  apply all_app_send_scr; [reflexivity | reflexivity | by_geometry ..].
Qed.

Lemma block_commands_geometry block blockcnt :
  all_events (geometry_and_command 512 1 17)
             (sdcard_read_single_block cfg hw block)
  /\ all_events (geometry_and_command 512 blockcnt 18)
                (sdcard_read_multiple_block cfg hw block blockcnt)
  /\ all_events (geometry_and_command 512 1 24)
                (sdcard_write_single_block cfg hw block)
  /\ all_events (geometry_and_command 512 blockcnt 25)
                (sdcard_write_multiple_block cfg hw block blockcnt).
Proof.
  unfold sdcard_read_single_block, sdcard_read_multiple_block,
    sdcard_write_single_block, sdcard_write_multiple_block.
  repeat split; all_ev; try reflexivity; by_geometry.
Qed.

(** The events a data-bearing command function begins with. *)
Lemma geometry_prefix len cnt arg cmd rsp (k : unit -> M sd_result) fuel h :
  exists rest,
    events ((csr_write SDCARD_CORE_BLOCK_LENGTH len ;;
             csr_write SDCARD_CORE_BLOCK_COUNT cnt ;;
             u <- retry_command hw arg cmd rsp ;; k u) (S fuel) h)
    = [CsrWrite SDCARD_CORE_BLOCK_LENGTH len;
       CsrWrite SDCARD_CORE_BLOCK_COUNT cnt]
      ++ cmd_writes arg cmd rsp ++ rest.
Proof.
  rewrite !events_write_bind, events_bind.
  match goal with
  | |- context [retry_command hw arg cmd rsp (S fuel) ?h'] =>
      destruct (retry_command_events hw arg cmd rsp fuel h') as [d' ->]
  end.
  rewrite <- app_assoc. cbn [app]. eauto.
Qed.

(** Bring-up: SET_BLOCKLEN is issued only after APP_SEND_SCR has returned. *)
Lemma init_blocklen_last fuel h :
  precedes (is_command 51) (is_command 16)
           (events (sdcard_init cfg hw fuel h)).
Proof.
  eapply phases_precedes with (P2 := fun _ => True).
  revert fuel h. unfold sdcard_init.
  repeat lazymatch goal with
    | |- forall fuel h, phases _ _ _
           (events (ok_or_0 (sdcard_app_send_scr _ _) _ fuel h)) =>
        unfold ok_or_0 at 1; apply phases_bind_split;
        [ apply all_app_send_scr; [easy | easy | by_event | by_event]
        | intros ? ? ? ? Hd; now apply app_send_scr_Done_has in Hd
        | intros ? ? ?; apply Forall_forall; auto ]
    | |- forall fuel h, phases _ _ _ (events (ok_or_0 _ _ fuel h)) =>
        unfold ok_or_0 at 1
    | |- forall fuel h, phases _ _ _ (events (bind _ _ fuel h)) =>
        apply phases_bind_l;
        [ apply existsb_grows | all_init_steps by_event | intros ? ]
    | |- forall fuel h, phases _ _ _
           (events ((if ?c then _ else _) fuel h)) =>
        destruct c
    | |- forall fuel h, phases _ _ _ (events (ret _ fuel h)) =>
        intros; apply phases_nil
    end.
Qed.

End Geometry.

Section BlockCommands.

Variable cfg : build.
Variable hw : list event -> csr -> Z.

(** With fuel left, each block command programs block length 512 and its
    block count and then issues its command. *)
Lemma block_commands_begin block blockcnt fuel h :
  (exists rest,
      events (sdcard_read_single_block cfg hw block (S fuel) h)
      = [CsrWrite SDCARD_CORE_BLOCK_LENGTH 512;
         CsrWrite SDCARD_CORE_BLOCK_COUNT 1]
        ++ cmd_writes block 17
             (data_rsp cfg (SDCARD_CTRL_DATA_TRANSFER_READ cfg))
        ++ rest)
  /\ (exists rest,
         events (sdcard_read_multiple_block cfg hw block blockcnt (S fuel) h)
         = [CsrWrite SDCARD_CORE_BLOCK_LENGTH 512;
            CsrWrite SDCARD_CORE_BLOCK_COUNT blockcnt]
           ++ cmd_writes block 18
                (data_rsp cfg (SDCARD_CTRL_DATA_TRANSFER_READ cfg))
           ++ rest)
  /\ (exists rest,
         events (sdcard_write_single_block cfg hw block (S fuel) h)
         = [CsrWrite SDCARD_CORE_BLOCK_LENGTH 512;
            CsrWrite SDCARD_CORE_BLOCK_COUNT 1]
           ++ cmd_writes block 24
                (data_rsp cfg (SDCARD_CTRL_DATA_TRANSFER_WRITE cfg))
           ++ rest)
  /\ (exists rest,
         events (sdcard_write_multiple_block cfg hw block blockcnt (S fuel) h)
         = [CsrWrite SDCARD_CORE_BLOCK_LENGTH 512;
            CsrWrite SDCARD_CORE_BLOCK_COUNT blockcnt]
           ++ cmd_writes block 25
                (data_rsp cfg (SDCARD_CTRL_DATA_TRANSFER_WRITE cfg))
           ++ rest).
Proof.
  unfold sdcard_read_single_block, sdcard_read_multiple_block,
    sdcard_write_single_block, sdcard_write_multiple_block.
  repeat split; apply geometry_prefix.
Qed.

End BlockCommands.

(** C10. The two data-bearing bring-up commands do not use 512-byte blocks:
    [sdcard_switch] programs block length 64 and block count 1 and then
    issues SWITCH_FUNC (CMD6), [sdcard_app_send_scr] programs block length 8
    and block count 1 and then issues APP_SEND_SCR (CMD51), and neither
    programs anything else.  During bring-up the block-length register is
    only ever written with 64 or 8; 512 comes later: SET_BLOCKLEN (CMD16) is
    issued only after APP_SEND_SCR has returned, a successful bring-up ends
    with SET_BLOCKLEN(512), and each of the four block read and write
    commands programs block length 512 and its block count and then issues
    its command (with fuel left it begins with these writes), and programs
    no other block geometry. *)
Theorem bring_up_block_geometry (cfg : build) (hw : list event -> csr -> Z)
  (fuel : nat) (h : list event) :
  (forall mode group value,
      Forall (geometry_and_command 64 1 6)
             (events (sdcard_switch cfg hw mode group value fuel h))
      /\ exists arg rest,
          events (sdcard_switch cfg hw mode group value (S fuel) h)
          = [CsrWrite SDCARD_CORE_BLOCK_LENGTH 64;
             CsrWrite SDCARD_CORE_BLOCK_COUNT 1]
            ++ cmd_writes arg 6
                 (data_rsp cfg (SDCARD_CTRL_DATA_TRANSFER_READ cfg))
            ++ rest)
  /\ (Forall (geometry_and_command 8 1 51)
             (events (sdcard_app_send_scr cfg hw fuel h))
      /\ exists rest,
          events (sdcard_app_send_scr cfg hw (S fuel) h)
          = [CsrWrite SDCARD_CORE_BLOCK_LENGTH 8;
             CsrWrite SDCARD_CORE_BLOCK_COUNT 1]
            ++ cmd_writes 0 51
                 (data_rsp cfg (SDCARD_CTRL_DATA_TRANSFER_READ cfg))
            ++ rest)
  /\ Forall (fun e => forall v,
                 e = CsrWrite SDCARD_CORE_BLOCK_LENGTH v -> v = 64 \/ v = 8)
            (events (sdcard_init cfg hw fuel h))
  /\ precedes (is_command 51) (is_command 16)
              (events (sdcard_init cfg hw fuel h))
  /\ (forall r d,
         sdcard_init cfg hw fuel h = Done r d -> r <> 0 ->
         exists pre polls,
           d = pre ++ cmd_writes 512 16 (SDCARD_CTRL_RESPONSE_SHORT cfg)
                   ++ polls
           /\ Forall not_a_write polls)
  /\ (forall block blockcnt,
         Forall (geometry_and_command 512 1 17)
                (events (sdcard_read_single_block cfg hw block fuel h))
         /\ Forall (geometry_and_command 512 blockcnt 18)
                   (events (sdcard_read_multiple_block cfg hw block blockcnt
                              fuel h))
         /\ Forall (geometry_and_command 512 1 24)
                   (events (sdcard_write_single_block cfg hw block fuel h))
         /\ Forall (geometry_and_command 512 blockcnt 25)
                   (events (sdcard_write_multiple_block cfg hw block blockcnt
                              fuel h)))
  /\ (forall block blockcnt,
         (exists rest,
             events (sdcard_read_single_block cfg hw block (S fuel) h)
             = [CsrWrite SDCARD_CORE_BLOCK_LENGTH 512;
                CsrWrite SDCARD_CORE_BLOCK_COUNT 1]
               ++ cmd_writes block 17
                    (data_rsp cfg (SDCARD_CTRL_DATA_TRANSFER_READ cfg))
               ++ rest)
         /\ (exists rest,
                events (sdcard_read_multiple_block cfg hw block blockcnt
                          (S fuel) h)
                = [CsrWrite SDCARD_CORE_BLOCK_LENGTH 512;
                   CsrWrite SDCARD_CORE_BLOCK_COUNT blockcnt]
                  ++ cmd_writes block 18
                       (data_rsp cfg (SDCARD_CTRL_DATA_TRANSFER_READ cfg))
                  ++ rest)
         /\ (exists rest,
                events (sdcard_write_single_block cfg hw block (S fuel) h)
                = [CsrWrite SDCARD_CORE_BLOCK_LENGTH 512;
                   CsrWrite SDCARD_CORE_BLOCK_COUNT 1]
                  ++ cmd_writes block 24
                       (data_rsp cfg (SDCARD_CTRL_DATA_TRANSFER_WRITE cfg))
                  ++ rest)
         /\ (exists rest,
                events (sdcard_write_multiple_block cfg hw block blockcnt
                          (S fuel) h)
                = [CsrWrite SDCARD_CORE_BLOCK_LENGTH 512;
                   CsrWrite SDCARD_CORE_BLOCK_COUNT blockcnt]
                  ++ cmd_writes block 25
                       (data_rsp cfg (SDCARD_CTRL_DATA_TRANSFER_WRITE cfg))
                  ++ rest)).
Proof.
  repeat apply conj.
  - intros mode group value. split; [apply switch_geometry|].
    unfold sdcard_switch. eexists. apply geometry_prefix.
  - apply app_send_scr_geometry.
  - unfold sdcard_app_send_scr. apply geometry_prefix.
  - eapply Forall_impl; [|apply all_sdcard_init].
    intros e He v ->. exact He.
  - apply init_blocklen_last.
  - intros r d H Hr. now destruct (init_success cfg hw fuel h r d H Hr).
  - intros block blockcnt.
    destruct (block_commands_geometry cfg hw block blockcnt)
      as (H1 & H2 & H3 & H4).
    repeat split; [apply H1 | apply H2 | apply H3 | apply H4].
  - intros block blockcnt. apply block_commands_begin.
Qed.

(** On hardware that completes everything at once the bring-up succeeds and
    ends with SET_BLOCKLEN(512). *)
Lemma bring_up_block_geometry_witness :
  exists pre polls,
    events (sdcard_init sample_build hw_ok 1%nat [])
    = pre ++ cmd_writes 512 16 (SDCARD_CTRL_RESPONSE_SHORT sample_build)
          ++ polls
    /\ Forall not_a_write polls.
Proof.
  refine (proj1 (proj2 (proj2 (proj2 (proj2
    (bring_up_block_geometry sample_build hw_ok 1%nat []))))) 1 _ _ _).
  - vm_compute. reflexivity.
  - discriminate.
Defined.

(** ** The disk adapter *)

(** C9. For a nonzero drive number, status() and initialize() return
    NotInitialized at once: no event is emitted (no bring-up step, no SD
    command) and the stored status is left as it is. *)
Theorem nonzero_drive_not_initialized (cfg : build)
  (hw : list event -> csr -> Z) (drv sdcardstatus : Z) (fuel : nat)
  (h : list event) :
  drv <> 0 -> 0 < STA_NOINIT cfg < 256 ->
  sd_disk_status cfg drv sdcardstatus fuel h
  = Done (STA_NOINIT cfg, sdcardstatus) []
  /\ sd_disk_initialize cfg hw drv sdcardstatus fuel h
     = Done (STA_NOINIT cfg, sdcardstatus) [].
Proof.
  intros Hdrv Hsta. unfold sd_disk_status, sd_disk_initialize.
  destruct (Z.eqb_spec drv 0); [contradiction|]. cbn [negb].
  unfold u8. change (2 ^ 8) with 256. rewrite Z.mod_small by lia.
  split; reflexivity.
Qed.

(** Drive 1 of a Ready adapter. *)
Lemma nonzero_drive_not_initialized_witness :
  sd_disk_status sample_build 1 0 0%nat []
  = Done (STA_NOINIT sample_build, 0) []
  /\ sd_disk_initialize sample_build hw_ok 1 0 0%nat []
     = Done (STA_NOINIT sample_build, 0) [].
Proof.
  apply (nonzero_drive_not_initialized sample_build hw_ok 1 0 0%nat []).
  - discriminate.
  - simpl. lia.
Defined.

(** ** Runs on the stub hardware *)

(** Without the multi-block command a three-block read makes three passes
    of one block. *)
Example read_three_single_blocks :
  sdcard_read single_block_build hw_ok 7 3 4096 4%nat []
  = Done tt
      (List.concat
         (map (fun i =>
                 [CsrWrite SDCARD_BLOCK2MEM_DMA_ENABLE 0;
                  CsrWrite SDCARD_BLOCK2MEM_DMA_BASE (4096 + 512 * i);
                  CsrWrite SDCARD_BLOCK2MEM_DMA_LENGTH 512;
                  CsrWrite SDCARD_BLOCK2MEM_DMA_ENABLE 1;
                  CsrWrite SDCARD_CORE_BLOCK_LENGTH 512;
                  CsrWrite SDCARD_CORE_BLOCK_COUNT 1;
                  CsrWrite SDCARD_CORE_CMD_ARGUMENT (7 + i);
                  CsrWrite SDCARD_CORE_CMD_COMMAND (17 * 256 + 33);
                  CsrWrite SDCARD_CORE_CMD_SEND 1;
                  CsrRead SDCARD_CORE_CMD_EVENT 1;
                  BusyWaitUs 10;
                  CsrRead SDCARD_CORE_DATA_EVENT 1;
                  CsrRead SDCARD_BLOCK2MEM_DMA_DONE 1])
              [0; 1; 2])
       ++ [FlushCpuDcache; FlushL2Cache]).
Proof. vm_compute. reflexivity. Qed.

(** The bring-up on hardware that completes everything at once: the adapter
    becomes Ready, and a second initialize() does nothing. *)
Example initialize_then_ready :
  (exists d, sd_disk_initialize sample_build hw_ok 0
               (sdcardstatus_initial sample_build) 1%nat [] = Done (0, 0) d)
  /\ sd_disk_initialize sample_build hw_ok 0 0 1%nat [] = Done (0, 0) [].
Proof. split; [eexists|]; vm_compute; reflexivity. Qed.

(** The relative card address is bits 16 to 31 of response word 3. *)
Example decode_rca_of_stub :
  sdcard_decode_rca hw_ok 0%nat []
  = Done 0x8001
      [CsrRead (SDCARD_CORE_CMD_RESPONSE 0) 0;
       CsrRead (SDCARD_CORE_CMD_RESPONSE 1) 0;
       CsrRead (SDCARD_CORE_CMD_RESPONSE 2) 0;
       CsrRead (SDCARD_CORE_CMD_RESPONSE 3) 0x80010000].
Proof. vm_compute. reflexivity. Qed.

(** * Further properties *)

(** ** Encodings *)

Lemma land_low_bits (x n : Z) : 0 <= n -> Z.land x (Z.ones n) = x mod 2 ^ n.
Proof. intros Hn. now apply Z.land_ones. Qed.

(** X1. [sdcard_decode_rca] reads the four response words in order, writes
    nothing, and returns the upper half (bits 16 to 31) of response word 3:
    a 16-bit value [rca] with rca * 2^16 <= word 3 < (rca + 1) * 2^16. *)
Theorem decode_rca_upper_half (hw : list event -> csr -> Z) (fuel : nat)
  (h : list event) :
  exists r0 r1 r2 r3 rca,
    sdcard_decode_rca hw fuel h
    = Done rca [CsrRead (SDCARD_CORE_CMD_RESPONSE 0) r0;
                CsrRead (SDCARD_CORE_CMD_RESPONSE 1) r1;
                CsrRead (SDCARD_CORE_CMD_RESPONSE 2) r2;
                CsrRead (SDCARD_CORE_CMD_RESPONSE 3) r3]
    /\ r3 = u32 (hw (h ++ [CsrRead (SDCARD_CORE_CMD_RESPONSE 0) r0;
                           CsrRead (SDCARD_CORE_CMD_RESPONSE 1) r1;
                           CsrRead (SDCARD_CORE_CMD_RESPONSE 2) r2])
                    (SDCARD_CORE_CMD_RESPONSE 3))
    /\ 0 <= rca < 2 ^ 16
    /\ rca * 2 ^ 16 <= r3 < (rca + 1) * 2 ^ 16.
Proof.
  unfold sdcard_decode_rca, csr_rd_buf_uint32_response, bind, csr_read, ret.
  cbn [app].
  set (r0 := u32 (hw h (SDCARD_CORE_CMD_RESPONSE 0))).
  set (r1 := u32 (hw (h ++ [CsrRead (SDCARD_CORE_CMD_RESPONSE 0) r0]) _)).
  set (r2 := u32 (hw ((h ++ [CsrRead (SDCARD_CORE_CMD_RESPONSE 0) r0])
                        ++ [CsrRead (SDCARD_CORE_CMD_RESPONSE 1) r1]) _)).
  set (r3 := u32 (hw _ (SDCARD_CORE_CMD_RESPONSE 3))).
  exists r0, r1, r2, r3, (u16 (Z.land (Z.shiftr r3 16) 65535)).
  assert (0 <= r3 < 2 ^ 32) as Hr3 by (apply Z.mod_pos_bound; reflexivity).
  assert (u16 (Z.land (Z.shiftr r3 16) 65535) = r3 / 2 ^ 16) as ->.
  { rewrite Z.shiftr_div_pow2 by lia.
    change 65535 with (Z.ones 16). rewrite land_low_bits by lia.
    unfold u16. rewrite Z.mod_mod by (change (2 ^ 16) with 65536; lia).
    apply Z.mod_small. change (2 ^ 32) with (2 ^ 16 * 2 ^ 16) in Hr3.
    split; [apply Z.div_pos; lia|].
    apply Z.div_lt_upper_bound; lia. }
  split; [reflexivity|]. split.
  { subst r3 r2 r1. rewrite <- !app_assoc. reflexivity. }
  change (2 ^ 32) with 4294967296 in Hr3. change (2 ^ 16) with 65536.
  pose proof (Z.div_mod r3 65536 ltac:(lia)) as Hdm.
  pose proof (Z.mod_pos_bound r3 65536 ltac:(lia)) as Hm.
  lia.
Qed.

Lemma wait_cmd_done_writes_nothing (hw : list event -> csr -> Z) :
  all_events not_a_write (sdcard_wait_cmd_done hw).
Proof.
  unfold sdcard_wait_cmd_done. apply all_bind.
  - apply all_iter. intros _. all_ev; exact I.
  - intros ev. all_ev.
Qed.

Lemma wait_data_done_writes_nothing (hw : list event -> csr -> Z) :
  all_events not_a_write (sdcard_wait_data_done hw).
Proof.
  unfold sdcard_wait_data_done. apply all_bind.
  - apply all_iter. intros _. all_ev; exact I.
  - intros ev. all_ev.
Qed.

(** X2. Whatever the hardware does and whether or not the wait ends,
    [sdcard_send_command] writes the argument register, then the command
    register, then 1 to the send register, and writes nothing after them;
    the command register value holds the opcode (as a byte) in bits 8 and up
    and the response code (as a byte) in bits 0 to 7, so that both can be
    read back from it. *)
Theorem send_command_register_layout (hw : list event -> csr -> Z)
  (arg cmd rsp : Z) (fuel : nat) (h : list event) :
  exists v rest,
    events (sdcard_send_command hw arg cmd rsp fuel h)
    = CsrWrite SDCARD_CORE_CMD_ARGUMENT (arg mod 2 ^ 32)
      :: CsrWrite SDCARD_CORE_CMD_COMMAND v
      :: CsrWrite SDCARD_CORE_CMD_SEND 1 :: rest
    /\ Z.shiftr v 8 = cmd mod 256
    /\ Z.land v 255 = rsp mod 256
    /\ Forall not_a_write rest.
Proof.
  exists (Z.lor (Z.shiftl (u8 cmd) 8) (u8 rsp)).
  exists (events (sdcard_wait_cmd_done hw fuel (h ++ cmd_writes arg cmd rsp))).
  split; [|split; [|split]].
  - rewrite send_command_eq.
    destruct (sdcard_wait_cmd_done hw fuel _); reflexivity.
  - apply command_opcode.
  - change 255 with (Z.ones 8). rewrite land_low_bits by lia.
    rewrite <- Z.land_ones by lia. rewrite Z.land_lor_distr_l.
    rewrite !Z.land_ones by lia. rewrite Z.shiftl_mul_pow2 by lia.
    rewrite Z.mod_mul by (change (2 ^ 8) with 256; lia).
    rewrite Z.lor_0_l. unfold u8. apply Z.mod_mod.
    change (2 ^ 8) with 256; lia.
  - apply wait_cmd_done_writes_nothing.
Qed.

(** The events [sdcard_switch] begins with, with the argument as the code
    computes it. *)
Lemma switch_prefix (cfg : build) (hw : list event -> csr -> Z)
  (mode group value : Z) (fuel : nat) (h : list event) :
  exists rest,
    events (sdcard_switch cfg hw mode group value (S fuel) h)
    = [CsrWrite SDCARD_CORE_BLOCK_LENGTH 64;
       CsrWrite SDCARD_CORE_BLOCK_COUNT 1]
      ++ cmd_writes
           (Z.lor (Z.land (u32 (Z.lor (Z.shiftl mode 31) 0xffffff))
                          (u32 (Z.lnot (Z.shiftl 0xf (u32 (group * 4))))))
                  (u32 (Z.shiftl value (u32 (group * 4)))))
           6 (data_rsp cfg (SDCARD_CTRL_DATA_TRANSFER_READ cfg))
      ++ rest.
Proof. unfold sdcard_switch. apply geometry_prefix. Qed.

(** X3. The argument of SWITCH_FUNC, for a mode bit, a function group 0 to 5
    and a 4-bit function value: bit 31 is the mode, bits 24 to 30 are clear,
    the 4-bit field of the group holds the value and the fields of the five
    other groups hold 0xF. *)
Theorem switch_argument_layout (cfg : build) (hw : list event -> csr -> Z)
  (mode group value : Z) (fuel : nat) (h : list event) :
  0 <= mode <= 1 -> 0 <= group <= 5 -> 0 <= value <= 15 ->
  exists arg rest,
    events (sdcard_switch cfg hw mode group value (S fuel) h)
    = CsrWrite SDCARD_CORE_BLOCK_LENGTH 64
      :: CsrWrite SDCARD_CORE_BLOCK_COUNT 1
      :: CsrWrite SDCARD_CORE_CMD_ARGUMENT arg :: rest
    /\ Z.testbit arg 31 = (mode =? 1)
    /\ Z.land (Z.shiftr arg 24) 0x7f = 0
    /\ forall g, 0 <= g <= 5 ->
         Z.land (Z.shiftr arg (4 * g)) 0xf = if g =? group then value else 0xf.
Proof.
  intros Hm Hg Hv.
  destruct (switch_prefix cfg hw mode group value fuel h) as [rest E].
  pose (A := fun m g v =>
          u32 (Z.lor (Z.land (u32 (Z.lor (Z.shiftl m 31) 0xffffff))
                             (u32 (Z.lnot (Z.shiftl 0xf (u32 (g * 4))))))
                     (u32 (Z.shiftl v (u32 (g * 4)))))).
  pose (chk := fun m g v =>
          Bool.eqb (Z.testbit (A m g v) 31) (m =? 1)
          && (Z.land (Z.shiftr (A m g v) 24) 0x7f =? 0)
          && forallb (fun g' => Z.land (Z.shiftr (A m g v) (4 * g')) 0xf
                                =? (if g' =? g then v else 0xf))
                     [0; 1; 2; 3; 4; 5]).
  assert (forallb (fun m =>
            forallb (fun g =>
              forallb (fun v => chk m g v)
                      [0; 1; 2; 3; 4; 5; 6; 7; 8; 9; 10; 11; 12; 13; 14; 15])
              [0; 1; 2; 3; 4; 5]) [0; 1] = true) as Hall
      by (vm_compute; reflexivity).
  assert (In mode [0; 1]) as Im by (cbn; lia).
  assert (In group [0; 1; 2; 3; 4; 5]) as Ig by (cbn; lia).
  assert (In value [0; 1; 2; 3; 4; 5; 6; 7; 8; 9; 10; 11; 12; 13; 14; 15])
    as Iv by (cbn; lia).
  rewrite forallb_forall in Hall. specialize (Hall mode Im).
  rewrite forallb_forall in Hall. specialize (Hall group Ig).
  rewrite forallb_forall in Hall. specialize (Hall value Iv).
  unfold chk in Hall. apply andb_true_iff in Hall. destruct Hall as [H12 H3].
  apply andb_true_iff in H12. destruct H12 as [H1 H2].
  apply Bool.eqb_prop in H1. apply Z.eqb_eq in H2.
  rewrite forallb_forall in H3.
  exists (A mode group value). eexists.
  split; [exact E|]. split; [exact H1|]. split; [exact H2|].
  intros g Hg'. apply Z.eqb_eq. apply H3. cbn. lia.
Qed.

(** SWITCH_FUNC as the bring-up issues it: switch (mode 1), access-mode
    group 0, function 1. *)
Lemma switch_argument_layout_witness :
  exists arg rest,
    events (sdcard_switch sample_build hw_ok 1 0 1 1%nat [])
    = CsrWrite SDCARD_CORE_BLOCK_LENGTH 64
      :: CsrWrite SDCARD_CORE_BLOCK_COUNT 1
      :: CsrWrite SDCARD_CORE_CMD_ARGUMENT arg :: rest
    /\ Z.testbit arg 31 = (1 =? 1)
    /\ Z.land (Z.shiftr arg 24) 0x7f = 0
    /\ forall g, 0 <= g <= 5 ->
         Z.land (Z.shiftr arg (4 * g)) 0xf = if g =? 0 then 1 else 0xf.
Proof.
  apply (switch_argument_layout sample_build hw_ok 1 0 1 0%nat []); lia.
Defined.

(** ** What a transfer touches *)

Lemma all_flush_cpu_dcache (P : event -> Prop) :
  P FlushCpuDcache -> all_events P flush_cpu_dcache.
Proof. intros He fuel h. simpl. auto. Qed.

Lemma all_flush_l2_cache (P : event -> Prop) :
  P FlushL2Cache -> all_events P flush_l2_cache.
Proof. intros He fuel h. simpl. auto. Qed.

(** Proves [forall e, class e -> class' e] for the event classes of the
    transfers. *)
Ltac by_transfer_event :=
  let e := fresh "e" in
  let H := fresh "H" in
  intros e H;
  destruct e as [[] ? | [] ? | ? | ? | ? ? | | ];
  cbn in H |- *; try contradiction; try exact I;
  try (rewrite H; cbn; tauto).

Ltac transfer_leaf :=
  first [ exact I | reflexivity | cbn; tauto | by_transfer_event ].

Section TransferFootprint.

Variable cfg : build.
Variable hw : list event -> csr -> Z.

(** The passes of the read loop do not flush the caches: [flush] is free. *)
Lemma all_read_body flush st :
  all_events (read_event (SDCARD_CMD18_SUPPORT cfg) (SDCARD_CMD23_SUPPORT cfg)
                         flush)
             (sdcard_read_body cfg hw st).
Proof.
  destruct st as [[block count] buf]. unfold sdcard_read_body.
  unfold sdcard_set_block_count, sdcard_read_multiple_block,
    sdcard_read_single_block, sdcard_stop_transmission.
  destruct (SDCARD_CMD18_SUPPORT cfg); destruct (SDCARD_CMD23_SUPPORT cfg);
    cbv iota; change (1 >? 1) with false; cbv iota;
    all_ev; transfer_leaf.
Qed.

Lemma all_write_body st :
  all_events (write_event (SDCARD_CMD25_SUPPORT cfg) (SDCARD_CMD23_SUPPORT cfg))
             (sdcard_write_body cfg hw st).
Proof.
  destruct st as [[block count] buf]. unfold sdcard_write_body.
  unfold sdcard_set_block_count, sdcard_write_multiple_block,
    sdcard_write_single_block, sdcard_stop_transmission.
  destruct (SDCARD_CMD25_SUPPORT cfg); destruct (SDCARD_CMD23_SUPPORT cfg);
    cbv iota; change (1 >? 1) with false; cbv iota;
    all_ev; transfer_leaf.
Qed.

End TransferFootprint.

(** X4. What the transfers touch, in finished and unfinished runs.
    [sdcard_read] writes only the registers of the block-to-memory DMA
    engine, the block geometry (length always 512) and the command
    registers, reads only the command-event, data-event and its DMA done
    register, and issues no command but READ_SINGLE_BLOCK (17), with the
    multi-block command enabled also READ_MULTIPLE_BLOCK (18) and
    STOP_TRANSMISSION (12), with CMD23 enabled also SET_BLOCK_COUNT (23); it
    flushes the caches only without a DMA bus; with the multi-block command
    disabled the block count is always 1.  [sdcard_write] likewise with the
    memory-to-block engine and the commands 24, 25, 12 and 23, and it never
    reads the data-event register and never flushes.  Neither touches the
    other engine, the clock divider or the PHY settings. *)
Theorem transfer_footprint (cfg : build) (hw : list event -> csr -> Z)
  (block count buf : Z) (fuel : nat) (h : list event) :
  Forall (read_event (SDCARD_CMD18_SUPPORT cfg) (SDCARD_CMD23_SUPPORT cfg)
                     (negb (CONFIG_CPU_HAS_DMA_BUS cfg)))
         (events (sdcard_read cfg hw block count buf fuel h))
  /\ Forall (write_event (SDCARD_CMD25_SUPPORT cfg) (SDCARD_CMD23_SUPPORT cfg))
            (events (sdcard_write cfg hw block count buf fuel h)).
Proof.
  split.
  - revert fuel h. unfold sdcard_read.
    apply all_bind; [apply all_iter; apply all_read_body|]. intros _.
    destruct (CONFIG_CPU_HAS_DMA_BUS cfg); [apply all_ret|].
    apply all_bind; [now apply all_flush_cpu_dcache|]. intros _.
    now apply all_flush_l2_cache.
  - revert fuel h. unfold sdcard_write. apply all_iter. apply all_write_body.
Qed.

(** X5. A transfer of zero blocks programs no DMA engine and issues no
    command: the read only flushes the caches (when there is no DMA bus),
    the write does nothing at all. *)
Theorem zero_count_transfers (cfg : build) (hw : list event -> csr -> Z)
  (block buf : Z) (fuel : nat) (h : list event) :
  sdcard_read cfg hw block 0 buf (S fuel) h
  = Done tt (if CONFIG_CPU_HAS_DMA_BUS cfg then []
             else [FlushCpuDcache; FlushL2Cache])
  /\ sdcard_write cfg hw block 0 buf (S fuel) h = Done tt [].
Proof.
  split; [|reflexivity].
  unfold sdcard_read, bind, iter. cbn.
  destruct (CONFIG_CPU_HAS_DMA_BUS cfg); reflexivity.
Qed.

(** X6. The cache flush of a read comes last and once.  A read that returns
    ends, when there is no DMA bus, with the flush of the CPU data cache
    followed by the flush of the L2 cache, and has flushed nothing before:
    all register traffic of the transfer, the last poll of the DMA done flag
    included, lies before the two flushes.  With a DMA bus it flushes
    nothing. *)
Theorem read_flushes_last (cfg : build) (hw : list event -> csr -> Z)
  (block count buf : Z) (fuel : nat) (h d : list event) :
  sdcard_read cfg hw block count buf fuel h = Done tt d ->
  exists transfer,
    d = transfer ++ (if CONFIG_CPU_HAS_DMA_BUS cfg then []
                     else [FlushCpuDcache; FlushL2Cache])
    /\ Forall (read_event (SDCARD_CMD18_SUPPORT cfg) (SDCARD_CMD23_SUPPORT cfg)
                          false) transfer.
Proof.
  intros H. unfold sdcard_read in H. apply bind_Done_inv in H.
  destruct H as ([] & d1 & df & Hloop & Hflush & ->).
  exists d1. split.
  - f_equal. destruct (CONFIG_CPU_HAS_DMA_BUS cfg).
    + apply ret_Done in Hflush. now destruct Hflush.
    + now injection Hflush as <-.
  - eapply all_events_Done; [|exact Hloop].
    apply all_iter. apply all_read_body.
Qed.

(** read(buffer, 100, 10) without a DMA bus, on hardware that completes
    everything at once. *)
Lemma read_flushes_last_witness :
  exists transfer,
    events (sdcard_read sample_build hw_ok 100 10 4096 2%nat [])
    = transfer ++ (if CONFIG_CPU_HAS_DMA_BUS sample_build then []
                   else [FlushCpuDcache; FlushL2Cache])
    /\ Forall (read_event (SDCARD_CMD18_SUPPORT sample_build)
                          (SDCARD_CMD23_SUPPORT sample_build) false) transfer.
Proof.
  apply (read_flushes_last sample_build hw_ok 100 10 4096 2%nat []).
  vm_compute. reflexivity.
Defined.

(** ** The DMA engines are programmed while disabled *)

(** A property of event lists that holds of the empty list and is kept by
    concatenation holds of the events of a loop when it holds of the events of
    each pass. *)
Lemma events_iter_fuel {St A} (Q : list event -> Prop)
  (body : St -> M (St + A)) :
  Q [] -> (forall d d', Q d -> Q d' -> Q (d ++ d')) ->
  (forall s fuel h, Q (events (body s fuel h))) ->
  forall n s fuel h, Q (events (iter_fuel body n s fuel h)).
Proof.
  intros Hnil Happ Hb. induction n as [|n IH]; intros s fuel h; simpl.
  - exact Hnil.
  - rewrite events_bind. apply Happ; [apply Hb|].
    destruct (body s fuel h) as [[s'|a] d|d]; [apply IH | exact Hnil..].
Qed.

Section Discipline.

Variables en base len : csr.
Hypothesis base_en : csr_beq base en = false.
Hypothesis len_en : csr_beq len en = false.
Hypothesis en_base : csr_beq en base = false.
Hypothesis cmd_en : csr_beq SDCARD_CORE_CMD_COMMAND en = false.
Hypothesis cmd_base : csr_beq SDCARD_CORE_CMD_COMMAND base = false.
Hypothesis cmd_len : csr_beq SDCARD_CORE_CMD_COMMAND len = false.

Lemma last_write_app r v d pre :
  last_write r v pre -> last_write r v (d ++ pre).
Proof.
  intros (p1 & p2 & -> & H). exists (d ++ p1), p2.
  now rewrite <- app_assoc.
Qed.

Lemma discipline_nil : dma_discipline en base len [].
Proof. intros [|x pre] e post H; discriminate. Qed.

Lemma discipline_app d d' :
  dma_discipline en base len d -> dma_discipline en base len d' ->
  dma_discipline en base len (d ++ d').
Proof.
  intros Hd Hd' pre e post Heq.
  apply app_eq_app in Heq. destruct Heq as [l [[E Hl] | [E Hl]]].
  - destruct l as [|x l].
    + simpl in Hl. rewrite app_nil_r in E. subst pre.
      destruct (Hd' [] e post (eq_sym Hl)) as [H1 H2].
      split; intros Hw; [apply H1 in Hw | apply H2 in Hw];
        rewrite <- (app_nil_r d); now apply last_write_app.
    + injection Hl as <- E'. subst d. apply (Hd pre e l). reflexivity.
  - subst pre. destruct (Hd' l e post Hl) as [H1 H2].
    split; intros Hw; apply last_write_app; auto.
Qed.

(** Events that touch neither the engine nor the command register keep the
    discipline. *)
Lemma discipline_quiet d :
  Forall (fun e => dma_quiet en base len e
                   /\ is_write SDCARD_CORE_CMD_COMMAND e = false) d ->
  dma_discipline en base len d.
Proof.
  intros Hall pre e post ->. apply Forall_app in Hall.
  destruct Hall as [_ Hall]. inversion Hall as [|? ? [(He & Hb & Hl) Hc] _].
  rewrite Hb, Hl, Hc. split; discriminate.
Qed.

(** A pass: the engine is disabled, programmed and enabled; nothing after
    that writes its registers. *)
Lemma discipline_pass b l rest :
  Forall (dma_quiet en base len) rest ->
  dma_discipline en base len
    (CsrWrite en 0 :: CsrWrite base b :: CsrWrite len l :: CsrWrite en 1
     :: rest).
Proof.
  intros Hrest pre e post Heq.
  destruct pre as [|e0 [|e1 [|e2 [|e3 pre]]]]; cbn [app] in Heq.
  - injection Heq as <- _. cbn [is_write]. rewrite base_en, len_en, cmd_en.
    split; discriminate.
  - injection Heq as <- <- _. cbn [is_write]. rewrite cmd_base.
    split; [|discriminate]. intros _.
    exists [], []. split; [reflexivity | constructor].
  - injection Heq as <- <- <- _. cbn [is_write]. rewrite cmd_len.
    split; [|discriminate]. intros _.
    exists [], [CsrWrite base b]. split; [reflexivity|].
    repeat constructor. unfold no_write_to. cbn [is_write]. exact en_base.
  - injection Heq as <- <- <- <- _. cbn [is_write].
    rewrite base_en, len_en, cmd_en. split; discriminate.
  - injection Heq as <- <- <- <- ->. apply Forall_app in Hrest.
    destruct Hrest as [Hpre Hrest]. inversion Hrest as [|? ? (He & Hb & Hl) _].
    rewrite Hb, Hl. split; [discriminate|]. intros _.
    exists [CsrWrite en 0; CsrWrite base b; CsrWrite len l], pre.
    split; [reflexivity|]. eapply Forall_impl; [|exact Hpre].
    now intros ? (? & _).
Qed.

End Discipline.

Ltac by_quiet_event :=
  let e := fresh "e" in
  let H := fresh "H" in
  intros e H; unfold dma_quiet;
  destruct e as [[] ? | [] ? | ? | ? | ? ? | | ];
  cbn in H |- *; try contradiction; auto.

Ltac quiet_leaf :=
  first [ by_quiet_event | unfold dma_quiet; cbn; auto ].

(** Turns a goal on the events of one run into one on all runs. *)
Ltac to_all_events :=
  match goal with
  | |- Forall ?P (events (?m ?fuel ?h)) =>
      let Hx := fresh in
      cut (all_events P m); [intros Hx; apply Hx|]
  end.

Section TransferDiscipline.

Variable cfg : build.
Variable hw : list event -> csr -> Z.

Lemma read_body_discipline st fuel h :
  dma_discipline SDCARD_BLOCK2MEM_DMA_ENABLE SDCARD_BLOCK2MEM_DMA_BASE
    SDCARD_BLOCK2MEM_DMA_LENGTH (events (sdcard_read_body cfg hw st fuel h)).
Proof.
  destruct st as [[block count] buf]. unfold sdcard_read_body.
  destruct (count =? 0); [apply discipline_nil|].
  rewrite !events_write_bind.
  apply discipline_pass; try reflexivity.
  to_all_events.
  unfold sdcard_set_block_count, sdcard_read_multiple_block,
    sdcard_read_single_block, sdcard_stop_transmission.
  all_ev; quiet_leaf.
Qed.

Lemma write_body_discipline st fuel h :
  dma_discipline SDCARD_MEM2BLOCK_DMA_ENABLE SDCARD_MEM2BLOCK_DMA_BASE
    SDCARD_MEM2BLOCK_DMA_LENGTH (events (sdcard_write_body cfg hw st fuel h)).
Proof.
  destruct st as [[block count] buf]. unfold sdcard_write_body.
  destruct (count =? 0); [apply discipline_nil|].
  rewrite !events_write_bind.
  apply discipline_pass; try reflexivity.
  to_all_events.
  unfold sdcard_set_block_count, sdcard_write_multiple_block,
    sdcard_write_single_block, sdcard_stop_transmission.
  all_ev; quiet_leaf.
Qed.

End TransferDiscipline.

(** X7. In every pass of both transfer loops, in finished and unfinished
    runs, the DMA engine is reprogrammed only while it is disabled and
    commands are issued only while it is enabled: before each write to the
    base or the length register of the engine the latest write to its enable
    register wrote 0, and before each write to the command register the
    latest write to the enable register wrote 1. *)
Theorem dma_programmed_while_disabled (cfg : build)
  (hw : list event -> csr -> Z) (block count buf : Z) (fuel : nat)
  (h : list event) :
  dma_discipline SDCARD_BLOCK2MEM_DMA_ENABLE SDCARD_BLOCK2MEM_DMA_BASE
    SDCARD_BLOCK2MEM_DMA_LENGTH
    (events (sdcard_read cfg hw block count buf fuel h))
  /\ dma_discipline SDCARD_MEM2BLOCK_DMA_ENABLE SDCARD_MEM2BLOCK_DMA_BASE
       SDCARD_MEM2BLOCK_DMA_LENGTH
       (events (sdcard_write cfg hw block count buf fuel h)).
Proof.
  split.
  - unfold sdcard_read. rewrite events_bind. apply discipline_app.
    + unfold iter. apply events_iter_fuel.
      * apply discipline_nil.
      * apply discipline_app.
      * apply read_body_discipline.
    + apply discipline_quiet.
      destruct (iter (sdcard_read_body cfg hw) (block, count, buf) fuel h);
        [|constructor].
      destruct (CONFIG_CPU_HAS_DMA_BUS cfg); cbn; repeat constructor.
  - unfold sdcard_write, iter. apply events_iter_fuel.
    + apply discipline_nil.
    + apply discipline_app.
    + apply write_body_discipline.
Qed.

(** ** The passes of a transfer loop *)

Lemma u32_small x : 0 <= x < 2 ^ 32 -> u32 x = x.
Proof. intros H. unfold u32. now apply Z.mod_small. Qed.

Lemma u32_range x : 0 <= u32 x < 2 ^ 32.
Proof. apply Z.mod_pos_bound. reflexivity. Qed.

Lemma pass_states_0 multi block buf : pass_states multi block 0 buf = [].
Proof. now destruct multi. Qed.

(** The first pass begins in the state the loop is entered with; the others
    are the passes of the loop entered with the state the first hands on. *)
Lemma pass_states_next multi block count buf :
  0 <= block < 2 ^ 32 -> 0 < count < 2 ^ 32 ->
  pass_states multi block count buf
  = (block, count, buf)
    :: pass_states multi
         (u32 (block + (if multi then count else 1)))
         (u32 (count - (if multi then count else 1)))
         (buf + u32 (512 * (if multi then count else 1))).
Proof.
  intros Hb Hc. unfold pass_states. destruct multi.
  - destruct (Z.eqb_spec count 0); [lia|].
    replace (count - count) with 0 by lia. reflexivity.
  - rewrite (u32_small (count - 1)) by lia.
    replace (Z.to_nat count) with (S (Z.to_nat (count - 1))) by lia.
    cbn [seq map]. f_equal.
    + rewrite Z.add_0_r, Z.sub_0_r, Z.mul_0_r, Z.add_0_r.
      now rewrite u32_small.
    + rewrite <- seq_shift, map_map. apply map_ext. intros i.
      rewrite Nat2Z.inj_succ. f_equal; [f_equal|].
      * unfold u32. rewrite Zplus_mod_idemp_l. f_equal. lia.
      * lia.
      * change (u32 (512 * 1)) with 512. lia.
Qed.

Section TransferLoop.

Variable body : Z * Z * Z -> M (Z * Z * Z + unit).
Variable multi : bool.

Hypothesis body_end :
  forall block buf fuel h, body (block, 0, buf) fuel h = Done (inr tt) [].

Hypothesis body_next :
  forall block count buf fuel h r d,
    count <> 0 -> body (block, count, buf) fuel h = Done r d ->
    r = inl (u32 (block + (if multi then count else 1)),
             u32 (count - (if multi then count else 1)),
             buf + u32 (512 * (if multi then count else 1))).

Lemma next_count_range count :
  0 < count < 2 ^ 32 ->
  0 <= u32 (count - (if multi then count else 1)) < 2 ^ 32
  /\ (Z.to_nat (u32 (count - (if multi then count else 1)))
      < Z.to_nat count)%nat.
Proof.
  intros Hc. destruct multi.
  - replace (count - count) with 0 by lia. change (u32 0) with 0. lia.
  - rewrite u32_small by lia. lia.
Qed.

(** A run of the loop that returns is made of the runs of its passes, one
    for each of [pass_states]. *)
Lemma loop_passes n :
  forall block count buf fuel h d,
    0 <= block < 2 ^ 32 -> 0 <= count < 2 ^ 32 ->
    iter_fuel body n (block, count, buf) fuel h = Done tt d ->
    exists ds,
      d = List.concat ds
      /\ Forall2 (fun st dp =>
                   let '(blk, cnt, bf) := st in
                   0 <= blk < 2 ^ 32 /\ 0 < cnt < 2 ^ 32
                   /\ exists fuel' h' r, body st fuel' h' = Done r dp)
                 (pass_states multi block count buf) ds.
Proof.
  induction n as [|n IH]; intros block count buf fuel h d Hb Hc H;
    [discriminate|].
  cbn [iter_fuel] in H. apply bind_Done_inv in H.
  destruct H as (r & d1 & d2 & Hbody & Hrest & ->).
  destruct (Z.eqb_spec count 0) as [->|Hne].
  - rewrite body_end in Hbody. injection Hbody as <- <-.
    apply ret_Done in Hrest. destruct Hrest as [_ ->].
    exists []. rewrite pass_states_0. split; [reflexivity | constructor].
  - pose proof (body_next _ _ _ _ _ _ _ Hne Hbody) as ->.
    assert (0 < count < 2 ^ 32) as Hc' by lia.
    destruct (next_count_range count Hc') as [Hn _].
    apply IH in Hrest; [|apply u32_range | exact Hn].
    destruct Hrest as (ds & -> & Hds).
    exists (d1 :: ds). split; [reflexivity|].
    rewrite pass_states_next by assumption.
    constructor; [|exact Hds]. eauto 6.
Qed.

Hypothesis body_completes : forall st, completes (body st).

Lemma loop_returns :
  forall k block count buf h,
    0 <= count < 2 ^ 32 -> (Z.to_nat count <= k)%nat ->
    exists d, iter_returns body (block, count, buf) h tt d.
Proof.
  induction k as [|k IH]; intros block count buf h Hc Hk.
  - assert (count = 0) as -> by lia. exists [].
    apply iter_returns_break. exists O. intros fuel _. apply body_end.
  - destruct (Z.eqb_spec count 0) as [->|Hne].
    { exists []. apply iter_returns_break. exists O. intros fuel _.
      apply body_end. }
    destruct (body_completes (block, count, buf) h) as (r & d & Hr).
    pose proof Hr as [N HN]. specialize (HN N (le_n N)).
    pose proof (body_next _ _ _ _ _ _ _ Hne HN) as ->.
    assert (0 < count < 2 ^ 32) as Hc' by lia.
    destruct (next_count_range count Hc') as [Hn Hlt].
    destruct (IH (u32 (block + (if multi then count else 1)))
                 (u32 (count - (if multi then count else 1)))
                 (buf + u32 (512 * (if multi then count else 1)))
                 (h ++ d) Hn ltac:(lia)) as [d' Hd'].
    exists (d ++ d'). eapply iter_returns_continue; eauto.
Qed.

End TransferLoop.

(** ** Observations along concatenated passes *)

Lemma written_concat r ds :
  written r (List.concat ds) = flat_map (written r) ds.
Proof.
  induction ds as [|d ds IH]; [reflexivity|].
  cbn [List.concat flat_map]. now rewrite written_app, IH.
Qed.

Lemma flat_map_Forall2 {A B C} (f : A -> list C) (g : B -> list C) l l' :
  Forall2 (fun a b => g b = f a) l l' -> flat_map g l' = flat_map f l.
Proof.
  induction 1 as [|a b l l' Hab _ IH]; [reflexivity|].
  cbn [flat_map]. now rewrite Hab, IH.
Qed.

Lemma flat_map_singleton {A B} (f : A -> B) l :
  flat_map (fun a => [f a]) l = map f l.
Proof. induction l as [|a l IH]; [reflexivity|]. cbn. now rewrite IH. Qed.

Lemma sent_app a c d d' :
  sent a c (d ++ d')
  = sent a c d ++ sent (fst (cmd_regs a c d)) (snd (cmd_regs a c d)) d'.
Proof.
  revert a c. induction d as [|e d IH]; intros a c; [reflexivity|].
  destruct e as [[] v | | | | | | ]; cbn [app sent cmd_regs]; rewrite ?IH;
    reflexivity.
Qed.

Lemma sent_no_write a c d : Forall not_a_write d -> sent a c d = [].
Proof.
  induction 1 as [|e d He _ IH]; [reflexivity|].
  destruct e; try contradiction; cbn [sent]; exact IH.
Qed.

Lemma cmd_regs_no_write a c d :
  Forall not_a_write d -> cmd_regs a c d = (a, c).
Proof.
  induction 1 as [|e d He _ IH]; [reflexivity|].
  destruct e; try contradiction; cbn [cmd_regs]; exact IH.
Qed.

(** Passes that send the same commands whatever the registers held before:
    the commands of the run are those of the passes. *)
Lemma sent_concat {St} (f : St -> list (Z * Z)) sts ds :
  Forall2 (fun st dp => forall a c, sent a c dp = f st) sts ds ->
  forall a c, sent a c (List.concat ds) = flat_map f sts.
Proof.
  induction 1 as [|st dp sts ds Hdp _ IH]; intros a c; [reflexivity|].
  cbn [List.concat flat_map]. now rewrite sent_app, Hdp, IH.
Qed.

(** What follows a command in the event list does not change that it was
    sent. *)
Lemma sent_cmd_writes a c arg cmd rsp d :
  sent a c (cmd_writes arg cmd rsp ++ d)
  = (u8 cmd, u32 arg)
    :: sent (u32 arg) (Z.lor (Z.shiftl (u8 cmd) 8) (u8 rsp)) d.
Proof.
  unfold cmd_writes. cbn [app sent]. now rewrite command_opcode.
Qed.

Lemma sent_polls a c q d :
  Forall not_a_write q -> sent a c (q ++ d) = sent a c d.
Proof.
  intros Hq. rewrite sent_app, (sent_no_write a c q Hq).
  now rewrite (cmd_regs_no_write a c q Hq).
Qed.

(** ** The events of a pass *)

Section PassShape.

Variable cfg : build.
Variable hw : list event -> csr -> Z.

(** SET_BLOCK_COUNT before the data command, when it is enabled. *)
Lemma set_block_count_step nblocks fuel h (u : unit) d :
  (if SDCARD_CMD23_SUPPORT cfg
   then sdcard_set_block_count cfg hw nblocks ;; ret tt else ret tt) fuel h
  = Done u d ->
  if SDCARD_CMD23_SUPPORT cfg
  then exists q, d = cmd_writes nblocks 23 (SDCARD_CTRL_RESPONSE_SHORT cfg) ++ q
                 /\ Forall not_a_write q
  else d = [].
Proof.
  intros H. destruct (SDCARD_CMD23_SUPPORT cfg).
  - bind_inv H. apply ret_Done in H. destruct H as [_ ->].
    rewrite app_nil_r. unfold sdcard_set_block_count in Hstep.
    apply send_command_Done_shape in Hstep.
    destruct Hstep as (ev & q & -> & Hq & _). eauto.
  - apply ret_Done in H. now destruct H.
Qed.

(** STOP_TRANSMISSION after the data command, for more than one block. *)
Lemma stop_step nblocks fuel h (u : unit) d :
  (if nblocks >? 1 then sdcard_stop_transmission cfg hw ;; ret tt else ret tt)
    fuel h = Done u d ->
  if nblocks >? 1
  then exists q, d = cmd_writes 0 12 (SDCARD_CTRL_RESPONSE_SHORT_BUSY cfg) ++ q
                 /\ Forall not_a_write q
  else d = [].
Proof.
  intros H. destruct (nblocks >? 1).
  - bind_inv H. apply ret_Done in H. destruct H as [_ ->].
    rewrite app_nil_r. unfold sdcard_stop_transmission in Hstep.
    apply send_command_Done_shape in Hstep.
    destruct Hstep as (ev & q & -> & Hq & _). eauto.
  - apply ret_Done in H. now destruct H.
Qed.

Lemma dma_poll_step r fuel h (u : unit) d :
  while_ (v <- csr_read hw r ;; ret (Z.land v 1 =? 0)) fuel h = Done u d ->
  Forall not_a_write d.
Proof.
  destruct u. intros H. apply dma_poll_Done in H. destruct H as [ev H].
  eapply dma_polls_no_write, H.
Qed.

(** The block geometry and the retried data command of a read. *)
Lemma read_block_step block nblocks fuel h r d :
  (if nblocks >? 1 then sdcard_read_multiple_block cfg hw block nblocks
   else sdcard_read_single_block cfg hw block) fuel h = Done r d ->
  exists h' dr dd,
    d = [CsrWrite SDCARD_CORE_BLOCK_LENGTH 512;
         CsrWrite SDCARD_CORE_BLOCK_COUNT (if nblocks >? 1 then nblocks else 1)]
        ++ dr ++ dd
    /\ retry_command hw block (if nblocks >? 1 then 18 else 17)
         (data_rsp cfg (SDCARD_CTRL_DATA_TRANSFER_READ cfg)) fuel h'
       = Done tt dr
    /\ Forall not_a_write dd.
Proof.
  intros H.
  destruct (nblocks >? 1);
    unfold sdcard_read_multiple_block, sdcard_read_single_block in H;
    bind_inv H;
    apply csr_write_Done in Hstep, Hstep0; subst;
    apply wait_data_done_Done in H;
    destruct H as (ev & Hfd & _);
    apply data_polls_no_write in Hfd;
    repeat match goal with u : unit |- _ => destruct u end;
    do 3 eexists;
    (split; [reflexivity | split; [eassumption | assumption]]).
Qed.

(** The block geometry and the retried data command of a write. *)
Lemma write_block_step block nblocks fuel h r d :
  (if nblocks >? 1 then sdcard_write_multiple_block cfg hw block nblocks
   else sdcard_write_single_block cfg hw block) fuel h = Done r d ->
  exists h' dr,
    d = [CsrWrite SDCARD_CORE_BLOCK_LENGTH 512;
         CsrWrite SDCARD_CORE_BLOCK_COUNT (if nblocks >? 1 then nblocks else 1)]
        ++ dr
    /\ retry_command hw block (if nblocks >? 1 then 25 else 24)
         (data_rsp cfg (SDCARD_CTRL_DATA_TRANSFER_WRITE cfg)) fuel h'
       = Done tt dr.
Proof.
  intros H.
  destruct (nblocks >? 1);
    unfold sdcard_write_multiple_block, sdcard_write_single_block in H;
    bind_inv H;
    apply csr_write_Done in Hstep, Hstep0; subst;
    apply ret_Done in H; destruct H as [_ ->];
    repeat match goal with u : unit |- _ => destruct u end;
    do 2 eexists; rewrite app_nil_r;
    (split; [reflexivity | eassumption]).
Qed.

(** The events of a pass of the read loop that returns. *)
Lemma read_pass_shape block count buf fuel h r d :
  count <> 0 ->
  sdcard_read_body cfg hw (block, count, buf) fuel h = Done r d ->
  let nblocks := if SDCARD_CMD18_SUPPORT cfg then count else 1 in
  exists d23 h' dr dd dp ds,
    d = [CsrWrite SDCARD_BLOCK2MEM_DMA_ENABLE 0;
         CsrWrite SDCARD_BLOCK2MEM_DMA_BASE buf;
         CsrWrite SDCARD_BLOCK2MEM_DMA_LENGTH (u32 (512 * nblocks));
         CsrWrite SDCARD_BLOCK2MEM_DMA_ENABLE 1]
        ++ d23
        ++ [CsrWrite SDCARD_CORE_BLOCK_LENGTH 512;
            CsrWrite SDCARD_CORE_BLOCK_COUNT
              (if nblocks >? 1 then nblocks else 1)]
        ++ dr ++ dd ++ dp ++ ds
    /\ (if SDCARD_CMD23_SUPPORT cfg
        then exists q,
            d23 = cmd_writes nblocks 23 (SDCARD_CTRL_RESPONSE_SHORT cfg) ++ q
            /\ Forall not_a_write q
        else d23 = [])
    /\ retry_command hw block (if nblocks >? 1 then 18 else 17)
         (data_rsp cfg (SDCARD_CTRL_DATA_TRANSFER_READ cfg)) fuel h'
       = Done tt dr
    /\ Forall not_a_write dd
    /\ Forall not_a_write dp
    /\ (if nblocks >? 1
        then exists q,
            ds = cmd_writes 0 12 (SDCARD_CTRL_RESPONSE_SHORT_BUSY cfg) ++ q
            /\ Forall not_a_write q
        else ds = []).
Proof.
  intros Hc H nblocks. unfold sdcard_read_body in H. fold nblocks in H.
  destruct (Z.eqb_spec count 0); [contradiction|].
  bind_inv H. apply ret_Done in H. destruct H as [_ ->].
  apply csr_write_Done in Hstep, Hstep0, Hstep1, Hstep2. subst.
  apply set_block_count_step in Hstep3.
  apply read_block_step in Hstep4.
  destruct Hstep4 as (h' & dr & dd & -> & Hr & Hdd).
  apply dma_poll_step in Hstep5.
  apply stop_step in Hstep6.
  exists d3, h', dr, dd, d5, d6.
  repeat split; auto.
  rewrite <- !app_assoc, app_nil_r. reflexivity.
Qed.

(** The events of a pass of the write loop that returns. *)
Lemma write_pass_shape block count buf fuel h r d :
  count <> 0 ->
  sdcard_write_body cfg hw (block, count, buf) fuel h = Done r d ->
  let nblocks := if SDCARD_CMD25_SUPPORT cfg then count else 1 in
  exists d23 h' dr ds dp,
    d = [CsrWrite SDCARD_MEM2BLOCK_DMA_ENABLE 0;
         CsrWrite SDCARD_MEM2BLOCK_DMA_BASE buf;
         CsrWrite SDCARD_MEM2BLOCK_DMA_LENGTH (u32 (512 * nblocks));
         CsrWrite SDCARD_MEM2BLOCK_DMA_ENABLE 1]
        ++ d23
        ++ [CsrWrite SDCARD_CORE_BLOCK_LENGTH 512;
            CsrWrite SDCARD_CORE_BLOCK_COUNT
              (if nblocks >? 1 then nblocks else 1)]
        ++ dr ++ ds ++ dp
    /\ (if SDCARD_CMD23_SUPPORT cfg
        then exists q,
            d23 = cmd_writes nblocks 23 (SDCARD_CTRL_RESPONSE_SHORT cfg) ++ q
            /\ Forall not_a_write q
        else d23 = [])
    /\ retry_command hw block (if nblocks >? 1 then 25 else 24)
         (data_rsp cfg (SDCARD_CTRL_DATA_TRANSFER_WRITE cfg)) fuel h'
       = Done tt dr
    /\ (if nblocks >? 1
        then exists q,
            ds = cmd_writes 0 12 (SDCARD_CTRL_RESPONSE_SHORT_BUSY cfg) ++ q
            /\ Forall not_a_write q
        else ds = [])
    /\ Forall not_a_write dp.
Proof.
  intros Hc H nblocks. unfold sdcard_write_body in H. fold nblocks in H.
  destruct (Z.eqb_spec count 0); [contradiction|].
  bind_inv H. apply ret_Done in H. destruct H as [_ ->].
  apply csr_write_Done in Hstep, Hstep0, Hstep1, Hstep2. subst.
  apply set_block_count_step in Hstep3.
  apply write_block_step in Hstep4.
  destruct Hstep4 as (h' & dr & -> & Hr).
  apply stop_step in Hstep5.
  apply dma_poll_step in Hstep6.
  exists d3, h', dr, d5, d6.
  repeat split; auto.
  rewrite <- !app_assoc, app_nil_r. reflexivity.
Qed.

End PassShape.

(** ** What a pass writes and sends *)

Lemma command_event_written op r d :
  csr_beq r SDCARD_CORE_CMD_ARGUMENT = false ->
  csr_beq r SDCARD_CORE_CMD_COMMAND = false ->
  csr_beq r SDCARD_CORE_CMD_SEND = false ->
  Forall (command_event op) d -> written r d = [].
Proof.
  intros Ha Hc Hs. induction 1 as [|e d He _ IH]; [reflexivity|].
  unfold written in *. cbn [flat_map]. rewrite IH.
  destruct e as [[] v | | | | | | ]; cbn in He |- *; try contradiction;
    try reflexivity; now rewrite ?Ha, ?Hc, ?Hs.
Qed.

Lemma retry_command_written hw r arg cmd rsp fuel h d :
  csr_beq r SDCARD_CORE_CMD_ARGUMENT = false ->
  csr_beq r SDCARD_CORE_CMD_COMMAND = false ->
  csr_beq r SDCARD_CORE_CMD_SEND = false ->
  retry_command hw arg cmd rsp fuel h = Done tt d -> written r d = [].
Proof.
  intros Ha Hc Hs H. apply (command_event_written (u8 cmd)); try assumption.
  eapply all_events_Done; [|exact H]. apply all_retry_command.
Qed.

Lemma written_polls r q : Forall not_a_write q -> written r q = [].
Proof. intros H. apply written_none. now apply not_a_write_no_write_to. Qed.

(** Rewrites the values written to a register other than the command
    registers along the pieces of a pass. *)
Ltac written_pieces :=
  rewrite ?written_app;
  repeat match goal with
    | Hq : Forall not_a_write ?q |- context [written ?r ?q] =>
        rewrite (written_polls r q Hq)
    | Hr : retry_command ?hw ?a ?c ?s ?f ?h = Done tt ?dr
      |- context [written ?r ?dr] =>
        rewrite (retry_command_written hw r a c s f h dr
                   eq_refl eq_refl eq_refl Hr)
    end.

Section PassFacts.

Variable cfg : build.
Variable hw : list event -> csr -> Z.

Lemma chunk_block_count multi block count buf :
  0 < count ->
  (if chunk multi (block, count, buf) >? 1
   then chunk multi (block, count, buf) else 1)
  = chunk multi (block, count, buf).
Proof.
  intros Hc. unfold chunk. destruct multi; [|reflexivity].
  destruct (Z.gtb_spec count 1); lia.
Qed.

(** The DMA base address a pass of the read loop programs. *)
Lemma read_pass_written block count buf fuel h r d :
  count <> 0 ->
  sdcard_read_body cfg hw (block, count, buf) fuel h = Done r d ->
  written SDCARD_BLOCK2MEM_DMA_BASE d = [buf].
Proof.
  intros Hc H.
  destruct (read_pass_shape cfg hw _ _ _ _ _ _ _ Hc H)
    as (d23 & h' & dr & dd & dp & ds & -> & H23 & Hr & Hdd & Hdp & Hds).
  destruct (SDCARD_CMD23_SUPPORT cfg);
    [destruct H23 as (q23 & -> & Hq23) | subst d23];
    (destruct ((if SDCARD_CMD18_SUPPORT cfg then count else 1) >? 1);
     [destruct Hds as (qs & -> & Hqs) | subst ds]);
    written_pieces; reflexivity.
Qed.

(** What a pass of the write loop programs: block count, DMA length and DMA
    base address. *)
Lemma write_pass_written block count buf fuel h r d :
  0 < count ->
  sdcard_write_body cfg hw (block, count, buf) fuel h = Done r d ->
  written SDCARD_CORE_BLOCK_COUNT d
  = [chunk (SDCARD_CMD25_SUPPORT cfg) (block, count, buf)]
  /\ written SDCARD_MEM2BLOCK_DMA_LENGTH d
     = [u32 (512 * chunk (SDCARD_CMD25_SUPPORT cfg) (block, count, buf))]
  /\ written SDCARD_MEM2BLOCK_DMA_BASE d = [buf].
Proof.
  intros Hc H. assert (count <> 0) as Hne by lia.
  destruct (write_pass_shape cfg hw _ _ _ _ _ _ _ Hne H)
    as (d23 & h' & dr & ds & dp & -> & H23 & Hr & Hds & Hdp).
  rewrite <- (chunk_block_count (SDCARD_CMD25_SUPPORT cfg) block count buf Hc)
    at 1.
  change (if SDCARD_CMD25_SUPPORT cfg then count else 1)
    with (chunk (SDCARD_CMD25_SUPPORT cfg) (block, count, buf)) in *.
  destruct (SDCARD_CMD23_SUPPORT cfg);
    [destruct H23 as (q23 & -> & Hq23) | subst d23];
    (destruct (chunk (SDCARD_CMD25_SUPPORT cfg) (block, count, buf) >? 1);
     [destruct Hds as (qs & -> & Hqs) | subst ds]);
    repeat split; written_pieces; reflexivity.
Qed.

Hypothesis Hok : cmd_never_fails hw.

(** Rewrites the commands sent along the pieces of a pass. *)
Ltac sent_pieces :=
  rewrite <- ?app_assoc;
  repeat first
    [ rewrite sent_cmd_writes
    | rewrite sent_polls by assumption
    | rewrite sent_no_write by assumption
    | progress cbn [app sent] ].

(** The commands a pass of the read loop sends when no command fails. *)
Lemma read_pass_sent block count buf fuel h r d :
  count <> 0 ->
  sdcard_read_body cfg hw (block, count, buf) fuel h = Done r d ->
  forall a c,
    sent a c d
    = pass_commands (SDCARD_CMD23_SUPPORT cfg) (SDCARD_CMD18_SUPPORT cfg)
                    17 18 (block, count, buf).
Proof.
  intros Hc H a c.
  destruct (read_pass_shape cfg hw _ _ _ _ _ _ _ Hc H)
    as (d23 & h' & dr & dd & dp & ds & -> & H23 & Hr & Hdd & Hdp & Hds).
  destruct (@retry_command_once hw _ _ _ _ _ _ Hok Hr) as (qr & -> & Hqr).
  unfold pass_commands, chunk.
  destruct (SDCARD_CMD23_SUPPORT cfg);
    [destruct H23 as (q23 & -> & Hq23) | subst d23];
    (destruct ((if SDCARD_CMD18_SUPPORT cfg then count else 1) >? 1);
     [destruct Hds as (qs & -> & Hqs) | subst ds]);
    sent_pieces; reflexivity.
Qed.

(** The commands a pass of the write loop sends when no command fails. *)
Lemma write_pass_sent block count buf fuel h r d :
  count <> 0 ->
  sdcard_write_body cfg hw (block, count, buf) fuel h = Done r d ->
  forall a c,
    sent a c d
    = pass_commands (SDCARD_CMD23_SUPPORT cfg) (SDCARD_CMD25_SUPPORT cfg)
                    24 25 (block, count, buf).
Proof.
  intros Hc H a c.
  destruct (write_pass_shape cfg hw _ _ _ _ _ _ _ Hc H)
    as (d23 & h' & dr & ds & dp & -> & H23 & Hr & Hds & Hdp).
  destruct (@retry_command_once hw _ _ _ _ _ _ Hok Hr) as (qr & -> & Hqr).
  unfold pass_commands, chunk.
  destruct (SDCARD_CMD23_SUPPORT cfg);
    [destruct H23 as (q23 & -> & Hq23) | subst d23];
    (destruct ((if SDCARD_CMD25_SUPPORT cfg then count else 1) >? 1);
     [destruct Hds as (qs & -> & Hqs) | subst ds]);
    sent_pieces; reflexivity.
Qed.

End PassFacts.

(** ** The transfers, pass by pass *)



Section Transfers.

Variable cfg : build.
Variable hw : list event -> csr -> Z.

Lemma read_body_end block buf fuel h :
  sdcard_read_body cfg hw (block, 0, buf) fuel h = Done (inr tt) [].
Proof. reflexivity. Qed.

Lemma write_body_end block buf fuel h :
  sdcard_write_body cfg hw (block, 0, buf) fuel h = Done (inr tt) [].
Proof. reflexivity. Qed.

Lemma read_body_next block count buf fuel h r d :
  count <> 0 ->
  sdcard_read_body cfg hw (block, count, buf) fuel h = Done r d ->
  r = inl (u32 (block + (if SDCARD_CMD18_SUPPORT cfg then count else 1)),
           u32 (count - (if SDCARD_CMD18_SUPPORT cfg then count else 1)),
           buf + u32 (512 * (if SDCARD_CMD18_SUPPORT cfg then count else 1))).
Proof.
  intros Hc H. now destruct (@read_body_Done cfg hw _ _ _ _ _ _ _ Hc H).
Qed.

Lemma write_body_next block count buf fuel h r d :
  count <> 0 ->
  sdcard_write_body cfg hw (block, count, buf) fuel h = Done r d ->
  r = inl (u32 (block + (if SDCARD_CMD25_SUPPORT cfg then count else 1)),
           u32 (count - (if SDCARD_CMD25_SUPPORT cfg then count else 1)),
           buf + u32 (512 * (if SDCARD_CMD25_SUPPORT cfg then count else 1))).
Proof. intros Hc H. exact (@write_body_Done cfg hw _ _ _ _ _ _ _ H Hc). Qed.

(** A read that returns: its passes, then the cache flush. *)
Lemma read_passes block count buf fuel h d :
  0 <= block < 2 ^ 32 -> 0 <= count < 2 ^ 32 ->
  sdcard_read cfg hw block count buf fuel h = Done tt d ->
  exists ds df,
    d = List.concat ds ++ df
    /\ Forall not_a_write df
    /\ Forall2 (fun st dp =>
                  let '(blk, cnt, bf) := st in
                  0 <= blk < 2 ^ 32 /\ 0 < cnt < 2 ^ 32
                  /\ exists fuel' h' r,
                      sdcard_read_body cfg hw st fuel' h' = Done r dp)
               (pass_states (SDCARD_CMD18_SUPPORT cfg) block count buf) ds.
Proof.
  intros Hb Hc H. unfold sdcard_read in H. apply bind_Done_inv in H.
  destruct H as ([] & d1 & df & Hloop & Hflush & ->).
  unfold iter in Hloop.
  destruct (loop_passes (sdcard_read_body cfg hw) (SDCARD_CMD18_SUPPORT cfg)
              read_body_end read_body_next _ _ _ _ _ _ _ Hb Hc Hloop)
    as (ds & -> & Hds).
  exists ds, df. repeat split; [|exact Hds].
  destruct (CONFIG_CPU_HAS_DMA_BUS cfg).
  - apply ret_Done in Hflush. destruct Hflush as [_ ->]. constructor.
  - injection Hflush as <-. repeat constructor.
Qed.

(** A write that returns: its passes. *)
Lemma write_passes block count buf fuel h d :
  0 <= block < 2 ^ 32 -> 0 <= count < 2 ^ 32 ->
  sdcard_write cfg hw block count buf fuel h = Done tt d ->
  exists ds,
    d = List.concat ds
    /\ Forall2 (fun st dp =>
                  let '(blk, cnt, bf) := st in
                  0 <= blk < 2 ^ 32 /\ 0 < cnt < 2 ^ 32
                  /\ exists fuel' h' r,
                      sdcard_write_body cfg hw st fuel' h' = Done r dp)
               (pass_states (SDCARD_CMD25_SUPPORT cfg) block count buf) ds.
Proof.
  intros Hb Hc H. unfold sdcard_write, iter in H.
  exact (loop_passes (sdcard_write_body cfg hw) (SDCARD_CMD25_SUPPORT cfg)
           write_body_end write_body_next _ _ _ _ _ _ _ Hb Hc H).
Qed.

Lemma write_body_completes st :
  responsive hw -> completes (sdcard_write_body cfg hw st).
Proof.
  intros Hhw. destruct st as [[block count] buf]. unfold sdcard_write_body.
  destruct (count =? 0); [apply completes_ret|].
  unfold sdcard_set_block_count, sdcard_write_multiple_block,
    sdcard_write_single_block, sdcard_stop_transmission.
  repeat completes_step; assumption.
Qed.

Lemma write_returns block count buf h :
  responsive hw -> 0 <= count < 2 ^ 32 ->
  exists d, returns (sdcard_write cfg hw block count buf) h tt d.
Proof.
  intros Hhw Hc.
  destruct (loop_returns (sdcard_write_body cfg hw) (SDCARD_CMD25_SUPPORT cfg)
              write_body_end write_body_next
              (fun st => write_body_completes st Hhw)
              (Z.to_nat count) block count buf h Hc (le_n _)) as [d Hd].
  exists d. now apply iter_returns_returns.
Qed.

End Transfers.

(** X8. The read loop, pass by pass, for a 32-bit block address and count.
    A read that returns has made one pass for each of [pass_states]: one
    pass over the whole count with the multi-block command, else one pass
    per block at the block addresses block, block + 1, ... (modulo 2^32).
    The DMA base addresses it has programmed are the buffer addresses of the
    passes: buf, buf + 512, ...  When no command fails, the commands it has
    sent are exactly those of the passes, in order: per pass SET_BLOCK_COUNT
    (when enabled), READ_SINGLE_BLOCK or READ_MULTIPLE_BLOCK at the block
    address of the pass, and STOP_TRANSMISSION after more than one block. *)
Theorem read_pass_by_pass (cfg : build) (hw : list event -> csr -> Z)
  (block count buf : Z) (fuel : nat) (h d : list event) :
  0 <= block < 2 ^ 32 -> 0 <= count < 2 ^ 32 ->
  sdcard_read cfg hw block count buf fuel h = Done tt d ->
  written SDCARD_BLOCK2MEM_DMA_BASE d
  = map snd (pass_states (SDCARD_CMD18_SUPPORT cfg) block count buf)
  /\ (cmd_never_fails hw ->
      forall a c,
        sent a c d
        = flat_map (pass_commands (SDCARD_CMD23_SUPPORT cfg)
                                  (SDCARD_CMD18_SUPPORT cfg) 17 18)
                   (pass_states (SDCARD_CMD18_SUPPORT cfg) block count buf)).
Proof.
  intros Hb Hc H.
  destruct (read_passes cfg hw block count buf fuel h d Hb Hc H)
    as (ds & df & -> & Hdf & Hds).
  split.
  - rewrite written_app, (written_polls _ df Hdf), app_nil_r, written_concat.
    rewrite <- flat_map_singleton. apply flat_map_Forall2.
    eapply Forall2_impl; [|exact Hds].
    intros [[blk cnt] bf] dp (_ & Hcnt & fuel' & h' & r & Hdp).
    eapply read_pass_written; [|exact Hdp]. lia.
  - intros Hok a c. rewrite sent_app.
    rewrite (sent_no_write _ _ df Hdf), app_nil_r.
    apply sent_concat. eapply Forall2_impl; [|exact Hds].
    intros [[blk cnt] bf] dp (_ & Hcnt & fuel' & h' & r & Hdp).
    eapply read_pass_sent; [exact Hok | | exact Hdp]. lia.
Qed.

(** Three blocks from block 100 into the buffer at 4096 with the
    multi-block command switched off: READ_SINGLE_BLOCK at 100, 101, 102
    into 4096, 4608, 5120. *)
Lemma read_pass_by_pass_witness :
  written SDCARD_BLOCK2MEM_DMA_BASE
          (events (sdcard_read single_block_build hw_ok 100 3 4096 4%nat []))
  = [4096; 4608; 5120]
  /\ sent 0 0 (events (sdcard_read single_block_build hw_ok 100 3 4096 4%nat []))
     = [(17, 100); (17, 101); (17, 102)].
Proof.
  assert (sdcard_read single_block_build hw_ok 100 3 4096 4%nat []
          = Done tt (events (sdcard_read single_block_build hw_ok 100 3 4096
                               4%nat []))) as Hrun
      by (vm_compute; reflexivity).
  assert (0 <= 100 < 2 ^ 32) as Hb by (split; [lia | reflexivity]).
  assert (0 <= 3 < 2 ^ 32) as Hc by (split; [lia | reflexivity]).
  destruct (read_pass_by_pass single_block_build hw_ok 100 3 4096 4%nat [] _
              Hb Hc Hrun) as [Hbase Hsent].
  split.
  - exact Hbase.
  - apply Hsent. intros h. split; reflexivity.
Defined.



(** X10. The write loop, pass by pass, for a 32-bit block address and count.
    A write that returns has programmed the DMA base addresses of its
    passes: buf alone with the multi-block command, else buf, buf + 512, ...
    When no command fails, the commands it has sent are exactly those of the
    passes, in order: per pass SET_BLOCK_COUNT (when enabled),
    WRITE_SINGLE_BLOCK or WRITE_MULTIPLE_BLOCK at the block address of the
    pass, and STOP_TRANSMISSION after more than one block. *)
Theorem write_pass_by_pass (cfg : build) (hw : list event -> csr -> Z)
  (block count buf : Z) (fuel : nat) (h d : list event) :
  0 <= block < 2 ^ 32 -> 0 <= count < 2 ^ 32 ->
  sdcard_write cfg hw block count buf fuel h = Done tt d ->
  written SDCARD_MEM2BLOCK_DMA_BASE d
  = map snd (pass_states (SDCARD_CMD25_SUPPORT cfg) block count buf)
  /\ (cmd_never_fails hw ->
      forall a c,
        sent a c d
        = flat_map (pass_commands (SDCARD_CMD23_SUPPORT cfg)
                                  (SDCARD_CMD25_SUPPORT cfg) 24 25)
                   (pass_states (SDCARD_CMD25_SUPPORT cfg) block count buf)).
Proof.
  intros Hb Hc H.
  destruct (write_passes cfg hw block count buf fuel h d Hb Hc H)
    as (ds & -> & Hds).
  split.
  - rewrite written_concat.
    rewrite <- flat_map_singleton. apply flat_map_Forall2.
    eapply Forall2_impl; [|exact Hds].
    intros [[blk cnt] bf] dp (_ & Hcnt & fuel' & h' & r & Hdp).
    now destruct (write_pass_written cfg hw _ _ _ _ _ _ _ (proj1 Hcnt) Hdp)
      as (_ & _ & ?).
  - intros Hok a c.
    apply sent_concat. eapply Forall2_impl; [|exact Hds].
    intros [[blk cnt] bf] dp (_ & Hcnt & fuel' & h' & r & Hdp).
    eapply write_pass_sent; [exact Hok | | exact Hdp]. lia.
Qed.

(** write(buffer, 100, 10) with the multi-block command: one pass from the
    buffer, WRITE_MULTIPLE_BLOCK at block 100, then STOP_TRANSMISSION. *)
Lemma write_pass_by_pass_witness :
  written SDCARD_MEM2BLOCK_DMA_BASE
          (events (sdcard_write sample_build hw_ok 100 10 4096 2%nat []))
  = [4096]
  /\ sent 0 0 (events (sdcard_write sample_build hw_ok 100 10 4096 2%nat []))
     = [(25, 100); (12, 0)].
Proof.
  assert (sdcard_write sample_build hw_ok 100 10 4096 2%nat []
          = Done tt (events (sdcard_write sample_build hw_ok 100 10 4096
                               2%nat []))) as Hrun
      by (vm_compute; reflexivity).
  assert (0 <= 100 < 2 ^ 32) as Hb by (split; [lia | reflexivity]).
  assert (0 <= 10 < 2 ^ 32) as Hc by (split; [lia | reflexivity]).
  destruct (write_pass_by_pass sample_build hw_ok 100 10 4096 2%nat [] _
              Hb Hc Hrun) as [Hbase Hsent].
  split.
  - exact Hbase.
  - apply Hsent. intros h. split; reflexivity.
Defined.

(** ** The order of the bring-up *)

Section InitOrder.

Variable cfg : build.
Variable hw : list event -> csr -> Z.



End InitOrder.





(** ** The commands of the bring-up *)

Lemma not_a_write_no_command_write d :
  Forall not_a_write d -> Forall (fun e => is_command_write e = false) d.
Proof. apply Forall_impl. intros []; simpl; try reflexivity; contradiction. Qed.

Section StepsSent.

Variable cfg : build.
Variable hw : list event -> csr -> Z.

Lemma send_command_sent arg cmd rsp fuel h r d :
  sdcard_send_command hw arg cmd rsp fuel h = Done r d ->
  forall a c, sent a c d = [(u8 cmd, u32 arg)].
Proof.
  intros H ra rc. apply send_command_Done_shape in H.
  destruct H as (ev & q & -> & Hq & _).
  rewrite sent_cmd_writes. now rewrite sent_no_write.
Qed.

(** A retry loop that returns has sent its command at least once, and
    nothing else. *)
Lemma retry_command_sent arg cmd rsp fuel h d :
  retry_command hw arg cmd rsp fuel h = Done tt d ->
  exists k, (1 <= k)%nat /\ forall a c, sent a c d = repeat (u8 cmd, u32 arg) k.
Proof.
  unfold retry_command, while_, iter. generalize fuel at 1. intros n.
  revert h d. induction n as [|n IH]; intros h d H; [discriminate|].
  cbn [iter_fuel] in H.
  apply bind_Done_inv in H. destruct H as (x & d1 & d2 & Hb & Hrest & ->).
  apply bind_Done_inv in Hb. destruct Hb as (b & d3 & d4 & Hc & Hx & ->).
  apply bind_Done_inv in Hc. destruct Hc as (r & d5 & d6 & Hs & Hr & ->).
  apply ret_Done in Hr. destruct Hr as [_ ->].
  apply ret_Done in Hx. destruct Hx as [-> ->].
  pose proof (send_command_sent _ _ _ _ _ _ _ Hs) as Hsent.
  rewrite !app_nil_r. destruct b.
  - apply IH in Hrest. destruct Hrest as (k & Hk & Hd2).
    exists (S k). split; [lia|]. intros ra rc.
    now rewrite sent_app, Hsent, Hd2.
  - apply ret_Done in Hrest. destruct Hrest as [_ ->].
    exists 1%nat. split; [lia|]. intros ra rc. now rewrite app_nil_r, Hsent.
Qed.

Lemma wait_data_done_sent fuel h r d :
  sdcard_wait_data_done hw fuel h = Done r d -> forall a c, sent a c d = [].
Proof.
  intros H ra rc. apply sent_no_write.
  eapply all_events_Done; [|exact H]. apply wait_data_done_writes_nothing.
Qed.

(** The attempts of the idle handshake: GO_IDLE, each with argument 0. *)
Lemma go_idle_loop_sent timeout :
  forall fuel h t d,
    go_idle_loop cfg hw timeout fuel h = Done t d -> t <> O ->
    exists k, (1 <= k <= timeout)%nat
              /\ forall a c, sent a c d = repeat (0, 0) k.
Proof.
  induction timeout as [|n IH]; intros fuel h t d H Ht.
  - cbn [go_idle_loop] in H. apply ret_Done in H. destruct H as [H _].
    congruence.
  - rewrite go_idle_loop_S in H.
    apply bind_Done_inv in H. destruct H as (u1 & di & dr & Hi & H & ->).
    apply bind_Done_inv in H. destruct H as (u2 & dw & dr' & Hw & H & ->).
    apply bind_Done_inv in H. destruct H as (x0 & d0 & dl & H0 & H & ->).
    apply csr_write_Done in Hi. subst di. injection Hw as _ <-.
    unfold sdcard_go_idle in H0.
    pose proof (send_command_sent _ _ _ _ _ _ _ H0) as Hsent.
    destruct (is_SD_OK x0).
    + apply ret_Done in H. destruct H as [_ ->].
      exists 1%nat. split; [lia|]. intros ra rc. cbn [app sent].
      now rewrite app_nil_r, Hsent.
    + apply bind_Done_inv in H. destruct H as (u3 & dw & dn & Hw & H & ->).
      injection Hw as _ <-.
      apply IH in H; [|assumption]. destruct H as (k & Hk & Hd).
      exists (S k). split; [lia|]. intros ra rc. cbn [app sent].
      rewrite sent_app, Hsent. cbn [app sent repeat]. now rewrite Hd.
Qed.

End StepsSent.

Section DataStepsSent.

Variable cfg : build.
Variable hw : list event -> csr -> Z.

(** A data-bearing command function: the block geometry, the retried
    command, the data wait. *)
Lemma data_command_sent len cnt arg cmd rsp fuel h r d :
  (csr_write SDCARD_CORE_BLOCK_LENGTH len ;;
   csr_write SDCARD_CORE_BLOCK_COUNT cnt ;;
   retry_command hw arg cmd rsp ;;
   sdcard_wait_data_done hw) fuel h = Done r d ->
  exists k, (1 <= k)%nat
            /\ forall a c, sent a c d = repeat (u8 cmd, u32 arg) k.
Proof.
  intros H.
  apply bind_Done_inv in H. destruct H as (u1 & d1 & dr1 & H1 & H & ->).
  apply bind_Done_inv in H. destruct H as (u2 & d2 & dr2 & H2 & H & ->).
  apply bind_Done_inv in H. destruct H as ([] & d3 & d4 & H3 & H4 & ->).
  apply csr_write_Done in H1, H2. subst d1 d2.
  apply retry_command_sent in H3. destruct H3 as (k & Hk & Hd3).
  pose proof (wait_data_done_sent hw _ _ _ _ H4) as Hd4.
  exists k. split; [exact Hk|]. intros ra rc. cbn [app sent].
  now rewrite sent_app, Hd3, Hd4, app_nil_r.
Qed.

Lemma switch_sent mode group value fuel h r d :
  sdcard_switch cfg hw mode group value fuel h = Done r d ->
  exists k, (1 <= k)%nat
            /\ forall a c,
                sent a c d
                = repeat (6, u32 (switch_argument mode group value)) k.
Proof. unfold sdcard_switch. apply data_command_sent. Qed.

Lemma app_send_scr_sent fuel h r d :
  sdcard_app_send_scr cfg hw fuel h = Done r d ->
  exists k, (1 <= k)%nat /\ forall a c, sent a c d = repeat (51, 0) k.
Proof. unfold sdcard_app_send_scr. apply data_command_sent. Qed.

End DataStepsSent.

(** The run of [sdcard_decode_rca]: the four response words read, and the
    upper half of word 3 returned. *)
Lemma decode_rca_Done (hw : list event -> csr -> Z) fuel h rca d :
  sdcard_decode_rca hw fuel h = Done rca d ->
  exists r0 r1 r2 r3,
    d = [CsrRead (SDCARD_CORE_CMD_RESPONSE 0) r0;
         CsrRead (SDCARD_CORE_CMD_RESPONSE 1) r1;
         CsrRead (SDCARD_CORE_CMD_RESPONSE 2) r2;
         CsrRead (SDCARD_CORE_CMD_RESPONSE 3) r3]
    /\ r3 = u32 (hw (h ++ [CsrRead (SDCARD_CORE_CMD_RESPONSE 0) r0;
                           CsrRead (SDCARD_CORE_CMD_RESPONSE 1) r1;
                           CsrRead (SDCARD_CORE_CMD_RESPONSE 2) r2])
                    (SDCARD_CORE_CMD_RESPONSE 3))
    /\ rca = r3 / 2 ^ 16.
Proof.
  unfold sdcard_decode_rca, csr_rd_buf_uint32_response, bind, csr_read, ret.
  cbn [app].
  set (r0 := u32 (hw h (SDCARD_CORE_CMD_RESPONSE 0))).
  set (r1 := u32 (hw (h ++ [CsrRead (SDCARD_CORE_CMD_RESPONSE 0) r0]) _)).
  set (r2 := u32 (hw ((h ++ [CsrRead (SDCARD_CORE_CMD_RESPONSE 0) r0])
                        ++ [CsrRead (SDCARD_CORE_CMD_RESPONSE 1) r1]) _)).
  set (r3 := u32 (hw _ (SDCARD_CORE_CMD_RESPONSE 3))).
  intros [= <- <-]. exists r0, r1, r2, r3.
  split; [reflexivity|]. split.
  { subst r3 r2 r1. rewrite <- !app_assoc. reflexivity. }
  assert (0 <= r3 < 2 ^ 32) as Hr3 by apply u32_range.
  rewrite Z.shiftr_div_pow2 by lia.
  change 65535 with (Z.ones 16). rewrite land_low_bits by lia.
  unfold u16. rewrite Z.mod_mod by (change (2 ^ 16) with 65536; lia).
  apply Z.mod_small. change (2 ^ 32) with (2 ^ 16 * 2 ^ 16) in Hr3.
  split; [apply Z.div_pos; lia|].
  apply Z.div_lt_upper_bound; lia.
Qed.

(** The argument of a command addressed by the RCA: the RCA in the upper
    half. *)
Lemma rca_argument r3 :
  0 <= r3 < 2 ^ 32 ->
  u32 (Z.shiftl (u16 (r3 / 2 ^ 16)) 16) = r3 / 2 ^ 16 * 2 ^ 16.
Proof.
  intros Hr3.
  assert (0 <= r3 / 2 ^ 16 < 2 ^ 16) as Hrca.
  { change (2 ^ 32) with (2 ^ 16 * 2 ^ 16) in Hr3.
    split; [apply Z.div_pos; lia|]. apply Z.div_lt_upper_bound; lia. }
  unfold u16. rewrite (Z.mod_small _ _ Hrca).
  rewrite Z.shiftl_mul_pow2 by lia. apply u32_small.
  change (2 ^ 32) with (2 ^ 16 * 2 ^ 16). change (2 ^ 16) with 65536 in *.
  nia.
Qed.

(** Inverts a run of [sdcard_init] that returns nonzero, step by step. *)
Ltac init_steps H :=
  repeat first
    [ progress bind_inv H
    | progress unfold ok_or_0 in H
    | match type of H with
      | (if ?c then _ else _) _ _ = Done _ _ =>
          let E := fresh "E" in
          destruct c eqn:E;
          try (apply ret_Done in H; destruct H as [H _]; contradiction)
      end ].

(** Splits a concatenation at the piece [dr]. *)
Ltac split_at dr t :=
  lazymatch t with
  | dr ++ ?post => constr:((@nil event, post))
  | ?x ++ dr ++ ?post => constr:((x, post))
  | ?x ++ ?rest =>
      let p := split_at dr rest in
      lazymatch p with (?pre, ?post) => constr:((x ++ pre, post)) end
  end.

(** ** The negotiation of the operating conditions runs out *)

Section OcrExhausted.

Variable cfg : build.
Variable hw : list event -> csr -> Z.

(** Every command completes without error. *)
Hypothesis always_ok :
  forall h, exists ev d,
    cmd_done_after hw h ev d
    /\ Z.testbit ev 2 = false /\ Z.testbit ev 3 = false.

(** The card never reports ready. *)
Hypothesis never_ready :
  forall h, Z.testbit (u32 (hw h (SDCARD_CORE_CMD_RESPONSE 3))) 31 = false.

Lemma send_command_ok arg cmd rsp h :
  exists d,
    returns (sdcard_send_command hw arg cmd rsp) h SD_OK d
    /\ forall a c, sent a c d = [(u8 cmd, u32 arg)].
Proof.
  destruct (always_ok (h ++ cmd_writes arg cmd rsp)) as (ev & q & Hfd & H2 & H3).
  exists (cmd_writes arg cmd rsp ++ q). split.
  - replace SD_OK with (flags_result ev)
      by (unfold flags_result; now rewrite H2, H3).
    now apply send_command_returns.
  - intros ra rc. rewrite sent_cmd_writes, sent_no_write; [reflexivity|].
    eapply cmd_polls_no_write, Hfd.
Qed.

(** The loop runs out its budget: [timeout] rounds of APP_CMD and
    APP_SEND_OP_COND. *)
Lemma op_cond_loop_exhausts timeout :
  forall h, exists d,
    returns (op_cond_loop cfg hw timeout) h O d
    /\ forall a c,
        sent a c d = List.concat (repeat [(55, 0); (41, 0x70ff8000)] timeout).
Proof.
  induction timeout as [|t IH]; intros h.
  - exists []. split; [apply returns_ret | reflexivity].
  - destruct (send_command_ok (Z.shiftl (u16 0) 16) 55
                (SDCARD_CTRL_RESPONSE_SHORT cfg) h) as (d55 & H55 & S55).
    destruct (send_command_ok (Z.lor 0x10ff8000 0x60000000) 41
                (SDCARD_CTRL_RESPONSE_SHORT_BUSY cfg) (h ++ d55))
      as (d41 & H41 & S41).
    set (h2 := (h ++ d55) ++ d41).
    set (r0 := u32 (hw h2 (SDCARD_CORE_CMD_RESPONSE 0))).
    set (h3 := h2 ++ [CsrRead (SDCARD_CORE_CMD_RESPONSE 0) r0]).
    set (r1 := u32 (hw h3 (SDCARD_CORE_CMD_RESPONSE 1))).
    set (h4 := h3 ++ [CsrRead (SDCARD_CORE_CMD_RESPONSE 1) r1]).
    set (r2 := u32 (hw h4 (SDCARD_CORE_CMD_RESPONSE 2))).
    set (h5 := h4 ++ [CsrRead (SDCARD_CORE_CMD_RESPONSE 2) r2]).
    set (r3 := u32 (hw h5 (SDCARD_CORE_CMD_RESPONSE 3))).
    set (drd := [CsrRead (SDCARD_CORE_CMD_RESPONSE 0) r0;
                 CsrRead (SDCARD_CORE_CMD_RESPONSE 1) r1;
                 CsrRead (SDCARD_CORE_CMD_RESPONSE 2) r2;
                 CsrRead (SDCARD_CORE_CMD_RESPONSE 3) r3]).
    destruct (IH ((h2 ++ drd) ++ [BusyWait 1])) as (d' & Hd' & Sd').
    exists (d55 ++ d41 ++ drd ++ [BusyWait 1] ++ d'). split.
    + cbn [op_cond_loop].
      eapply returns_bind; [exact H55|].
      eapply returns_bind; [exact H41|]. cbn [is_SD_OK].
      eapply returns_bind with (a := (r0, r1, r2, r3)).
      { exists O. intros fuel _. reflexivity. }
      cbv beta iota.
      change 2147483648 with (2 ^ 31).
      rewrite land_pow2_eqb by lia. unfold r3 at 1. rewrite never_ready.
      cbn [negb].
      eapply returns_bind; [exists O; reflexivity | exact Hd'].
    + intros ra rc. rewrite !sent_app, S55, S41, Sd'. reflexivity.
Qed.

(** The bring-up gives up after the negotiation. *)
Lemma init_ocr_exhausted h :
  exists d,
    returns (sdcard_init cfg hw) h 0 d
    /\ forall a c,
        sent a c d
        = [(0, 0); (8, 0x1aa)]
          ++ List.concat (repeat [(55, 0); (41, 0x70ff8000)] 1000).
Proof.
  set (v := programmed_divider cfg (SDCARD_CLK_FREQ_INIT cfg)).
  set (v' := programmed_divider cfg (SDCARD_CLK_FREQ cfg)).
  set (h2 := (h ++ [CsrWrite SDCARD_PHY_CLOCKER_DIVIDER v]) ++ [BusyWait 1]).
  set (h4 := (h2 ++ [CsrWrite SDCARD_PHY_INIT_INITIALIZE 1])
             ++ [BusyWait 1]).
  destruct (send_command_ok 0 0 (SDCARD_CTRL_RESPONSE_NONE cfg) h4)
    as (d0 & H0 & S0).
  set (di := [CsrWrite SDCARD_PHY_INIT_INITIALIZE 1] ++ [BusyWait 1]
             ++ d0 ++ []).
  destruct (send_command_ok 0x1aa 8 (SDCARD_CTRL_RESPONSE_SHORT cfg)
              (h2 ++ di)) as (d8 & H8 & S8).
  set (h6 := (((h2 ++ di) ++ d8)
              ++ [CsrWrite SDCARD_PHY_CLOCKER_DIVIDER v']) ++ [BusyWait 1]).
  destruct (op_cond_loop_exhausts 1000 h6) as (d41 & H41 & S41).
  exists ([CsrWrite SDCARD_PHY_CLOCKER_DIVIDER v] ++ [BusyWait 1] ++ di
          ++ d8 ++ [CsrWrite SDCARD_PHY_CLOCKER_DIVIDER v'] ++ [BusyWait 1]
          ++ d41 ++ []).
  split.
  - unfold sdcard_init.
    eapply returns_bind.
    { exists O. intros fuel _. apply set_clk_freq_quiet_eq. }
    eapply returns_bind; [exists O; reflexivity|].
    eapply returns_bind.
    { rewrite go_idle_loop_S.
      eapply returns_bind; [exists O; reflexivity|].
      eapply returns_bind; [exists O; reflexivity|].
      eapply returns_bind; [exact H0|]. cbn [is_SD_OK]. apply returns_ret. }
    cbv beta. change (Nat.eqb 1000 0) with false. cbv iota.
    unfold ok_or_0 at 1.
    eapply returns_bind; [exact H8|]. cbn [is_SD_OK].
    eapply returns_bind.
    { exists O. intros fuel _. apply set_clk_freq_quiet_eq. }
    eapply returns_bind; [exists O; reflexivity|].
    eapply returns_bind; [exact H41|].
    apply returns_ret.
  - intros ra rc. unfold di. rewrite !app_nil_r.
    repeat first [ rewrite S0 | rewrite S8 | rewrite S41 | rewrite sent_app
                 | progress cbn [app sent] ].
    reflexivity.
Qed.

End OcrExhausted.

(** X13. The budget of the negotiation of the operating conditions.  When
    every command completes without error but the card never reports ready
    (bit 31 of response word 3 stays clear), [sdcard_init] returns 0 after
    exactly 1000 rounds of APP_CMD and APP_SEND_OP_COND: it has sent GO_IDLE
    once, SEND_EXT_CSD once, the 1000 rounds, and no other command. *)
Theorem ocr_negotiation_budget (cfg : build) (hw : list event -> csr -> Z)
  (h : list event) :
  (forall h', exists ev d,
      cmd_done_after hw h' ev d
      /\ Z.testbit ev 2 = false /\ Z.testbit ev 3 = false) ->
  (forall h', Z.testbit (u32 (hw h' (SDCARD_CORE_CMD_RESPONSE 3))) 31 = false) ->
  exists d,
    returns (sdcard_init cfg hw) h 0 d
    /\ forall a c,
        sent a c d
        = [(0, 0); (8, 0x1aa)]
          ++ List.concat (repeat [(55, 0); (41, 0x70ff8000)] 1000).
Proof. intros Hok Hbusy. now apply init_ocr_exhausted. Qed.

(** A card that answers every command but stays busy. *)
Lemma ocr_negotiation_budget_witness :
  exists d,
    returns (sdcard_init sample_build hw_never_ready) [] 0 d
    /\ forall a c,
        sent a c d
        = [(0, 0); (8, 0x1aa)]
          ++ List.concat (repeat [(55, 0); (41, 0x70ff8000)] 1000).
Proof.
  apply (ocr_negotiation_budget sample_build hw_never_ready []).
  - intros h'. exists 1, [CsrRead SDCARD_CORE_CMD_EVENT 1; BusyWaitUs 10].
    split; [|split; reflexivity]. apply first_done_now; reflexivity.
  - intros h'. reflexivity.
Defined.

(** ** Retry loops without a bound *)

Lemma bind_never_l {A B} (m : M A) (k : A -> M B) fuel h :
  (exists d, m fuel h = OutOfFuel d) ->
  exists d, bind m k fuel h = OutOfFuel d.
Proof. intros [d H]. exists d. unfold bind. now rewrite H. Qed.

Lemma bind_never_r {A B} (m : M A) (k : A -> M B) fuel h :
  (forall a h', exists d, k a fuel h' = OutOfFuel d) ->
  exists d, bind m k fuel h = OutOfFuel d.
Proof.
  intros H. unfold bind. destruct (m fuel h) as [a d|d]; [|eauto].
  destruct (H a (h ++ d)) as [d' ->]. eauto.
Qed.

Section FailingCard.

Variable cfg : build.
Variable hw : list event -> csr -> Z.
Hypothesis Hfail : cmd_always_fails hw.

Lemma send_command_not_ok arg cmd rsp fuel h r d :
  sdcard_send_command hw arg cmd rsp fuel h = Done r d -> is_SD_OK r = false.
Proof.
  intros H. apply send_command_Done_shape in H.
  destruct H as (ev & q & _ & _ & -> & h' & ->).
  unfold flags_result. destruct (Hfail h') as [-> | H3]; [reflexivity|].
  rewrite H3. now destruct (Z.testbit _ 2).
Qed.

(** The retry loop never ends. *)
Lemma retry_command_never arg cmd rsp fuel h :
  exists d, retry_command hw arg cmd rsp fuel h = OutOfFuel d.
Proof.
  unfold retry_command, while_, iter. generalize fuel at 1. intros n.
  revert h. induction n as [|n IH]; intros h; [now exists []|].
  cbn [iter_fuel].
  set (loop := iter_fuel _ n) in *.
  destruct (sdcard_send_command hw arg cmd rsp fuel h) as [r d1|d1] eqn:E.
  - pose proof (send_command_not_ok _ _ _ _ _ _ _ E) as Hr.
    destruct (IH (h ++ (d1 ++ []) ++ [])) as [d' Hd'].
    exists (((d1 ++ []) ++ []) ++ d'). unfold bind. rewrite E.
    cbn [ret]. rewrite Hr. cbn [negb]. now rewrite Hd'.
  - exists d1. unfold bind. now rewrite E.
Qed.

Ltac never_returns :=
  repeat first
    [ apply bind_never_l; solve [apply retry_command_never]
    | apply bind_never_r; intros ? ? ].

Lemma read_body_never block count buf fuel h :
  count <> 0 ->
  exists d, sdcard_read_body cfg hw (block, count, buf) fuel h = OutOfFuel d.
Proof.
  intros Hc. unfold sdcard_read_body.
  destruct (Z.eqb_spec count 0); [contradiction|].
  do 5 (apply bind_never_r; intros ? ?). apply bind_never_l.
  destruct (_ >? 1);
    unfold sdcard_read_multiple_block, sdcard_read_single_block;
    never_returns.
Qed.

Lemma write_body_never block count buf fuel h :
  count <> 0 ->
  exists d, sdcard_write_body cfg hw (block, count, buf) fuel h = OutOfFuel d.
Proof.
  intros Hc. unfold sdcard_write_body.
  destruct (Z.eqb_spec count 0); [contradiction|].
  do 5 (apply bind_never_r; intros ? ?). apply bind_never_l.
  destruct (_ >? 1);
    unfold sdcard_write_multiple_block, sdcard_write_single_block;
    never_returns.
Qed.

End FailingCard.

(** X14. The retry loops of the data commands have no bound: with a card
    that answers every command with an error (timeout or CRC flag), a read
    or a write of at least one block never returns. *)
Theorem transfer_hangs_on_failing_card (cfg : build)
  (hw : list event -> csr -> Z) (block count buf : Z) (h : list event) :
  cmd_always_fails hw -> count <> 0 ->
  diverges (sdcard_read cfg hw block count buf) h
  /\ diverges (sdcard_write cfg hw block count buf) h.
Proof.
  intros Hfail Hc. split; intros fuel.
  - unfold sdcard_read. apply bind_never_l. unfold iter.
    destruct fuel as [|n]; [now exists []|]. cbn [iter_fuel].
    apply bind_never_l. now apply read_body_never.
  - unfold sdcard_write, iter.
    destruct fuel as [|n]; [now exists []|]. cbn [iter_fuel].
    apply bind_never_l. now apply write_body_never.
Qed.

(** A card that times out on every command. *)
Lemma transfer_hangs_on_failing_card_witness :
  diverges (sdcard_read sample_build hw_timeout 100 1 4096) []
  /\ diverges (sdcard_write sample_build hw_timeout 100 1 4096) [].
Proof.
  apply (transfer_hangs_on_failing_card sample_build hw_timeout 100 1 4096 []).
  - intros h. left. reflexivity.
  - discriminate.
Defined.

(** ** What the bring-up touches and returns *)

(** X15. The bring-up, in finished and unfinished runs, emits only
    [init_event]s: it writes only the clock divider, the PHY initialize
    register (with 1), the PHY settings, the block geometry (length 64 or
    8, count 1) and the command registers, with no opcode outside 0, 8, 55,
    41, 2, 3, 10, 9, 7, 6, 51, 16; it reads only the command-event,
    data-event and response registers; it never touches a DMA engine and
    never flushes a cache.  When it returns, it returns 0 or 1. *)
Theorem bring_up_footprint (cfg : build) (hw : list event -> csr -> Z)
  (fuel : nat) (h : list event) :
  Forall init_event (events (sdcard_init cfg hw fuel h))
  /\ forall r d, sdcard_init cfg hw fuel h = Done r d -> r = 0 \/ r = 1.
Proof.
  split; [apply all_sdcard_init|].
  intros r d H. destruct (Z.eq_dec r 0) as [->|Hr]; [now left | right].
  now destruct (init_success cfg hw fuel h r d H Hr).
Qed.

(** ** The pace of the polling *)

(** The polls before the one that sees the done flag, by the values read. *)
Lemma first_done_rounds hw r td tb h ev d :
  first_done hw r td tb h ev d ->
  exists vs,
    d = flat_map (fun v => CsrRead r v :: tb) vs ++ CsrRead r ev :: td
    /\ Forall (fun v => Z.testbit v 0 = false) vs
    /\ Z.testbit ev 0 = true.
Proof.
  induction 1 as [h ev Hev Hbit | h v ev d Hv Hbit H IH].
  - exists []. repeat split; [constructor | exact Hbit].
  - destruct IH as (vs & -> & Hvs & Hev). exists (v :: vs).
    repeat split; [|constructor; assumption | exact Hev].
    cbn [flat_map app]. now rewrite <- app_assoc.
Qed.

(** X16. The pace of the two waits.  A command wait that returns has
    polled the command-event register in rounds of one read and one delay
    of 10 microseconds, the delay also after the read that finds the done
    flag; a data wait that returns has polled the data-event register with
    a delay of 10 microseconds after each read that finds the flag clear,
    and none after the last.  In both the done flag (bit 0) is clear in all
    values read but the last, and the result is taken from the flags of the
    last. *)
Theorem polling_pace (hw : list event -> csr -> Z) (fuel : nat)
  (h : list event) (r : sd_result) (d : list event) :
  (sdcard_wait_cmd_done hw fuel h = Done r d ->
   exists vs ev,
     d = flat_map (fun v => [CsrRead SDCARD_CORE_CMD_EVENT v; BusyWaitUs 10])
                  (vs ++ [ev])
     /\ Forall (fun v => Z.testbit v 0 = false) vs
     /\ Z.testbit ev 0 = true
     /\ r = flags_result ev)
  /\ (sdcard_wait_data_done hw fuel h = Done r d ->
      exists vs ev,
        d = flat_map (fun v => [CsrRead SDCARD_CORE_DATA_EVENT v;
                                BusyWaitUs 10]) vs
            ++ [CsrRead SDCARD_CORE_DATA_EVENT ev]
        /\ Forall (fun v => Z.testbit v 0 = false) vs
        /\ Z.testbit ev 0 = true
        /\ r = flags_result ev).
Proof.
  split; intros H.
  - apply wait_cmd_done_Done in H. destruct H as (ev & Hfd & ->).
    apply first_done_rounds in Hfd. destruct Hfd as (vs & -> & Hvs & Hev).
    exists vs, ev. repeat split; try assumption.
    now rewrite flat_map_app.
  - apply wait_data_done_Done in H. destruct H as (ev & Hfd & ->).
    apply first_done_rounds in Hfd. destruct Hfd as (vs & -> & Hvs & Hev).
    exists vs, ev. repeat split; assumption.
Qed.

(** On hardware that completes everything at once: one round. *)
Lemma polling_pace_witness :
  (exists vs ev,
      events (sdcard_wait_cmd_done hw_ok 1%nat [])
      = flat_map (fun v => [CsrRead SDCARD_CORE_CMD_EVENT v; BusyWaitUs 10])
                 (vs ++ [ev])
      /\ Forall (fun v => Z.testbit v 0 = false) vs
      /\ Z.testbit ev 0 = true
      /\ SD_OK = flags_result ev).
Proof.
  apply (proj1 (polling_pace hw_ok 1%nat [] SD_OK
                  (events (sdcard_wait_cmd_done hw_ok 1%nat [])))).
  vm_compute. reflexivity.
Defined.

(** ** The bring-up of a well-behaved card *)

Lemma yields_bind {A B} (m : M A) (k : A -> M B) a b :
  yields m a -> yields (k a) b -> yields (bind m k) b.
Proof.
  intros Hm Hk h. destruct (Hm h) as [d1 H1].
  destruct (Hk (h ++ d1)) as [d2 H2].
  exists (d1 ++ d2). eapply returns_bind; eauto.
Qed.

Lemma yields_bind_any {A B} (m : M A) (k : A -> M B) b :
  completes m -> (forall a, yields (k a) b) -> yields (bind m k) b.
Proof.
  intros Hm Hk h. destruct (Hm h) as (a & d1 & H1).
  destruct (Hk a (h ++ d1)) as [d2 H2].
  exists (d1 ++ d2). eapply returns_bind; eauto.
Qed.

Lemma yields_ret {A} (a : A) : yields (ret a) a.
Proof. intros h. exists []. apply returns_ret. Qed.

Lemma yields_csr_write r v : yields (csr_write r v) tt.
Proof. intros h. exists [CsrWrite r v], O. reflexivity. Qed.

Lemma yields_busy_wait ms : yields (busy_wait ms) tt.
Proof. intros h. exists [BusyWait ms], O. reflexivity. Qed.

Lemma yields_set_clk_freq cfg clk_freq :
  yields (sdcard_set_clk_freq cfg clk_freq 0) tt.
Proof.
  intros h. eexists. exists O. intros fuel _. apply set_clk_freq_quiet_eq.
Qed.

Section GoodCard.

Variable cfg : build.
Variable hw : list event -> csr -> Z.

(** Every command completes without error. *)
Hypothesis cmd_ok :
  forall h, exists ev d,
    cmd_done_after hw h ev d
    /\ Z.testbit ev 2 = false /\ Z.testbit ev 3 = false.

(** Every data phase completes without error. *)
Hypothesis data_ok :
  forall h, exists ev d,
    data_done_after hw h ev d
    /\ Z.testbit ev 2 = false /\ Z.testbit ev 3 = false.

(** The card reports ready. *)
Hypothesis ready :
  forall h, Z.testbit (u32 (hw h (SDCARD_CORE_CMD_RESPONSE 3))) 31 = true.

Lemma yields_send_command arg cmd rsp :
  yields (sdcard_send_command hw arg cmd rsp) SD_OK.
Proof.
  intros h.
  destruct (send_command_ok hw cmd_ok arg cmd rsp h) as (d & Hd & _). eauto.
Qed.

Lemma yields_retry_command arg cmd rsp :
  yields (retry_command hw arg cmd rsp) tt.
Proof.
  intros h. destruct (yields_send_command arg cmd rsp h) as [d Hd].
  exists ((d ++ []) ++ []).
  apply iter_returns_returns, iter_returns_break.
  eapply returns_bind.
  - eapply returns_bind; [exact Hd | apply returns_ret].
  - exists O. reflexivity.
Qed.

Lemma yields_wait_data_done : yields (sdcard_wait_data_done hw) SD_OK.
Proof.
  intros h. destruct (data_ok h) as (ev & d & Hfd & H2 & H3).
  exists d. replace SD_OK with (flags_result ev)
    by (unfold flags_result; now rewrite H2, H3).
  now apply wait_data_done_returns.
Qed.

Lemma completes_decode_rca : completes (sdcard_decode_rca hw).
Proof. intros h. eexists _, _. exists O. intros fuel _. reflexivity. Qed.

(** The idle handshake succeeds at the first attempt. *)
Lemma yields_go_idle_loop n : yields (go_idle_loop cfg hw (S n)) (S n).
Proof.
  rewrite go_idle_loop_S.
  apply (yields_bind _ _ tt); [apply yields_csr_write|].
  apply (yields_bind _ _ tt); [apply yields_busy_wait|].
  apply (yields_bind _ _ SD_OK); [apply yields_send_command|].
  apply yields_ret.
Qed.

(** The negotiation succeeds in the first round. *)
Lemma yields_op_cond_loop n : yields (op_cond_loop cfg hw (S n)) (S n).
Proof.
  cbn [op_cond_loop].
  apply (yields_bind _ _ SD_OK); [apply yields_send_command|].
  apply (yields_bind _ _ SD_OK); [apply yields_send_command|].
  cbn [is_SD_OK]. intros h.
  set (r0 := u32 (hw h (SDCARD_CORE_CMD_RESPONSE 0))).
  set (h3 := h ++ [CsrRead (SDCARD_CORE_CMD_RESPONSE 0) r0]).
  set (r1 := u32 (hw h3 (SDCARD_CORE_CMD_RESPONSE 1))).
  set (h4 := h3 ++ [CsrRead (SDCARD_CORE_CMD_RESPONSE 1) r1]).
  set (r2 := u32 (hw h4 (SDCARD_CORE_CMD_RESPONSE 2))).
  set (h5 := h4 ++ [CsrRead (SDCARD_CORE_CMD_RESPONSE 2) r2]).
  set (r3 := u32 (hw h5 (SDCARD_CORE_CMD_RESPONSE 3))).
  eexists. eapply returns_bind with (a := (r0, r1, r2, r3)).
  { exists O. intros fuel _. reflexivity. }
  cbv beta iota. change 2147483648 with (2 ^ 31).
  rewrite land_pow2_eqb by lia. unfold r3 at 1. rewrite ready.
  cbn [negb]. apply returns_ret.
Qed.

Lemma yields_data_command len cnt arg cmd rsp :
  yields (csr_write SDCARD_CORE_BLOCK_LENGTH len ;;
          csr_write SDCARD_CORE_BLOCK_COUNT cnt ;;
          retry_command hw arg cmd rsp ;;
          sdcard_wait_data_done hw) SD_OK.
Proof.
  apply (yields_bind _ _ tt); [apply yields_csr_write|].
  apply (yields_bind _ _ tt); [apply yields_csr_write|].
  apply (yields_bind _ _ tt); [apply yields_retry_command|].
  apply yields_wait_data_done.
Qed.

Lemma yields_ok_or_0 c rest b :
  yields c SD_OK -> yields rest b -> yields (ok_or_0 c rest) b.
Proof. intros Hc Hr. unfold ok_or_0. now apply (yields_bind _ _ SD_OK). Qed.

(** The bring-up succeeds. *)
Lemma yields_sdcard_init : yields (sdcard_init cfg hw) 1.
Proof.
  unfold sdcard_init.
  apply (yields_bind _ _ tt); [apply yields_set_clk_freq|].
  apply (yields_bind _ _ tt); [apply yields_busy_wait|].
  apply (yields_bind _ _ 1000%nat); [apply yields_go_idle_loop|].
  change (Nat.eqb 1000 0) with false. cbv iota.
  unfold sdcard_send_ext_csd, sdcard_all_send_cid,
    sdcard_set_relative_address, sdcard_send_cid, sdcard_send_csd,
    sdcard_select_card, sdcard_app_cmd, sdcard_app_set_bus_width,
    sdcard_app_set_blocklen, sdcard_switch, sdcard_app_send_scr.
  apply yields_ok_or_0; [apply yields_send_command|].
  apply (yields_bind _ _ tt); [apply yields_set_clk_freq|].
  apply (yields_bind _ _ tt); [apply yields_busy_wait|].
  apply (yields_bind _ _ 1000%nat); [apply yields_op_cond_loop|].
  change (Nat.eqb 1000 0) with false. cbv iota.
  apply yields_ok_or_0; [apply yields_send_command|].
  apply yields_ok_or_0; [apply yields_send_command|].
  apply yields_bind_any; [apply completes_decode_rca|]. intros rca.
  repeat first
    [ apply yields_ok_or_0;
      [first [apply yields_send_command | apply yields_data_command]|]
    | apply (yields_bind _ _ tt); [apply yields_csr_write|]
    | apply yields_ret ].
Qed.

End GoodCard.

(** X17. The bring-up of a well-behaved card.  When every command and every
    data phase completes without error and the card reports ready (bit 31 of
    response word 3), [sdcard_init] returns 1 after every history, and
    [sd_disk_initialize] on drive 0 takes the adapter from a not-initialized
    status to Ready (0). *)
Theorem bring_up_succeeds (cfg : build) (hw : list event -> csr -> Z)
  (s : Z) (h : list event) :
  (forall h', exists ev d,
      cmd_done_after hw h' ev d
      /\ Z.testbit ev 2 = false /\ Z.testbit ev 3 = false) ->
  (forall h', exists ev d,
      data_done_after hw h' ev d
      /\ Z.testbit ev 2 = false /\ Z.testbit ev 3 = false) ->
  (forall h', Z.testbit (u32 (hw h' (SDCARD_CORE_CMD_RESPONSE 3))) 31 = true) ->
  s <> 0 ->
  (exists d, returns (sdcard_init cfg hw) h 1 d)
  /\ (exists d, returns (sd_disk_initialize cfg hw 0 s) h (0, 0) d).
Proof.
  intros Hcmd Hdata Hready Hs.
  destruct (yields_sdcard_init cfg hw Hcmd Hdata Hready h) as [d Hd].
  split; [now exists d|]. exists (d ++ []).
  unfold sd_disk_initialize. cbn [Z.eqb negb].
  destruct (Z.eqb_spec s 0); [contradiction|]. cbn [negb].
  eapply returns_bind; [exact Hd|]. apply returns_ret.
Qed.

(** Hardware that completes everything at once, from the initial status. *)
Lemma bring_up_succeeds_witness :
  (exists d, returns (sdcard_init sample_build hw_ok) [] 1 d)
  /\ (exists d, returns (sd_disk_initialize sample_build hw_ok 0 1) [] (0, 0) d).
Proof.
  apply (bring_up_succeeds sample_build hw_ok 1 []).
  - intros h'. exists 1, [CsrRead SDCARD_CORE_CMD_EVENT 1; BusyWaitUs 10].
    split; [|split; reflexivity]. apply first_done_now; reflexivity.
  - intros h'. exists 1, [CsrRead SDCARD_CORE_DATA_EVENT 1].
    split; [|split; reflexivity]. apply first_done_now; reflexivity.
  - intros h'. reflexivity.
  - discriminate.
Defined.

(** * The runs of the driver, event by event *)

(** ** Runs of the commands *)

Lemma is_SD_OK_true r : is_SD_OK r = true -> r = SD_OK.
Proof. now destruct r. Qed.

Lemma is_SD_OK_false r : is_SD_OK r = false -> r <> SD_OK.
Proof. now destruct r. Qed.

Section Runs.

Variable hw : list event -> csr -> Z.

Lemma first_done_polled r td tb h ev d :
  first_done hw r td tb h ev d -> polled r td tb ev d.
Proof. intros H. apply first_done_rounds in H. exact H. Qed.

Lemma send_command_run arg cmd rsp fuel h r d :
  sdcard_send_command hw arg cmd rsp fuel h = Done r d ->
  command_run arg cmd rsp r d.
Proof.
  intros H. apply send_command_Done in H.
  destruct H as (ev & dp & -> & Hfd & ->).
  exists ev, dp. split; [reflexivity|]. split; [|reflexivity].
  eapply first_done_polled; exact Hfd.
Qed.

Lemma wait_data_done_run fuel h r d :
  sdcard_wait_data_done hw fuel h = Done r d -> data_wait_run r d.
Proof.
  intros H. apply wait_data_done_Done in H. destruct H as (ev & Hfd & ->).
  exists ev. split; [|reflexivity]. eapply first_done_polled; exact Hfd.
Qed.

Lemma dma_poll_polled r fuel h (u : unit) d :
  while_ (v <- csr_read hw r ;; ret (Z.land v 1 =? 0)) fuel h = Done u d ->
  dma_polled r d.
Proof.
  destruct u. intros H. apply dma_poll_Done in H. destruct H as (ev & Hfd).
  exists ev. eapply first_done_polled; exact Hfd.
Qed.

(** The retry loop: runs that fail, then the run that returns Ok. *)
Lemma retry_command_runs arg cmd rsp fuel h d :
  retry_command hw arg cmd rsp fuel h = Done tt d ->
  retried_until_ok arg cmd rsp d.
Proof.
  unfold retry_command, while_, iter. generalize fuel at 1. intros n.
  revert h d. induction n as [|n IH]; intros h d H; [discriminate|].
  cbn [iter_fuel] in H.
  apply bind_Done_inv in H. destruct H as (x & d1 & d2 & Hb & Hrest & ->).
  apply bind_Done_inv in Hb. destruct Hb as (b & d3 & d4 & Hc & Hx & ->).
  apply bind_Done_inv in Hc. destruct Hc as (r & d5 & d6 & Hs & Hr & ->).
  apply ret_Done in Hr. destruct Hr as [-> ->].
  apply ret_Done in Hx. destruct Hx as [-> ->].
  apply send_command_run in Hs.
  rewrite !app_nil_r. destruct (is_SD_OK r) eqn:E; cbn [negb] in Hrest.
  - apply ret_Done in Hrest. destruct Hrest as [_ ->].
    apply is_SD_OK_true in E. subst r.
    exists [], d5. rewrite app_nil_r. repeat split; [constructor | exact Hs].
  - apply IH in Hrest. destruct Hrest as (fs & dl & -> & Hfs & Hdl).
    apply is_SD_OK_false in E.
    exists (d5 :: fs), dl. cbn [List.concat]. rewrite <- app_assoc.
    repeat split; [|exact Hdl]. constructor; [|exact Hfs]. now exists r.
Qed.

End Runs.

(** The events of a run of a command are those of its opcode. *)
Lemma polled_events (P : event -> Prop) r td tb ev d :
  (forall v, P (CsrRead r v)) -> Forall P td -> Forall P tb ->
  polled r td tb ev d -> Forall P d.
Proof.
  intros Hr Htd Htb (vs & -> & _ & _). unfold poll_rounds.
  apply Forall_app. split.
  - apply Forall_flat_map. apply Forall_forall. intros v _.
    constructor; [apply Hr | exact Htb].
  - constructor; [apply Hr | exact Htd].
Qed.

Lemma command_run_events arg cmd rsp res d :
  command_run arg cmd rsp res d -> Forall (command_event (u8 cmd)) d.
Proof.
  intros (ev & dp & -> & Hp & _). apply Forall_app. split.
  - repeat constructor. cbn. apply command_opcode.
  - eapply polled_events; [| | |exact Hp]; repeat constructor.
Qed.

Lemma retried_events arg cmd rsp d :
  retried_until_ok arg cmd rsp d -> Forall (command_event (u8 cmd)) d.
Proof.
  intros (fs & dl & -> & Hfs & Hdl). apply Forall_app. split.
  - apply Forall_concat. eapply Forall_impl; [|exact Hfs].
    intros f (res & Hf & _). eapply command_run_events; exact Hf.
  - eapply command_run_events; exact Hdl.
Qed.

(** The argument of a run, up to 32 bits. *)
Lemma command_run_arg arg arg' cmd rsp res d :
  u32 arg = u32 arg' ->
  command_run arg cmd rsp res d -> command_run arg' cmd rsp res d.
Proof.
  intros E (ev & dp & -> & Hp & Hres). exists ev, dp.
  unfold cmd_writes. rewrite E. auto.
Qed.

(** ** The runs of a pass of the write loop *)

Section WritePassRuns.

Variable cfg : build.
Variable hw : list event -> csr -> Z.

Lemma set_block_count_run nblocks fuel h (u : unit) d :
  (if SDCARD_CMD23_SUPPORT cfg
   then sdcard_set_block_count cfg hw nblocks ;; ret tt else ret tt) fuel h
  = Done u d ->
  if SDCARD_CMD23_SUPPORT cfg
  then exists res,
      command_run nblocks 23 (SDCARD_CTRL_RESPONSE_SHORT cfg) res d
  else d = [].
Proof.
  intros H. destruct (SDCARD_CMD23_SUPPORT cfg).
  - bind_inv H. apply ret_Done in H. destruct H as [_ ->].
    rewrite app_nil_r. unfold sdcard_set_block_count in Hstep.
    apply send_command_run in Hstep. eauto.
  - apply ret_Done in H. now destruct H.
Qed.

Lemma stop_run nblocks fuel h (u : unit) d :
  (if nblocks >? 1 then sdcard_stop_transmission cfg hw ;; ret tt else ret tt)
    fuel h = Done u d ->
  if nblocks >? 1
  then exists res,
      command_run 0 12 (SDCARD_CTRL_RESPONSE_SHORT_BUSY cfg) res d
  else d = [].
Proof.
  intros H. destruct (nblocks >? 1).
  - bind_inv H. apply ret_Done in H. destruct H as [_ ->].
    rewrite app_nil_r. unfold sdcard_stop_transmission in Hstep.
    apply send_command_run in Hstep. eauto.
  - apply ret_Done in H. now destruct H.
Qed.

(** The events of a pass of the write loop that returns. *)
Lemma write_pass_run block count buf fuel h r d :
  0 < count ->
  sdcard_write_body cfg hw (block, count, buf) fuel h = Done r d ->
  write_pass cfg (block, count, buf) d.
Proof.
  intros Hc H. unfold write_pass. cbn [chunk].
  unfold sdcard_write_body in H.
  set (nblocks := if SDCARD_CMD25_SUPPORT cfg then count else 1) in *.
  destruct (Z.eqb_spec count 0); [lia|].
  bind_inv H. apply ret_Done in H. destruct H as [_ ->].
  apply csr_write_Done in Hstep, Hstep0, Hstep1, Hstep2. subst.
  apply set_block_count_run in Hstep3.
  apply write_block_step in Hstep4.
  destruct Hstep4 as (h' & dr & -> & Hr).
  apply retry_command_runs in Hr.
  apply stop_run in Hstep5.
  apply dma_poll_polled in Hstep6.
  exists d3, dr, d5, d6.
  assert ((if nblocks >? 1 then nblocks else 1) = nblocks) as Ebc.
  { destruct (Z.gtb_spec nblocks 1); [reflexivity|].
    subst nblocks. destruct (SDCARD_CMD25_SUPPORT cfg); lia. }
  rewrite Ebc.
  repeat split; auto.
  rewrite <- !app_assoc, app_nil_r. reflexivity.
Qed.

(** A write that returns: the runs of its passes. *)
Lemma write_pass_runs block count buf fuel h d :
  0 <= block < 2 ^ 32 -> 0 <= count < 2 ^ 32 ->
  sdcard_write cfg hw block count buf fuel h = Done tt d ->
  exists ds,
    d = List.concat ds
    /\ Forall2 (write_pass cfg)
               (pass_states (SDCARD_CMD25_SUPPORT cfg) block count buf) ds.
Proof.
  intros Hb Hc H.
  destruct (write_passes cfg hw block count buf fuel h d Hb Hc H)
    as (ds & -> & Hds).
  exists ds. split; [reflexivity|].
  eapply Forall2_impl; [|exact Hds].
  intros [[blk cnt] bf] dp (_ & Hcnt & fuel' & h' & r & Hdp).
  eapply write_pass_run; [|exact Hdp]. lia.
Qed.

End WritePassRuns.

Section WritePassOrder.

Variable cfg : build.
Variable hw : list event -> csr -> Z.

(** In a pass over more than one block, what comes before STOP_TRANSMISSION
    neither reads the DMA done flag nor is a STOP_TRANSMISSION. *)
Lemma write_pass_stop block count buf d :
  SDCARD_CMD25_SUPPORT cfg = true -> 1 < count ->
  write_pass cfg (block, count, buf) d ->
  exists pre ds dp res,
    d = pre ++ ds ++ dp
    /\ Forall (no_read_of SDCARD_MEM2BLOCK_DMA_DONE) pre
    /\ Forall (not_command 12) pre
    /\ command_run 0 12 (SDCARD_CTRL_RESPONSE_SHORT_BUSY cfg) res ds
    /\ dma_polled SDCARD_MEM2BLOCK_DMA_DONE dp.
Proof.
  intros H25 Hc. unfold write_pass. cbn [chunk]. rewrite H25.
  destruct (Z.gtb_spec count 1); [|lia].
  intros (d23 & dw & ds & dp & -> & H23 & Hw & (res & Hs) & Hp).
  apply retried_events in Hw.
  assert (Forall (command_event 23) d23) as Hd23.
  { destruct (SDCARD_CMD23_SUPPORT cfg).
    - destruct H23 as (res' & H23). apply command_run_events in H23.
      exact H23.
    - subst d23. constructor. }
  exists ([CsrWrite SDCARD_MEM2BLOCK_DMA_ENABLE 0;
           CsrWrite SDCARD_MEM2BLOCK_DMA_BASE buf;
           CsrWrite SDCARD_MEM2BLOCK_DMA_LENGTH (u32 (512 * count));
           CsrWrite SDCARD_MEM2BLOCK_DMA_ENABLE 1]
          ++ d23
          ++ [CsrWrite SDCARD_CORE_BLOCK_LENGTH 512;
              CsrWrite SDCARD_CORE_BLOCK_COUNT count]
          ++ dw), ds, dp, res.
  split; [now rewrite <- !app_assoc|].
  split; [|split; [|split; assumption]].
  - repeat (apply Forall_app; split); try (repeat constructor).
    + eapply Forall_impl; [|exact Hd23]. by_event.
    + eapply Forall_impl; [|exact Hw]. by_event.
  - repeat (apply Forall_app; split); try (repeat constructor).
    + eapply Forall_impl; [|exact Hd23]. by_event.
    + eapply Forall_impl; [|exact Hw]. by_event.
Qed.

(** A pass over more than one block, finished or not: up to the return of
    STOP_TRANSMISSION nothing reads the DMA done flag, and after it nothing
    is done but reading that flag. *)
Lemma write_body_stop_phases block count buf fuel h :
  SDCARD_CMD25_SUPPORT cfg = true -> 1 < count ->
  phases (no_read_of SDCARD_MEM2BLOCK_DMA_DONE)
         (fun e => is_read SDCARD_MEM2BLOCK_DMA_DONE e = true)
         (fun d1 => exists pre ds res,
              d1 = pre ++ ds
              /\ command_run 0 12 (SDCARD_CTRL_RESPONSE_SHORT_BUSY cfg) res ds)
         (events (sdcard_write_body cfg hw (block, count, buf) fuel h)).
Proof.
  intros H25 Hc. unfold sdcard_write_body. rewrite H25.
  destruct (Z.eqb_spec count 0); [lia|].
  destruct (Z.gtb_spec count 1); [|lia]. revert fuel h.
  assert (forall d0 d : list event,
             (exists pre ds res,
                 d = pre ++ ds
                 /\ command_run 0 12 (SDCARD_CTRL_RESPONSE_SHORT_BUSY cfg)
                      res ds) ->
             exists pre ds res,
               d0 ++ d = pre ++ ds
               /\ command_run 0 12 (SDCARD_CTRL_RESPONSE_SHORT_BUSY cfg)
                    res ds) as Hgrows.
  { intros d0 d (pre & ds & res & -> & Hds).
    exists (d0 ++ pre), ds, res. now rewrite app_assoc. }
  do 4 (apply phases_bind_l;
        [exact Hgrows | now apply all_csr_write | intros _]).
  apply phases_bind_l; [exact Hgrows | | intros _].
  { unfold sdcard_set_block_count. all_ev. by_event. }
  apply phases_bind_l; [exact Hgrows | | intros _].
  { unfold sdcard_write_multiple_block. all_ev; try reflexivity; by_event. }
  apply phases_bind_split.
  - unfold sdcard_stop_transmission. all_ev. by_event.
  - intros fuel h a d Hd. bind_inv Hd. injection Hd as _ <-.
    rewrite app_nil_r. unfold sdcard_stop_transmission in Hstep.
    apply send_command_run in Hstep. now exists [], d0, a0.
  - intros _. all_ev. reflexivity.
Qed.

End WritePassOrder.

(** C4. With multi-block write enabled, a write of more than one block (so
    write(buffer, 0, 4)) issues STOP_TRANSMISSION strictly before the polling
    of the memory-to-block DMA done flag.  In every run, finished or not, each
    read of that flag comes after the STOP_TRANSMISSION command: the run
    splits in a first phase without any read of the flag and a second phase
    of nothing but reads of the flag, and when the second phase has begun
    the first ends with a complete run of STOP_TRANSMISSION (its three
    register writes, the send included, and the polling of the command-event
    register until it shows done).  A run that returns is made of three
    stretches in this order: the stretch up to the return of the write
    command, which neither reads the DMA done flag nor holds a
    STOP_TRANSMISSION; the one run of STOP_TRANSMISSION; the polling of the
    DMA done flag up to the first read that shows done.  And the write does
    return when no failure persists ([responsive]). *)
Theorem write_stops_before_dma_poll (cfg : build)
  (hw : list event -> csr -> Z) (block count buf : Z) :
  SDCARD_CMD25_SUPPORT cfg = true -> 1 < count ->
  (forall fuel h,
      precedes (is_command 12) (is_read SDCARD_MEM2BLOCK_DMA_DONE)
               (events (sdcard_write cfg hw block count buf fuel h))
      /\ phases (no_read_of SDCARD_MEM2BLOCK_DMA_DONE)
                (fun e => is_read SDCARD_MEM2BLOCK_DMA_DONE e = true)
                (fun d1 => exists pre ds res,
                     d1 = pre ++ ds
                     /\ command_run 0 12
                          (SDCARD_CTRL_RESPONSE_SHORT_BUSY cfg) res ds)
                (events (sdcard_write cfg hw block count buf fuel h)))
  /\ (forall fuel h d,
         sdcard_write cfg hw block count buf fuel h = Done tt d ->
         exists pre ds dp res,
           d = pre ++ ds ++ dp
           /\ Forall (no_read_of SDCARD_MEM2BLOCK_DMA_DONE) pre
           /\ Forall (not_command 12) pre
           /\ command_run 0 12 (SDCARD_CTRL_RESPONSE_SHORT_BUSY cfg) res ds
           /\ dma_polled SDCARD_MEM2BLOCK_DMA_DONE dp)
  /\ (responsive hw -> count < 2 ^ 32 ->
      forall h, exists d, returns (sdcard_write cfg hw block count buf) h tt d).
Proof.
  intros H25 Hc. split; [|split].
  - intros fuel h. unfold sdcard_write, iter.
    destruct fuel as [|n]; [split; [now apply precedes_none|]|].
    { apply phases_nil. }
    rewrite write_one_pass by (auto; lia). split.
    + eapply phases_precedes, write_body_phases; auto.
    + now apply write_body_stop_phases.
  - intros fuel h d H. unfold sdcard_write, iter in H.
    destruct fuel as [|n]; [discriminate|].
    cbn [iter_fuel] in H. apply bind_Done_inv in H.
    destruct H as (r & d1 & d2 & Hbody & Hrest & ->).
    pose proof (@write_body_Done cfg hw _ _ _ _ _ _ _ Hbody ltac:(lia)) as ->.
    rewrite H25 in Hrest. replace (count - count) with 0 in Hrest by lia.
    change (u32 0) with 0 in Hrest.
    destruct n as [|n]; [discriminate|].
    cbn in Hrest. injection Hrest as <-. rewrite app_nil_r.
    apply write_pass_run in Hbody; [|lia].
    eapply write_pass_stop; eassumption.
  - intros Hhw Hlt h. apply write_returns; [assumption | lia].
Qed.

(** write(buffer, 0, 4) on hardware that completes everything at once: the
    run returns, and its events are the three stretches. *)
Lemma write_stops_before_dma_poll_witness :
  (exists pre ds dp res,
      events (sdcard_write sample_build hw_ok 0 4 4096 2%nat [])
      = pre ++ ds ++ dp
      /\ Forall (no_read_of SDCARD_MEM2BLOCK_DMA_DONE) pre
      /\ Forall (not_command 12) pre
      /\ command_run 0 12 (SDCARD_CTRL_RESPONSE_SHORT_BUSY sample_build) res ds
      /\ dma_polled SDCARD_MEM2BLOCK_DMA_DONE dp)
  /\ exists d, returns (sdcard_write sample_build hw_ok 0 4 4096) [] tt d.
Proof.
  assert (sdcard_write sample_build hw_ok 0 4 4096 2%nat []
          = Done tt (events (sdcard_write sample_build hw_ok 0 4 4096
                               2%nat []))) as Hrun
      by (vm_compute; reflexivity).
  destruct (write_stops_before_dma_poll sample_build hw_ok 0 4 4096
              eq_refl ltac:(lia)) as (_ & Hshape & Hret).
  split.
  - exact (Hshape 2%nat [] _ Hrun).
  - apply Hret; [exact hw_ok_responsive | reflexivity].
Defined.

Section WritePrefix.

Variable cfg : build.
Variable hw : list event -> csr -> Z.

(** With fuel left, a pass begins with the programming of the DMA engine and
    the first command. *)
Lemma write_body_begins block count buf fuel h :
  count <> 0 ->
  let nblocks := if SDCARD_CMD25_SUPPORT cfg then count else 1 in
  exists rest,
    events (sdcard_write_body cfg hw (block, count, buf) (S fuel) h)
    = [CsrWrite SDCARD_MEM2BLOCK_DMA_ENABLE 0;
       CsrWrite SDCARD_MEM2BLOCK_DMA_BASE buf;
       CsrWrite SDCARD_MEM2BLOCK_DMA_LENGTH (u32 (512 * nblocks));
       CsrWrite SDCARD_MEM2BLOCK_DMA_ENABLE 1]
      ++ (if SDCARD_CMD23_SUPPORT cfg
          then cmd_writes nblocks 23 (SDCARD_CTRL_RESPONSE_SHORT cfg)
          else [CsrWrite SDCARD_CORE_BLOCK_LENGTH 512;
                CsrWrite SDCARD_CORE_BLOCK_COUNT
                  (if nblocks >? 1 then nblocks else 1)]
               ++ cmd_writes block (if nblocks >? 1 then 25 else 24)
                    (data_rsp cfg (SDCARD_CTRL_DATA_TRANSFER_WRITE cfg)))
      ++ rest.
Proof.
  intros Hc nblocks.
  destruct (SDCARD_CMD23_SUPPORT cfg) eqn:H23.
  - unfold sdcard_write_body. rewrite H23. fold nblocks.
    destruct (Z.eqb_spec count 0); [contradiction|].
    rewrite !events_write_bind. rewrite events_bind, events_bind.
    unfold sdcard_set_block_count.
    match goal with
    | |- context [events (sdcard_send_command hw ?a ?c ?r ?f ?h')] =>
        destruct (send_command_events hw a c r f h') as [d' ->]
    end.
    cbn [app]. rewrite <- !app_assoc. cbn [app]. eauto.
  - destruct (@write_body_prefix cfg hw block count buf fuel h Hc H23)
      as [rest ->].
    fold nblocks. cbn [app]. eauto.
Qed.

End WritePrefix.

(** C3 (as the code has it). The write path mirrors steps 1 to 5 of the read
    algorithm with the memory-to-block DMA engine and has no step 6.  No run
    of [sdcard_write], finished or not, ever reads the data-event register.
    A write of a 32-bit block address and count that returns is made of one
    pass for each of [pass_states], and each pass is, in this order and with
    nothing else: the engine disabled, programmed with buffer and byte length
    and enabled; SET_BLOCK_COUNT when it is enabled in the build; block
    length 512 and the block count; the write command (CMD25 for more than
    one block, else CMD24) retried until it returns Ok; STOP_TRANSMISSION
    after more than one block; the polling of the DMA done flag.  With fuel
    left a run begins with the programming of the engine and the first
    command; and the write returns when no failure persists
    ([responsive]). *)
Theorem write_path_has_no_data_wait (cfg : build)
  (hw : list event -> csr -> Z) (block count buf : Z) :
  (forall fuel h,
      Forall (no_read_of SDCARD_CORE_DATA_EVENT)
             (events (sdcard_write cfg hw block count buf fuel h)))
  /\ (0 <= block < 2 ^ 32 -> 0 <= count < 2 ^ 32 ->
      forall fuel h d,
        sdcard_write cfg hw block count buf fuel h = Done tt d ->
        exists ds,
          d = List.concat ds
          /\ Forall2 (write_pass cfg)
                     (pass_states (SDCARD_CMD25_SUPPORT cfg) block count buf)
                     ds)
  /\ (count <> 0 ->
      forall fuel h,
        let nblocks := if SDCARD_CMD25_SUPPORT cfg then count else 1 in
        exists rest,
          events (sdcard_write cfg hw block count buf (S fuel) h)
          = [CsrWrite SDCARD_MEM2BLOCK_DMA_ENABLE 0;
             CsrWrite SDCARD_MEM2BLOCK_DMA_BASE buf;
             CsrWrite SDCARD_MEM2BLOCK_DMA_LENGTH (u32 (512 * nblocks));
             CsrWrite SDCARD_MEM2BLOCK_DMA_ENABLE 1]
            ++ (if SDCARD_CMD23_SUPPORT cfg
                then cmd_writes nblocks 23 (SDCARD_CTRL_RESPONSE_SHORT cfg)
                else [CsrWrite SDCARD_CORE_BLOCK_LENGTH 512;
                      CsrWrite SDCARD_CORE_BLOCK_COUNT
                        (if nblocks >? 1 then nblocks else 1)]
                     ++ cmd_writes block (if nblocks >? 1 then 25 else 24)
                          (data_rsp cfg
                             (SDCARD_CTRL_DATA_TRANSFER_WRITE cfg)))
            ++ rest)
  /\ (responsive hw -> 0 <= count < 2 ^ 32 ->
      forall h, exists d, returns (sdcard_write cfg hw block count buf) h tt d).
Proof.
  split; [|split; [|split]].
  - intros fuel h. revert fuel h. unfold sdcard_write. apply all_iter.
    apply write_body_no_data_wait.
  - intros Hb Hc fuel h d H. eapply write_pass_runs; eassumption.
  - intros Hc fuel h nblocks. unfold sdcard_write, iter. cbn [iter_fuel].
    rewrite events_bind.
    destruct (write_body_begins cfg hw block count buf fuel h Hc)
      as [rest ->].
    fold nblocks. rewrite <- !app_assoc. cbn [app].
    destruct (SDCARD_CMD23_SUPPORT cfg); rewrite <- ?app_assoc; cbn [app];
      eauto.
  - intros Hhw Hc h. now apply write_returns.
Qed.

(** write(buffer, 0, 4) on hardware that completes everything at once returns
    after one pass of the form above. *)
Lemma write_path_has_no_data_wait_witness :
  exists ds,
    events (sdcard_write sample_build hw_ok 0 4 4096 2%nat [])
    = List.concat ds
    /\ Forall2 (write_pass sample_build)
               (pass_states (SDCARD_CMD25_SUPPORT sample_build) 0 4 4096) ds.
Proof.
  assert (sdcard_write sample_build hw_ok 0 4 4096 2%nat []
          = Done tt (events (sdcard_write sample_build hw_ok 0 4 4096
                               2%nat []))) as Hrun
      by (vm_compute; reflexivity).
  assert (0 <= 0 < 2 ^ 32) as Hb by (split; [lia | reflexivity]).
  assert (0 <= 4 < 2 ^ 32) as Hc by (split; [lia | reflexivity]).
  exact (proj1 (proj2 (write_path_has_no_data_wait sample_build hw_ok 0 4
                         4096)) Hb Hc 2%nat [] _ Hrun).
Defined.

(** C3 (as stated) fails: a four-block write returns without a single read
    of the data-event register, which waitDataDone would have polled. *)
Lemma write_does_not_wait_for_data :
  exists d,
    sdcard_write sample_build hw_ok 0 4 4096 2%nat [] = Done tt d
    /\ existsb (is_read SDCARD_CORE_DATA_EVENT) d = false.
Proof. eexists. split; vm_compute; reflexivity. Qed.

(** ** The rounds of the idle handshake *)

Section IdleRounds.

Variable cfg : build.
Variable hw : list event -> csr -> Z.

(** Every command completes, with the timeout or the CRC flag. *)
Hypothesis always_error :
  forall h, exists ev d,
    cmd_done_after hw h ev d
    /\ (Z.testbit ev 2 = true \/ Z.testbit ev 3 = true).

Lemma go_idle_fails_run h :
  exists res dc,
    returns (sdcard_go_idle cfg hw) h res dc
    /\ command_run 0 0 (SDCARD_CTRL_RESPONSE_NONE cfg) res dc
    /\ res <> SD_OK.
Proof.
  destruct (always_error (h ++ cmd_writes 0 0 (SDCARD_CTRL_RESPONSE_NONE cfg)))
    as (ev & d & Hfd & Herr).
  exists (flags_result ev), (cmd_writes 0 0 (SDCARD_CTRL_RESPONSE_NONE cfg) ++ d).
  split; [|split].
  - unfold sdcard_go_idle. now apply send_command_returns.
  - exists ev, d. split; [reflexivity|]. split; [|reflexivity].
    eapply first_done_polled; exact Hfd.
  - unfold flags_result.
    destruct Herr as [-> | H3]; [discriminate|].
    rewrite H3. now destruct (Z.testbit ev 2).
Qed.

(** The loop runs out its budget: [timeout] failed rounds. *)
Lemma go_idle_loop_rounds timeout :
  forall h, exists rounds,
    returns (go_idle_loop cfg hw timeout) h O (List.concat rounds)
    /\ List.length rounds = timeout
    /\ Forall (idle_round_failed cfg) rounds.
Proof.
  induction timeout as [|t IH]; intros h.
  - exists []. split; [apply returns_ret | split; [reflexivity | constructor]].
  - set (h2 := (h ++ [CsrWrite SDCARD_PHY_INIT_INITIALIZE 1]) ++ [BusyWait 1]).
    destruct (go_idle_fails_run h2) as (res & dc & Hr & Hrun & Hres).
    destruct (IH ((h2 ++ dc) ++ [BusyWait 1])) as (rounds & Hd' & Hlen & Hall).
    exists (([CsrWrite SDCARD_PHY_INIT_INITIALIZE 1; BusyWait 1] ++ dc
             ++ [BusyWait 1]) :: rounds).
    split; [|split].
    + cbn [List.concat]. rewrite <- !app_assoc.
      change ([CsrWrite SDCARD_PHY_INIT_INITIALIZE 1; BusyWait 1]
              ++ dc ++ [BusyWait 1] ++ List.concat rounds)
        with ([CsrWrite SDCARD_PHY_INIT_INITIALIZE 1]
              ++ [BusyWait 1] ++ dc ++ [BusyWait 1] ++ List.concat rounds).
      rewrite go_idle_loop_S.
      eapply returns_bind; [exists O; reflexivity|].
      eapply returns_bind; [exists O; reflexivity|].
      eapply returns_bind; [exact Hr|].
      destruct res; [contradiction| |];
        (eapply returns_bind; [exists O; reflexivity | exact Hd']).
    + cbn [List.length]. now rewrite Hlen.
    + constructor; [|exact Hall]. now exists res, dc.
Qed.

Lemma init_idle_rounds h :
  exists rounds,
    returns (sdcard_init cfg hw) h 0
            ([CsrWrite SDCARD_PHY_CLOCKER_DIVIDER
                (programmed_divider cfg (SDCARD_CLK_FREQ_INIT cfg));
              BusyWait 1] ++ List.concat rounds)
    /\ List.length rounds = 1000%nat
    /\ Forall (idle_round_failed cfg) rounds.
Proof.
  set (v := programmed_divider cfg (SDCARD_CLK_FREQ_INIT cfg)).
  set (h2 := (h ++ [CsrWrite SDCARD_PHY_CLOCKER_DIVIDER v]) ++ [BusyWait 1]).
  destruct (go_idle_loop_rounds 1000 h2) as (rounds & Hd & Hlen & Hall).
  exists rounds. split; [|split; assumption].
  change ([CsrWrite SDCARD_PHY_CLOCKER_DIVIDER v; BusyWait 1]
          ++ List.concat rounds)
    with ([CsrWrite SDCARD_PHY_CLOCKER_DIVIDER v] ++ [BusyWait 1]
          ++ List.concat rounds).
  rewrite <- (app_nil_r (List.concat rounds)).
  unfold sdcard_init.
  eapply returns_bind.
  { exists O. intros fuel _. apply set_clk_freq_quiet_eq. }
  eapply returns_bind; [exists O; reflexivity|].
  eapply returns_bind; [exact Hd|].
  apply returns_ret.
Qed.

Lemma disk_initialize_idle_rounds s h :
  0 < STA_NOINIT cfg < 256 -> s <> 0 ->
  exists rounds,
    returns (sd_disk_initialize cfg hw 0 s) h
            (STA_NOINIT cfg, STA_NOINIT cfg)
            ([CsrWrite SDCARD_PHY_CLOCKER_DIVIDER
                (programmed_divider cfg (SDCARD_CLK_FREQ_INIT cfg));
              BusyWait 1] ++ List.concat rounds)
    /\ List.length rounds = 1000%nat
    /\ Forall (idle_round_failed cfg) rounds.
Proof.
  intros Hsta Hs. destruct (init_idle_rounds h) as (rounds & Hd & Hlen & Hall).
  exists rounds. split; [|split; assumption].
  unfold sd_disk_initialize. cbn [Z.eqb negb].
  destruct (Z.eqb_spec s 0); [contradiction|]. cbn [negb].
  match goal with
  | |- returns _ _ _ ?d => rewrite <- (app_nil_r d)
  end.
  eapply returns_bind; [exact Hd|].
  cbn [Z.eqb negb]. unfold u8. change (2 ^ 8) with 256.
  rewrite Z.mod_small by lia. apply returns_ret.
Qed.

End IdleRounds.

Section IdleHangs.

Variable cfg : build.
Variable hw : list event -> csr -> Z.

Hypothesis never_done :
  forall h, Z.testbit (u32 (hw h SDCARD_CORE_CMD_EVENT)) 0 = false.

(** The polls of a command wait that never sees done: each reads the
    command-event register with the done flag clear and delays. *)
Lemma cmd_poll_never_rounds n fuel h :
  exists vs,
    iter_fuel (fun _ : unit =>
                 event <- csr_read hw SDCARD_CORE_CMD_EVENT ;;
                 busy_wait_us 10 ;;
                 if Z.land event 1 =? 0 then ret (inl tt) else ret (inr event))
              n tt fuel h
    = OutOfFuel (flat_map (fun v => [CsrRead SDCARD_CORE_CMD_EVENT v;
                                     BusyWaitUs 10]) vs)
    /\ List.length vs = n
    /\ Forall (fun v => Z.testbit v 0 = false) vs.
Proof.
  revert h. induction n as [|n IH]; intros h.
  - exists []. split; [reflexivity | split; [reflexivity | constructor]].
  - cbn [iter_fuel].
    pose proof (cmd_poll_polls hw fuel h) as Hb. cbv beta in Hb.
    rewrite never_done in Hb.
    destruct (IH (h ++ [CsrRead SDCARD_CORE_CMD_EVENT
                          (u32 (hw h SDCARD_CORE_CMD_EVENT)); BusyWaitUs 10]))
      as (vs & Hd & Hlen & Hvs).
    exists (u32 (hw h SDCARD_CORE_CMD_EVENT) :: vs). split; [|split].
    + cbn [flat_map].
      eapply bind_OutOfFuel_r; [exact Hb | exact Hd].
    + cbn [List.length]. now rewrite Hlen.
    + constructor; [apply never_done | exact Hvs].
Qed.

Lemma disk_initialize_hangs s fuel h :
  s <> 0 ->
  exists vs,
    sd_disk_initialize cfg hw 0 s fuel h
    = OutOfFuel ([CsrWrite SDCARD_PHY_CLOCKER_DIVIDER
                    (programmed_divider cfg (SDCARD_CLK_FREQ_INIT cfg));
                  BusyWait 1;
                  CsrWrite SDCARD_PHY_INIT_INITIALIZE 1; BusyWait 1]
                 ++ cmd_writes 0 0 (SDCARD_CTRL_RESPONSE_NONE cfg)
                 ++ flat_map (fun v => [CsrRead SDCARD_CORE_CMD_EVENT v;
                                        BusyWaitUs 10]) vs)
    /\ List.length vs = fuel
    /\ Forall (fun v => Z.testbit v 0 = false) vs.
Proof.
  intros Hs.
  set (v := programmed_divider cfg (SDCARD_CLK_FREQ_INIT cfg)).
  set (h4 := (((h ++ [CsrWrite SDCARD_PHY_CLOCKER_DIVIDER v])
               ++ [BusyWait 1]) ++ [CsrWrite SDCARD_PHY_INIT_INITIALIZE 1])
             ++ [BusyWait 1]).
  destruct (cmd_poll_never_rounds fuel fuel
              (h4 ++ cmd_writes 0 0 (SDCARD_CTRL_RESPONSE_NONE cfg)))
    as (vs & Hd & Hlen & Hvs).
  exists vs. split; [|split; assumption].
  unfold sd_disk_initialize. cbn [Z.eqb negb].
  destruct (Z.eqb_spec s 0); [contradiction|]. cbn [negb].
  apply bind_OutOfFuel_l. unfold sdcard_init.
  change (OutOfFuel
            ([CsrWrite SDCARD_PHY_CLOCKER_DIVIDER v; BusyWait 1;
              CsrWrite SDCARD_PHY_INIT_INITIALIZE 1; BusyWait 1]
             ++ cmd_writes 0 0 (SDCARD_CTRL_RESPONSE_NONE cfg)
             ++ flat_map (fun v => [CsrRead SDCARD_CORE_CMD_EVENT v;
                                    BusyWaitUs 10]) vs))
    with (@OutOfFuel Z
            ([CsrWrite SDCARD_PHY_CLOCKER_DIVIDER v]
             ++ [BusyWait 1]
             ++ ([CsrWrite SDCARD_PHY_INIT_INITIALIZE 1]
                 ++ [BusyWait 1]
                 ++ cmd_writes 0 0 (SDCARD_CTRL_RESPONSE_NONE cfg)
                 ++ flat_map (fun v => [CsrRead SDCARD_CORE_CMD_EVENT v;
                                        BusyWaitUs 10]) vs))).
  eapply bind_OutOfFuel_r; [apply set_clk_freq_quiet_eq|].
  eapply bind_OutOfFuel_r; [reflexivity|].
  apply bind_OutOfFuel_l. rewrite go_idle_loop_S.
  eapply bind_OutOfFuel_r; [reflexivity|].
  eapply bind_OutOfFuel_r; [reflexivity|].
  apply bind_OutOfFuel_l. unfold sdcard_go_idle.
  rewrite send_command_eq. unfold sdcard_wait_cmd_done, iter.
  erewrite bind_OutOfFuel_l by exact Hd. reflexivity.
Qed.

End IdleHangs.

(** C2 (as the code has it). The command wait has no software time-out, so
    the budget of 1000 attempts is only used up when each GO_IDLE attempt
    completes with an error.  If the hardware completes every command with
    the timeout or the CRC flag, initialize() returns NotInitialized, and
    what it has done is exactly this: the clock divider set for the
    initialization frequency and the delay, then 1000 failed rounds of the
    idle handshake, each the 80 dummy clocks, one GO_IDLE (sent, polled until
    done, result other than Ok) and the delay; no step of the bring-up that
    follows the handshake is taken.  If the command-done flag is never set,
    initialize() never returns: every run is cut off in the wait of the first
    GO_IDLE, having done only the clock setting, the dummy clocks, the three
    writes of that GO_IDLE and polls of the command-event register that
    found the done flag clear. *)
Theorem idle_handshake_budget (cfg : build) (hw : list event -> csr -> Z)
  (s : Z) (h : list event) :
  0 < STA_NOINIT cfg < 256 -> s <> 0 ->
  ((forall h', exists ev d,
       cmd_done_after hw h' ev d
       /\ (Z.testbit ev 2 = true \/ Z.testbit ev 3 = true)) ->
   exists rounds,
     returns (sd_disk_initialize cfg hw 0 s) h
             (STA_NOINIT cfg, STA_NOINIT cfg)
             ([CsrWrite SDCARD_PHY_CLOCKER_DIVIDER
                 (programmed_divider cfg (SDCARD_CLK_FREQ_INIT cfg));
               BusyWait 1] ++ List.concat rounds)
     /\ List.length rounds = 1000%nat
     /\ Forall (idle_round_failed cfg) rounds)
  /\ ((forall h', Z.testbit (u32 (hw h' SDCARD_CORE_CMD_EVENT)) 0 = false) ->
      diverges (sd_disk_initialize cfg hw 0 s) h
      /\ forall fuel, exists vs,
          events (sd_disk_initialize cfg hw 0 s fuel h)
          = [CsrWrite SDCARD_PHY_CLOCKER_DIVIDER
               (programmed_divider cfg (SDCARD_CLK_FREQ_INIT cfg));
             BusyWait 1;
             CsrWrite SDCARD_PHY_INIT_INITIALIZE 1; BusyWait 1]
            ++ cmd_writes 0 0 (SDCARD_CTRL_RESPONSE_NONE cfg)
            ++ flat_map (fun v => [CsrRead SDCARD_CORE_CMD_EVENT v;
                                   BusyWaitUs 10]) vs
          /\ Forall (fun v => Z.testbit v 0 = false) vs).
Proof.
  intros Hsta Hs. split.
  - intros Herr. now apply disk_initialize_idle_rounds.
  - intros Hnever. split.
    + intros fuel.
      destruct (disk_initialize_hangs cfg hw Hnever s fuel h Hs)
        as (vs & Hd & _).
      eauto.
    + intros fuel.
      destruct (disk_initialize_hangs cfg hw Hnever s fuel h Hs)
        as (vs & -> & _ & Hvs).
      exists vs. split; [reflexivity | exact Hvs].
Qed.

(** Hardware that answers every command with done and timeout. *)
Lemma idle_handshake_budget_witness :
  exists rounds,
    returns (sd_disk_initialize sample_build hw_timeout 0 1) []
            (STA_NOINIT sample_build, STA_NOINIT sample_build)
            ([CsrWrite SDCARD_PHY_CLOCKER_DIVIDER
                (programmed_divider sample_build
                   (SDCARD_CLK_FREQ_INIT sample_build));
              BusyWait 1] ++ List.concat rounds)
    /\ List.length rounds = 1000%nat
    /\ Forall (idle_round_failed sample_build) rounds.
Proof.
  refine (proj1 (idle_handshake_budget sample_build hw_timeout 1 [] _ _) _).
  - simpl. lia.
  - discriminate.
  - intros h'. exists 5, [CsrRead SDCARD_CORE_CMD_EVENT 5; BusyWaitUs 10].
    split; [|now left]. apply first_done_now; reflexivity.
Defined.

(** C2 (as stated) fails: with a command-done flag that is never set,
    initialize() does not return at all, and never gets past the first
    GO_IDLE. *)
Lemma absent_card_hangs_initialize :
  diverges (sd_disk_initialize sample_build hw_absent 0
              (sdcardstatus_initial sample_build)) []
  /\ occurrences (is_command 0)
       (events (sd_disk_initialize sample_build hw_absent 0
                  (sdcardstatus_initial sample_build) 2000%nat [])) = 1%nat.
Proof.
  assert (forall h, Z.testbit (u32 (hw_absent h SDCARD_CORE_CMD_EVENT)) 0
                    = false) as Hnever by reflexivity.
  assert (sdcardstatus_initial sample_build <> 0) as Hs by discriminate.
  split.
  - intros fuel.
    destruct (disk_initialize_never sample_build hw_absent Hnever _ fuel [] Hs)
      as (v & d & Hd & _).
    eauto.
  - destruct (disk_initialize_never sample_build hw_absent Hnever _
                2000%nat [] Hs) as (v & d & -> & Hnw).
    cbn [events]. rewrite !count_app, count_cmd_writes.
    rewrite (count_no_write 0 d Hnw). reflexivity.
Qed.

(** ** The runs of a successful bring-up *)

Section BringUpRuns.

Variable cfg : build.
Variable hw : list event -> csr -> Z.

Lemma rd_buf_Done fuel h r0 r1 r2 r3 d :
  csr_rd_buf_uint32_response hw fuel h = Done (r0, r1, r2, r3) d ->
  d = response_reads r0 r1 r2 r3.
Proof.
  unfold csr_rd_buf_uint32_response, bind, csr_read, ret. cbn [app].
  intros [= <- <- <- <- <-]. reflexivity.
Qed.

(** The idle handshake that leaves with budget: failed rounds, then the
    round whose GO_IDLE returns Ok. *)
Lemma go_idle_loop_run timeout :
  forall fuel h t d,
    go_idle_loop cfg hw timeout fuel h = Done t d -> t <> O ->
    exists fs dc,
      d = List.concat fs
          ++ [CsrWrite SDCARD_PHY_INIT_INITIALIZE 1; BusyWait 1] ++ dc
      /\ (List.length fs < timeout)%nat
      /\ Forall (idle_round_failed cfg) fs
      /\ command_run 0 0 (SDCARD_CTRL_RESPONSE_NONE cfg) SD_OK dc.
Proof.
  induction timeout as [|n IH]; intros fuel h t d H Ht.
  - cbn [go_idle_loop] in H. apply ret_Done in H. destruct H as [H _].
    congruence.
  - rewrite go_idle_loop_S in H.
    apply bind_Done_inv in H. destruct H as (u1 & di & dr & Hi & H & ->).
    apply bind_Done_inv in H. destruct H as (u2 & dw & dr' & Hw & H & ->).
    apply bind_Done_inv in H. destruct H as (x0 & d0 & dl & H0 & H & ->).
    apply csr_write_Done in Hi. subst di. injection Hw as _ <-.
    unfold sdcard_go_idle in H0. apply send_command_run in H0.
    destruct (is_SD_OK x0) eqn:E.
    + apply ret_Done in H. destruct H as [_ ->].
      apply is_SD_OK_true in E. subst x0.
      exists [], d0. rewrite app_nil_r. cbn [List.concat List.length app].
      split; [reflexivity|]. split; [lia|]. split; [constructor | exact H0].
    + apply bind_Done_inv in H. destruct H as (u3 & dw & dn & Hw & H & ->).
      injection Hw as _ <-.
      apply IH in H; [|assumption].
      destruct H as (fs & dc & -> & Hlen & Hfs & Hdc).
      apply is_SD_OK_false in E.
      exists (([CsrWrite SDCARD_PHY_INIT_INITIALIZE 1; BusyWait 1] ++ d0
               ++ [BusyWait 1]) :: fs), dc.
      split; [|split; [|split]].
      * cbn [List.concat app]. rewrite <- !app_assoc. reflexivity.
      * cbn [List.length]. lia.
      * constructor; [|exact Hfs]. now exists x0, d0.
      * exact Hdc.
Qed.

(** The negotiation that leaves with budget: rounds that do not end it,
    then the round that reads the busy bit set. *)
Lemma op_cond_loop_run timeout :
  forall fuel h t d,
    op_cond_loop cfg hw timeout fuel h = Done t d -> t <> O ->
    exists bs res55 d55 d41 r0 r1 r2 r3,
      d = List.concat bs ++ d55 ++ d41 ++ response_reads r0 r1 r2 r3
      /\ (List.length bs < timeout)%nat
      /\ Forall (negotiation_round_busy cfg) bs
      /\ command_run 0 55 (SDCARD_CTRL_RESPONSE_SHORT cfg) res55 d55
      /\ command_run 0x70ff8000 41 (SDCARD_CTRL_RESPONSE_SHORT_BUSY cfg)
           SD_OK d41
      /\ Z.testbit r3 31 = true.
Proof.
  induction timeout as [|n IH]; intros fuel h t d H Ht.
  - cbn [op_cond_loop] in H. apply ret_Done in H. destruct H as [H _].
    congruence.
  - cbn [op_cond_loop] in H.
    apply bind_Done_inv in H. destruct H as (x55 & d55 & dr & H55 & H & ->).
    apply bind_Done_inv in H. destruct H as (x41 & d41 & dl & H41 & H & ->).
    unfold sdcard_app_cmd in H55. unfold sdcard_app_send_op_cond in H41.
    apply send_command_run in H55, H41.
    apply (@command_run_arg _ 0) in H55; [|reflexivity].
    change (if 1 =? 0 then 285179904 else Z.lor 285179904 1610612736)
      with 0x70ff8000 in H41.
    (* a round that does not end the negotiation, then the rest *)
    assert (forall rd h' dd,
               (if is_SD_OK x41
                then exists r0 r1 r2 r3,
                    rd = response_reads r0 r1 r2 r3
                    /\ Z.testbit r3 31 = false
                else rd = []) ->
               (busy_wait 1 ;; op_cond_loop cfg hw n) fuel h' = Done t dd ->
               exists bs res55 d55' d41' r0 r1 r2 r3,
                 d55 ++ d41 ++ rd ++ dd
                 = List.concat bs ++ d55' ++ d41'
                   ++ response_reads r0 r1 r2 r3
                 /\ (List.length bs < S n)%nat
                 /\ Forall (negotiation_round_busy cfg) bs
                 /\ command_run 0 55 (SDCARD_CTRL_RESPONSE_SHORT cfg)
                      res55 d55'
                 /\ command_run 0x70ff8000 41
                      (SDCARD_CTRL_RESPONSE_SHORT_BUSY cfg) SD_OK d41'
                 /\ Z.testbit r3 31 = true) as Hloop.
    { intros rd h' dd Hrd Hdd.
      apply bind_Done_inv in Hdd.
      destruct Hdd as (u & dw & dn & Hw & Hn & ->).
      injection Hw as _ <-.
      apply IH in Hn; [|assumption].
      destruct Hn as (bs & res55 & d55' & d41' & r0 & r1 & r2 & r3
                      & -> & Hlen & Hbs & Hr55 & Hr41 & Hbit).
      exists ((d55 ++ d41 ++ rd ++ [BusyWait 1]) :: bs),
        res55, d55', d41', r0, r1, r2, r3.
      split; [|split; [|split; [|auto]]].
      - cbn [List.concat]. rewrite <- !app_assoc. reflexivity.
      - cbn [List.length]. lia.
      - constructor; [|exact Hbs]. exists x55, d55, x41, d41, rd. auto. }
    destruct (is_SD_OK x41) eqn:E.
    + apply bind_Done_inv in H.
      destruct H as ([[[r0 r1] r2] r3] & drd & dn & Hrd & H & ->).
      apply rd_buf_Done in Hrd. subst drd.
      change 2147483648 with (2 ^ 31) in H.
      rewrite land_pow2_eqb, negb_involutive in H by lia.
      destruct (Z.testbit r3 31) eqn:Hbit.
      * apply ret_Done in H. destruct H as [_ ->].
        apply is_SD_OK_true in E. subst x41.
        exists [], x55, d55, d41, r0, r1, r2, r3.
        rewrite app_nil_r. cbn [List.concat List.length app].
        split; [reflexivity|]. split; [lia|]. split; [constructor|]. auto.
      * eapply Hloop; [|exact H]. now exists r0, r1, r2, r3.
    + replace dl with ([] ++ dl) by reflexivity.
      eapply Hloop; [reflexivity | exact H].
Qed.

(** A data-bearing command function that returns Ok. *)
Lemma data_command_run len cnt arg cmd rsp fuel h d :
  (csr_write SDCARD_CORE_BLOCK_LENGTH len ;;
   csr_write SDCARD_CORE_BLOCK_COUNT cnt ;;
   retry_command hw arg cmd rsp ;;
   sdcard_wait_data_done hw) fuel h = Done SD_OK d ->
  data_command_ok len cnt arg cmd rsp d.
Proof.
  intros H.
  apply bind_Done_inv in H. destruct H as (u1 & d1 & dr1 & H1 & H & ->).
  apply bind_Done_inv in H. destruct H as (u2 & d2 & dr2 & H2 & H & ->).
  apply bind_Done_inv in H. destruct H as ([] & d3 & d4 & H3 & H4 & ->).
  apply csr_write_Done in H1, H2. subst d1 d2.
  apply retry_command_runs in H3. apply wait_data_done_run in H4.
  exists d3, d4. auto.
Qed.

Lemma switch_run mode group value fuel h d :
  sdcard_switch cfg hw mode group value fuel h = Done SD_OK d ->
  data_command_ok 64 1 (switch_argument mode group value) 6
    (data_rsp cfg (SDCARD_CTRL_DATA_TRANSFER_READ cfg)) d.
Proof. unfold sdcard_switch. apply data_command_run. Qed.

Lemma app_send_scr_run fuel h d :
  sdcard_app_send_scr cfg hw fuel h = Done SD_OK d ->
  data_command_ok 8 1 0 51
    (data_rsp cfg (SDCARD_CTRL_DATA_TRANSFER_READ cfg)) d.
Proof. unfold sdcard_app_send_scr. apply data_command_run. Qed.

(** A command addressed by the RCA. *)
Lemma rca_command_run r3 cmd rsp res d :
  0 <= r3 < 2 ^ 32 ->
  command_run (Z.shiftl (u16 (r3 / 2 ^ 16)) 16) cmd rsp res d ->
  command_run (r3 / 2 ^ 16 * 2 ^ 16) cmd rsp res d.
Proof.
  intros Hr3. apply command_run_arg.
  rewrite rca_argument by exact Hr3. symmetry. apply u32_small.
  assert (0 <= r3 / 2 ^ 16) by (apply Z.div_pos; lia).
  pose proof (Z.mul_div_le r3 (2 ^ 16) ltac:(lia)). lia.
Qed.

(** A bring-up that returns nonzero returns 1 and has taken every step with
    the result Ok. *)
Lemma init_success_run fuel h r d :
  sdcard_init cfg hw fuel h = Done r d -> r <> 0 ->
  r = 1 /\ successful_bring_up cfg d.
Proof.
  intros H Hr. unfold sdcard_init in H. init_steps H.
  apply ret_Done in H. destruct H as [-> ->].
  split; [reflexivity|].
  unfold sdcard_send_ext_csd, sdcard_all_send_cid,
    sdcard_set_relative_address, sdcard_send_cid, sdcard_send_csd,
    sdcard_select_card, sdcard_app_cmd, sdcard_app_set_bus_width,
    sdcard_app_set_blocklen in *.
  repeat match goal with
         | Hn : (_ =? 0)%nat = false |- _ => apply Nat.eqb_neq in Hn
         | E : is_SD_OK ?x = true |- _ => apply is_SD_OK_true in E; subst x
         end.
  match goal with
  | Hs : go_idle_loop _ _ _ _ _ = Done _ _ |- _ =>
      apply go_idle_loop_run in Hs; [|assumption]
  end.
  match goal with
  | Hs : op_cond_loop _ _ _ _ _ = Done _ _ |- _ =>
      apply op_cond_loop_run in Hs; [|assumption]
  end.
  match goal with
  | Hs : sdcard_switch _ _ _ _ _ _ _ = Done _ _ |- _ => apply switch_run in Hs
  end.
  match goal with
  | Hs : sdcard_app_send_scr _ _ _ _ = Done _ _ |- _ =>
      apply app_send_scr_run in Hs
  end.
  match goal with
  | Hdec : sdcard_decode_rca _ _ _ = Done ?rca ?dr |- _ =>
      destruct (decode_rca_Done _ _ _ _ _ Hdec)
        as (r0 & r1 & r2 & r3 & -> & Er3 & ->);
      clear Hdec
  end.
  assert (0 <= r3 < 2 ^ 32) as Hr3 by (rewrite Er3; apply u32_range).
  repeat match goal with
    | Hs : sdcard_send_command hw ?arg ?cmd ?rsp ?f ?hh = Done ?x ?di |- _ =>
        apply send_command_run in Hs
    | Hs : sdcard_set_clk_freq cfg ?F 0 ?f ?hh = Done ?x ?di |- _ =>
        rewrite set_clk_freq_quiet_eq in Hs; injection Hs as _ <-
    | Hs : busy_wait ?ms ?f ?hh = Done ?x ?di |- _ =>
        injection Hs as _ <-
    | Hs : csr_write ?r ?v ?f ?hh = Done ?x ?di |- _ =>
        apply csr_write_Done in Hs; subst di
    | Hs : command_run (Z.shiftl (u16 (r3 / 2 ^ 16)) 16) _ _ _ _ |- _ =>
        apply (rca_command_run _ _ _ _ _ Hr3) in Hs
    end.
  unfold successful_bring_up. cbv zeta. rewrite !app_nil_r.
  do 18 eexists.
  split.
  { unfold response_reads. cbn [app]. reflexivity. }
  split; [exact Hr3|].
  repeat split; try eassumption.
Qed.

End BringUpRuns.

(** ** The runs of a bring-up that fails *)

Section BringUpFails.

Variable cfg : build.
Variable hw : list event -> csr -> Z.

(** The idle handshake that leaves without budget: [timeout] failed
    rounds. *)
Lemma go_idle_loop_run_out timeout :
  forall fuel h d,
    go_idle_loop cfg hw timeout fuel h = Done O d ->
    exists rounds,
      d = List.concat rounds
      /\ List.length rounds = timeout
      /\ Forall (idle_round_failed cfg) rounds.
Proof.
  induction timeout as [|n IH]; intros fuel h d H.
  - cbn [go_idle_loop] in H. apply ret_Done in H. destruct H as [_ ->].
    exists []. split; [reflexivity | split; [reflexivity | constructor]].
  - rewrite go_idle_loop_S in H.
    apply bind_Done_inv in H. destruct H as (u1 & di & dr & Hi & H & ->).
    apply bind_Done_inv in H. destruct H as (u2 & dw & dr' & Hw & H & ->).
    apply bind_Done_inv in H. destruct H as (x0 & d0 & dl & H0 & H & ->).
    apply csr_write_Done in Hi. subst di. injection Hw as _ <-.
    unfold sdcard_go_idle in H0. apply send_command_run in H0.
    destruct (is_SD_OK x0) eqn:E.
    + apply ret_Done in H. destruct H as [H _]. discriminate.
    + apply bind_Done_inv in H. destruct H as (u3 & dw & dn & Hw & H & ->).
      injection Hw as _ <-.
      apply IH in H. destruct H as (rounds & -> & Hlen & Hall).
      apply is_SD_OK_false in E.
      exists (([CsrWrite SDCARD_PHY_INIT_INITIALIZE 1; BusyWait 1] ++ d0
               ++ [BusyWait 1]) :: rounds).
      split; [|split].
      * cbn [List.concat app]. rewrite <- !app_assoc. reflexivity.
      * cbn [List.length]. now rewrite Hlen.
      * constructor; [|exact Hall]. now exists x0, d0.
Qed.

(** The negotiation that leaves without budget: [timeout] rounds that did
    not end it. *)
Lemma op_cond_loop_run_out timeout :
  forall fuel h d,
    op_cond_loop cfg hw timeout fuel h = Done O d ->
    exists rounds,
      d = List.concat rounds
      /\ List.length rounds = timeout
      /\ Forall (negotiation_round_busy cfg) rounds.
Proof.
  induction timeout as [|n IH]; intros fuel h d H.
  - cbn [op_cond_loop] in H. apply ret_Done in H. destruct H as [_ ->].
    exists []. split; [reflexivity | split; [reflexivity | constructor]].
  - cbn [op_cond_loop] in H.
    apply bind_Done_inv in H. destruct H as (x55 & d55 & dr & H55 & H & ->).
    apply bind_Done_inv in H. destruct H as (x41 & d41 & dl & H41 & H & ->).
    unfold sdcard_app_cmd in H55. unfold sdcard_app_send_op_cond in H41.
    apply send_command_run in H55, H41.
    apply (@command_run_arg _ 0) in H55; [|reflexivity].
    change (if 1 =? 0 then 285179904 else Z.lor 285179904 1610612736)
      with 0x70ff8000 in H41.
    assert (forall rd h' dd,
               (if is_SD_OK x41
                then exists r0 r1 r2 r3,
                    rd = response_reads r0 r1 r2 r3
                    /\ Z.testbit r3 31 = false
                else rd = []) ->
               (busy_wait 1 ;; op_cond_loop cfg hw n) fuel h' = Done O dd ->
               exists rounds,
                 d55 ++ d41 ++ rd ++ dd = List.concat rounds
                 /\ List.length rounds = S n
                 /\ Forall (negotiation_round_busy cfg) rounds) as Hloop.
    { intros rd h' dd Hrd Hdd.
      apply bind_Done_inv in Hdd.
      destruct Hdd as (u & dw & dn & Hw & Hn & ->).
      injection Hw as _ <-.
      apply IH in Hn. destruct Hn as (rounds & -> & Hlen & Hall).
      exists ((d55 ++ d41 ++ rd ++ [BusyWait 1]) :: rounds).
      split; [|split].
      - cbn [List.concat]. rewrite <- !app_assoc. reflexivity.
      - cbn [List.length]. now rewrite Hlen.
      - constructor; [|exact Hall]. exists x55, d55, x41, d41, rd. auto. }
    destruct (is_SD_OK x41) eqn:E.
    + apply bind_Done_inv in H.
      destruct H as ([[[r0 r1] r2] r3] & drd & dn & Hrd & H & ->).
      apply rd_buf_Done in Hrd. subst drd.
      change 2147483648 with (2 ^ 31) in H.
      rewrite land_pow2_eqb, negb_involutive in H by lia.
      destruct (Z.testbit r3 31) eqn:Hbit.
      * apply ret_Done in H. destruct H as [H _]. discriminate.
      * eapply Hloop; [|exact H]. now exists r0, r1, r2, r3.
    + replace dl with ([] ++ dl) by reflexivity.
      eapply Hloop; [reflexivity | exact H].
Qed.

(** A data-bearing command function that does not return Ok ends with the
    data wait that failed. *)
Lemma data_command_failed len cnt arg cmd rsp fuel h r d :
  (csr_write SDCARD_CORE_BLOCK_LENGTH len ;;
   csr_write SDCARD_CORE_BLOCK_COUNT cnt ;;
   retry_command hw arg cmd rsp ;;
   sdcard_wait_data_done hw) fuel h = Done r d ->
  exists pre dd, d = pre ++ dd /\ data_wait_run r dd.
Proof.
  intros H.
  apply bind_Done_inv in H. destruct H as (u1 & d1 & dr1 & H1 & H & ->).
  apply bind_Done_inv in H. destruct H as (u2 & d2 & dr2 & H2 & H & ->).
  apply bind_Done_inv in H. destruct H as ([] & d3 & d4 & H3 & H4 & ->).
  apply wait_data_done_run in H4.
  exists (d1 ++ d2 ++ d3), d4. split; [|exact H4].
  now rewrite <- !app_assoc.
Qed.

(** Ends the case of a failed bring-up whose last piece is [tail]. *)
Ltac failed_at :=
  rewrite ?app_nil_r, ?app_assoc;
  eexists _, _; split; [reflexivity|];
  first
    [ left; do 4 eexists; split; eassumption
    | right; left; eexists; split; eassumption
    | right; right; left; eexists; repeat split; eassumption
    | right; right; right; eexists; repeat split; eassumption ].

(** A bring-up that returns 0 has given up at a step that failed. *)
Lemma init_failed_run fuel h d :
  sdcard_init cfg hw fuel h = Done 0 d -> failed_bring_up cfg d.
Proof.
  intros H. unfold sdcard_init in H.
  repeat first
    [ progress bind_inv H
    | progress unfold ok_or_0 in H
    | match type of H with
      | (if ?c then _ else _) _ _ = Done _ _ =>
          let E := fresh "E" in destruct c eqn:E
      end ];
    apply ret_Done in H; destruct H as [H ->]; try discriminate H;
    unfold sdcard_send_ext_csd, sdcard_all_send_cid,
      sdcard_set_relative_address, sdcard_send_cid, sdcard_send_csd,
      sdcard_select_card, sdcard_app_cmd, sdcard_app_set_bus_width,
      sdcard_app_set_blocklen, sdcard_switch, sdcard_app_send_scr in *;
    repeat match goal with
      | Hn : (_ =? 0)%nat = true |- _ => apply Nat.eqb_eq in Hn; subst
      | E : is_SD_OK ?x = false |- _ => apply is_SD_OK_false in E
      | Hs : sdcard_send_command hw _ _ _ _ _ = Done _ _ |- _ =>
          apply send_command_run in Hs
      | Hs : go_idle_loop _ _ _ _ _ = Done O _ |- _ =>
          apply go_idle_loop_run_out in Hs;
          destruct Hs as (rounds & Hrounds & Hlen & Hall)
      | Hs : op_cond_loop _ _ _ _ _ = Done O _ |- _ =>
          apply op_cond_loop_run_out in Hs;
          destruct Hs as (rounds & Hrounds & Hlen & Hall)
      | E : ?x <> SD_OK,
        Hs : bind (csr_write SDCARD_CORE_BLOCK_LENGTH _) _ _ _ = Done ?x _
        |- _ =>
          apply data_command_failed in Hs;
          destruct Hs as (pre' & dd & -> & Hdd)
      end;
    unfold failed_bring_up, budget_used_up;
    failed_at.
Qed.

End BringUpFails.

(** C8. The stored status is NotInitialized (STA_NOINIT, nonzero) at start.
    While it is NotInitialized, initialize() on drive 0 runs the bring-up
    once and stores and returns Ready (0) when the bring-up returns nonzero,
    NotInitialized when it returns 0.  It becomes Ready only after a full
    successful bring-up: the events of the call are then those of
    [successful_bring_up], every step of the sequence taken in order and
    every command and data wait of it with the result Ok.  It stays (or, on
    a re-attempt, becomes again) NotInitialized when the bring-up fails: the
    events of the call then end with a command or data wait whose result is
    not Ok or with the 1000th failed round of one of the two loops.  Both
    happen: initialize() returns Ready when every command and data phase
    completes without error and the card reports ready, and NotInitialized
    when every command completes with an error.  Once Ready, initialize()
    returns Ready without emitting any event and leaves the status Ready. *)
Theorem disk_status_lifecycle (cfg : build) (hw : list event -> csr -> Z) :
  0 < STA_NOINIT cfg < 256 ->
  sdcardstatus_initial cfg = STA_NOINIT cfg
  /\ (forall s fuel h,
         s <> 0 ->
         sd_disk_initialize cfg hw 0 s fuel h
         = match sdcard_init cfg hw fuel h with
           | Done r d =>
               if r =? 0 then Done (STA_NOINIT cfg, STA_NOINIT cfg) d
               else Done (0, 0) d
           | OutOfFuel d => OutOfFuel d
           end)
  /\ (forall s fuel h res d,
         s <> 0 ->
         sd_disk_initialize cfg hw 0 s fuel h = Done res d ->
         (res = (0, 0) /\ successful_bring_up cfg d)
         \/ (res = (STA_NOINIT cfg, STA_NOINIT cfg) /\ failed_bring_up cfg d))
  /\ ((forall h, exists ev d,
          cmd_done_after hw h ev d
          /\ Z.testbit ev 2 = false /\ Z.testbit ev 3 = false) ->
      (forall h, exists ev d,
          data_done_after hw h ev d
          /\ Z.testbit ev 2 = false /\ Z.testbit ev 3 = false) ->
      (forall h,
          Z.testbit (u32 (hw h (SDCARD_CORE_CMD_RESPONSE 3))) 31 = true) ->
      forall s h, s <> 0 ->
        exists d, returns (sd_disk_initialize cfg hw 0 s) h (0, 0) d
                  /\ successful_bring_up cfg d)
  /\ ((forall h, exists ev d,
          cmd_done_after hw h ev d
          /\ (Z.testbit ev 2 = true \/ Z.testbit ev 3 = true)) ->
      forall s h, s <> 0 ->
        exists d, returns (sd_disk_initialize cfg hw 0 s) h
                          (STA_NOINIT cfg, STA_NOINIT cfg) d
                  /\ failed_bring_up cfg d)
  /\ (forall fuel h, sd_disk_initialize cfg hw 0 0 fuel h = Done (0, 0) []).
Proof.
  intros Hsta.
  assert (u8 (STA_NOINIT cfg) = STA_NOINIT cfg) as Hu8.
  { unfold u8. change (2 ^ 8) with 256. apply Z.mod_small. lia. }
  assert (forall s fuel h,
             s <> 0 ->
             sd_disk_initialize cfg hw 0 s fuel h
             = match sdcard_init cfg hw fuel h with
               | Done r d =>
                   if r =? 0 then Done (STA_NOINIT cfg, STA_NOINIT cfg) d
                   else Done (0, 0) d
               | OutOfFuel d => OutOfFuel d
               end) as Hinit.
  { intros s fuel h Hs. unfold sd_disk_initialize. cbn [Z.eqb negb].
    destruct (Z.eqb_spec s 0); [contradiction|]. cbn [negb].
    unfold bind at 1.
    destruct (sdcard_init cfg hw fuel h) as [r d|d]; [|reflexivity].
    cbn [ret]. rewrite app_nil_r.
    destruct (r =? 0); cbn [negb]; [rewrite Hu8|]; reflexivity. }
  assert (forall s fuel h res d,
             s <> 0 ->
             sd_disk_initialize cfg hw 0 s fuel h = Done res d ->
             (res = (0, 0) /\ successful_bring_up cfg d)
             \/ (res = (STA_NOINIT cfg, STA_NOINIT cfg)
                 /\ failed_bring_up cfg d)) as Hrun.
  { intros s fuel h res d Hs H. rewrite Hinit in H by exact Hs.
    destruct (sdcard_init cfg hw fuel h) as [r d'|d'] eqn:E; [|discriminate].
    destruct (Z.eqb_spec r 0) as [->|Hr]; injection H as <- <-.
    - right. split; [reflexivity|]. eapply init_failed_run; exact E.
    - left. split; [reflexivity|].
      eapply init_success_run; [exact E | exact Hr]. }
  split; [exact Hu8|]. split; [exact Hinit|]. split; [exact Hrun|].
  split; [|split].
  - intros Hcmd Hdata Hready s h Hs.
    destruct (yields_sdcard_init cfg hw Hcmd Hdata Hready h) as [d Hd].
    assert (returns (sd_disk_initialize cfg hw 0 s) h (0, 0) d) as Hret.
    { rewrite <- (app_nil_r d). unfold sd_disk_initialize. cbn [Z.eqb negb].
      destruct (Z.eqb_spec s 0); [contradiction|]. cbn [negb].
      eapply returns_bind; [exact Hd|]. apply returns_ret. }
    exists d. split; [exact Hret|].
    destruct Hret as [N HN]. specialize (HN N (le_n N)).
    destruct (Hrun s N h _ _ Hs HN) as [[_ Hok] | [Hres _]]; [exact Hok|].
    injection Hres as Hres _. lia.
  - intros Herr s h Hs.
    destruct (disk_initialize_idle_rounds cfg hw Herr s h Hsta Hs)
      as (rounds & Hret & _).
    eexists. split; [exact Hret|].
    destruct Hret as [N HN]. specialize (HN N (le_n N)).
    destruct (Hrun s N h _ _ Hs HN) as [[Hres _] | [_ Hfail]]; [|exact Hfail].
    injection Hres as Hres _. lia.
  - reflexivity.
Qed.

(** From the initial status, on hardware that completes everything at
    once: the adapter becomes Ready after a full successful bring-up, and a
    second initialize() does nothing. *)
Lemma disk_status_lifecycle_witness :
  sdcardstatus_initial sample_build = STA_NOINIT sample_build
  /\ (exists d,
         returns (sd_disk_initialize sample_build hw_ok 0
                    (sdcardstatus_initial sample_build)) [] (0, 0) d
         /\ successful_bring_up sample_build d)
  /\ sd_disk_initialize sample_build hw_ok 0 0 1%nat [] = Done (0, 0) [].
Proof.
  assert (0 < STA_NOINIT sample_build < 256) as Hsta by (simpl; lia).
  destruct (disk_status_lifecycle sample_build hw_ok Hsta)
    as (Hinitial & _ & _ & Hready & _ & Hagain).
  split; [exact Hinitial|]. split; [|apply Hagain].
  apply Hready.
  - intros h'. exists 1, [CsrRead SDCARD_CORE_CMD_EVENT 1; BusyWaitUs 10].
    split; [|split; reflexivity]. apply first_done_now; reflexivity.
  - intros h'. exists 1, [CsrRead SDCARD_CORE_DATA_EVENT 1].
    split; [|split; reflexivity]. apply first_done_now; reflexivity.
  - intros h'. reflexivity.
  - discriminate.
Defined.

(** ** The response reads of the bring-up *)

Section ResponseReads.

Variable cfg : build.
Variable hw : list event -> csr -> Z.

Lemma command_event_no_response_read op d :
  Forall (command_event op) d -> occurrences is_response_read d = 0%nat.
Proof.
  intros H. apply count_none. eapply Forall_impl; [|exact H].
  intros [[] ? | [] ? | ? | ? | ? ? | | ]; cbn; try contradiction;
    reflexivity.
Qed.

Lemma send_command_no_response_read arg cmd rsp fuel h r d :
  sdcard_send_command hw arg cmd rsp fuel h = Done r d ->
  occurrences is_response_read d = 0%nat.
Proof.
  intros H. apply (command_event_no_response_read (u8 cmd)).
  eapply all_events_Done; [|exact H]. apply all_send_command.
Qed.

Lemma go_idle_loop_no_response_read timeout fuel h t d :
  go_idle_loop cfg hw timeout fuel h = Done t d ->
  occurrences is_response_read d = 0%nat.
Proof.
  intros H. apply count_none.
  eapply all_events_Done; [|exact H].
  apply all_go_idle_loop; [reflexivity | reflexivity|].
  intros [[] ? | [] ? | ? | ? | ? ? | | ]; cbn; try contradiction;
    reflexivity.
Qed.

Lemma switch_no_response_read mode group value fuel h r d :
  sdcard_switch cfg hw mode group value fuel h = Done r d ->
  occurrences is_response_read d = 0%nat.
Proof.
  intros H. apply count_none.
  eapply all_events_Done; [|exact H].
  apply all_switch; [reflexivity | reflexivity | |];
    intros [[] ? | [] ? | ? | ? | ? ? | | ]; cbn; try contradiction;
    reflexivity.
Qed.

Lemma app_send_scr_no_response_read fuel h r d :
  sdcard_app_send_scr cfg hw fuel h = Done r d ->
  occurrences is_response_read d = 0%nat.
Proof.
  intros H. apply count_none.
  eapply all_events_Done; [|exact H].
  apply all_app_send_scr; [reflexivity | reflexivity | |];
    intros [[] ? | [] ? | ? | ? | ? ? | | ]; cbn; try contradiction;
    reflexivity.
Qed.

(** The rounds of the negotiation of the operating conditions: the commands
    of each, and the four response words read in those whose
    APP_SEND_OP_COND returned Ok. *)
Lemma op_cond_loop_sent_reads timeout :
  forall fuel h t d,
    op_cond_loop cfg hw timeout fuel h = Done t d -> t <> O ->
    exists k j, (1 <= j <= k /\ k <= timeout)%nat
      /\ (forall a c,
             sent a c d = List.concat (repeat [(55, 0); (41, 0x70ff8000)] k))
      /\ occurrences is_response_read d = (4 * j)%nat.
Proof.
  induction timeout as [|n IH]; intros fuel h t d H Ht.
  - cbn [op_cond_loop] in H. apply ret_Done in H. destruct H as [H _].
    congruence.
  - cbn [op_cond_loop] in H.
    apply bind_Done_inv in H. destruct H as (x55 & d55 & dr & H55 & H & ->).
    apply bind_Done_inv in H. destruct H as (x41 & d41 & dl & H41 & H & ->).
    unfold sdcard_app_cmd in H55. unfold sdcard_app_send_op_cond in H41.
    pose proof (send_command_sent hw _ _ _ _ _ _ _ H55) as Hs55.
    pose proof (send_command_sent hw _ _ _ _ _ _ _ H41) as Hs41.
    apply send_command_no_response_read in H55, H41.
    assert (forall h' dd,
               (busy_wait 1 ;; op_cond_loop cfg hw n) fuel h' = Done t dd ->
               exists k j, (1 <= j <= k /\ k <= n)%nat
                 /\ (forall a c,
                        sent a c dd
                        = List.concat (repeat [(55, 0); (41, 0x70ff8000)] k))
                 /\ occurrences is_response_read dd = (4 * j)%nat)
      as Hloop.
    { intros h' dd Hdd.
      apply bind_Done_inv in Hdd.
      destruct Hdd as (u & dw & dn & Hw & Hn & ->).
      injection Hw as _ <-.
      apply IH in Hn; [|assumption]. destruct Hn as (k & j & Hk & Hd & Hc).
      exists k, j. split; [lia|]. split; [|exact Hc].
      intros ra rc. cbn [app sent]. apply Hd. }
    assert (forall dd k,
               (forall a c,
                   sent a c dd
                   = List.concat (repeat [(55, 0); (41, 0x70ff8000)] k)) ->
               forall a c,
                 sent a c (d55 ++ d41 ++ dd)
                 = List.concat (repeat [(55, 0); (41, 0x70ff8000)] (S k)))
      as Hround.
    { intros dd k Hd ra rc. rewrite !sent_app, Hs55, Hs41, Hd. reflexivity. }
    destruct (is_SD_OK x41).
    + apply bind_Done_inv in H.
      destruct H as ([[[r0 r1] r2] r3] & drd & dn & Hrd & H & ->).
      apply rd_buf_Done in Hrd. subst drd.
      destruct (negb (Z.land r3 2147483648 =? 0)).
      * apply ret_Done in H. destruct H as [_ ->].
        exists 1%nat, 1%nat. split; [lia|]. split.
        -- apply (Hround (response_reads r0 r1 r2 r3 ++ []) O).
           intros ra rc. reflexivity.
        -- rewrite !count_app, H55, H41. reflexivity.
      * apply Hloop in H. destruct H as (k & j & Hk & Hd & Hc).
        exists (S k), (S j). split; [lia|]. split.
        -- apply Hround. intros ra rc. rewrite sent_app. cbn. apply Hd.
        -- rewrite !count_app, H55, H41, Hc.
           change (occurrences is_response_read (response_reads r0 r1 r2 r3))
             with 4%nat. lia.
    + apply Hloop in H. destruct H as (k & j & Hk & Hd & Hc).
      exists (S k), j. split; [lia|]. split.
      * now apply Hround.
      * rewrite !count_app, H55, H41, Hc. reflexivity.
Qed.

End ResponseReads.

(** Turns the steps of an inverted run of [sdcard_init] into the commands
    each has sent and the number of response words each has read. *)
Ltac steps_sent_reads cfg hw :=
  repeat match goal with
    | Hs : sdcard_send_command hw ?arg ?cmd ?rsp ?f ?hh = Done ?x ?di |- _ =>
        pose proof (send_command_sent hw arg cmd rsp f hh x di Hs);
        apply send_command_no_response_read in Hs
    | Hs : sdcard_set_clk_freq cfg ?F 0 ?f ?hh = Done ?x ?di |- _ =>
        rewrite set_clk_freq_quiet_eq in Hs; injection Hs as _ <-
    | Hs : busy_wait ?ms ?f ?hh = Done ?x ?di |- _ =>
        injection Hs as _ <-
    | Hs : csr_write ?r ?v ?f ?hh = Done ?x ?di |- _ =>
        apply csr_write_Done in Hs; subst di
    end.

(** X12. The commands of a successful bring-up, for any hardware.  A run of
    [sdcard_init] that returns nonzero splits at the four response words it
    reads right after SET_RELATIVE_ADDRESS, of which word 3 gives the RCA in
    its upper half.  Before them it has sent, in order: GO_IDLE (argument 0)
    k0 times, SEND_EXT_CSD with the check pattern 0x1aa, k1 rounds of APP_CMD
    (RCA 0) and APP_SEND_OP_COND (0x70ff8000: the voltage window with the
    high-capacity bit), ALL_SEND_CID and SET_RELATIVE_ADDRESS, with
    1 <= k0, k1 <= 1000; and it has made 4 j reads of response words, with
    1 <= j <= k1 (a round of the negotiation reads the four words when its
    APP_SEND_OP_COND returned Ok).  After them, with the RCA in the upper
    half of the argument: SEND_CID, SEND_CSD, SELECT_CARD, APP_CMD, then
    SET_BUS_WIDTH with argument 2 (4 bits), SWITCH_FUNC (once or retried),
    APP_CMD with the RCA, APP_SEND_SCR (once or retried) and
    SET_BLOCKLEN 512, and no further read of a response word; and no other
    command. *)
Theorem bring_up_commands (cfg : build) (hw : list event -> csr -> Z)
  (fuel : nat) (h : list event) (r : Z) (d : list event) :
  sdcard_init cfg hw fuel h = Done r d -> r <> 0 ->
  exists k0 k1 k2 k3 j pre r0 r1 r2 r3 post,
    d = pre
        ++ [CsrRead (SDCARD_CORE_CMD_RESPONSE 0) r0;
            CsrRead (SDCARD_CORE_CMD_RESPONSE 1) r1;
            CsrRead (SDCARD_CORE_CMD_RESPONSE 2) r2;
            CsrRead (SDCARD_CORE_CMD_RESPONSE 3) r3]
        ++ post
    /\ (1 <= k0 <= 1000 /\ 1 <= j <= k1 /\ k1 <= 1000
        /\ 1 <= k2 /\ 1 <= k3)%nat
    /\ 0 <= r3 < 2 ^ 32
    /\ (forall a c,
           sent a c pre
           = repeat (0, 0) k0
             ++ [(8, 0x1aa)]
             ++ List.concat (repeat [(55, 0); (41, 0x70ff8000)] k1)
             ++ [(2, 0); (3, 0)])
    /\ occurrences is_response_read pre = (4 * j)%nat
    /\ (forall a c,
           sent a c post
           = [(10, r3 / 2 ^ 16 * 2 ^ 16); (9, r3 / 2 ^ 16 * 2 ^ 16);
              (7, r3 / 2 ^ 16 * 2 ^ 16); (55, r3 / 2 ^ 16 * 2 ^ 16); (6, 2)]
             ++ repeat (6, u32 (switch_argument (SD_SWITCH_SWITCH cfg)
                                  (SD_GROUP_ACCESSMODE cfg)
                                  (SD_SPEED_SDR25 cfg))) k2
             ++ [(55, r3 / 2 ^ 16 * 2 ^ 16)]
             ++ repeat (51, 0) k3
             ++ [(16, 512)])
    /\ occurrences is_response_read post = 0%nat.
Proof.
  intros H Hr. unfold sdcard_init in H. init_steps H.
  apply ret_Done in H. destruct H as [-> ->].
  unfold sdcard_send_ext_csd, sdcard_all_send_cid,
    sdcard_set_relative_address, sdcard_send_cid, sdcard_send_csd,
    sdcard_select_card, sdcard_app_cmd, sdcard_app_set_bus_width,
    sdcard_app_set_blocklen in *.
  repeat match goal with
         | Hn : (_ =? 0)%nat = false |- _ => apply Nat.eqb_neq in Hn
         end.
  match goal with
  | Hs : go_idle_loop _ _ _ _ _ = Done _ _ |- _ =>
      pose proof (go_idle_loop_no_response_read _ _ _ _ _ _ _ Hs);
      apply go_idle_loop_sent in Hs; [|assumption];
      destruct Hs as (k0 & Hk0 & Hidle)
  end.
  match goal with
  | Hs : op_cond_loop _ _ _ _ _ = Done _ _ |- _ =>
      apply op_cond_loop_sent_reads in Hs; [|assumption];
      destruct Hs as (k1 & j & Hk1 & Hocr & Hocr_reads)
  end.
  match goal with
  | Hs : sdcard_switch _ _ _ _ _ _ _ = Done _ _ |- _ =>
      pose proof (switch_no_response_read _ _ _ _ _ _ _ _ _ Hs);
      apply switch_sent in Hs; destruct Hs as (k2 & Hk2 & Hswitch)
  end.
  match goal with
  | Hs : sdcard_app_send_scr _ _ _ _ = Done _ _ |- _ =>
      pose proof (app_send_scr_no_response_read _ _ _ _ _ _ Hs);
      apply app_send_scr_sent in Hs; destruct Hs as (k3 & Hk3 & Hscr)
  end.
  steps_sent_reads cfg hw.
  match goal with
  | Hdec : sdcard_decode_rca _ _ _ = Done ?rca ?dr |- _ =>
      destruct (decode_rca_Done _ _ _ _ _ Hdec)
        as (r0 & r1 & r2 & r3 & Edr & Er3 & ->);
      clear Hdec;
      match goal with
      | |- exists _ _ _ _ _ _ _ _ _ _ _, ?D = _ /\ _ =>
          let p := split_at dr D in
          lazymatch p with
          | (?pre, ?post) =>
              exists k0, k1, k2, k3, j, pre, r0, r1, r2, r3, post
          end
      end;
      rewrite <- Edr
  end.
  assert (0 <= r3 < 2 ^ 32) as Hr3 by (rewrite Er3; apply u32_range).
  split; [now rewrite <- !app_assoc|].
  split; [lia|]. split; [exact Hr3|].
  assert (forall w, occurrences is_response_read
                      [CsrWrite SDCARD_PHY_CLOCKER_DIVIDER w] = 0%nat)
    as Hdiv by reflexivity.
  repeat split;
    try (intros ra rc; rewrite ?sent_app;
         repeat match goal with
           | F : forall a c, sent a c ?x = _ |- context [sent _ _ ?x] =>
               rewrite F
           end;
         rewrite ?rca_argument by exact Hr3; cbn [app sent]; reflexivity);
    rewrite ?count_app, ?Hdiv;
    repeat match goal with
      | F : occurrences is_response_read ?x = _
        |- context [occurrences is_response_read ?x] => rewrite F
      end;
    try reflexivity; try (cbn [occurrences filter is_response_read
                                List.length]; lia).
Qed.

(** The bring-up succeeds on hardware that completes everything at once. *)
Lemma bring_up_commands_witness :
  exists k0 k1 k2 k3 j pre r0 r1 r2 r3 post,
    events (sdcard_init sample_build hw_ok 1%nat [])
    = pre
      ++ [CsrRead (SDCARD_CORE_CMD_RESPONSE 0) r0;
          CsrRead (SDCARD_CORE_CMD_RESPONSE 1) r1;
          CsrRead (SDCARD_CORE_CMD_RESPONSE 2) r2;
          CsrRead (SDCARD_CORE_CMD_RESPONSE 3) r3]
      ++ post
    /\ (1 <= k0 <= 1000 /\ 1 <= j <= k1 /\ k1 <= 1000
        /\ 1 <= k2 /\ 1 <= k3)%nat
    /\ 0 <= r3 < 2 ^ 32
    /\ (forall a c,
           sent a c pre
           = repeat (0, 0) k0
             ++ [(8, 0x1aa)]
             ++ List.concat (repeat [(55, 0); (41, 0x70ff8000)] k1)
             ++ [(2, 0); (3, 0)])
    /\ occurrences is_response_read pre = (4 * j)%nat
    /\ (forall a c,
           sent a c post
           = [(10, r3 / 2 ^ 16 * 2 ^ 16); (9, r3 / 2 ^ 16 * 2 ^ 16);
              (7, r3 / 2 ^ 16 * 2 ^ 16); (55, r3 / 2 ^ 16 * 2 ^ 16); (6, 2)]
             ++ repeat (6, u32 (switch_argument
                                  (SD_SWITCH_SWITCH sample_build)
                                  (SD_GROUP_ACCESSMODE sample_build)
                                  (SD_SPEED_SDR25 sample_build))) k2
             ++ [(55, r3 / 2 ^ 16 * 2 ^ 16)]
             ++ repeat (51, 0) k3
             ++ [(16, 512)])
    /\ occurrences is_response_read post = 0%nat.
Proof.
  apply (bring_up_commands sample_build hw_ok 1%nat [] 1).
  - vm_compute. reflexivity.
  - discriminate.
Defined.
